(** * langSwtich-TARA: the streaming orchestration layer

    A shallow embedding of the Python sources
      - [src/audio_handler.py]              (module [AudioHandler])
      - [src/language_detector.py]          (module [LanguageDetector])
      - [src/main.py]                       (module [Main])
      - [src/approach_4_realtime_fixed.py]  (module [Approach4])
      - [src/realtime_working.py]           (module [RealtimeWorking])
      - [src/simple_working.py]             (module [SimpleWorking])
    together with the parts of Python, numpy and [queue.Queue] they rely on
    (modules [Py], [Float], [PyQueue]).

    External collaborators (the language-identification model, the Vosk
    recogniser, the text-to-speech engine) are arguments of the embedded
    functions: every theorem quantifies over what they may answer,
    including the exceptions they may raise. *)

From Stdlib Require Import ZArith NArith List Bool Lia Ascii String.
From Stdlib Require Import Strings.Byte.
From Stdlib Require Import Floats.SpecFloat.
Import ListNotations.

Set Implicit Arguments.

(* ================================================================== *)
(** * Python values *)
(* ================================================================== *)

Module Py.

(** A Python computation either returns a value or raises. *)
Inductive outcome (A : Type) : Type :=
| Return (a : A)
| Raise (e : string).
Arguments Return {A} a.
Arguments Raise {A} e.

Definition bind {A B} (m : outcome A) (k : A -> outcome B) : outcome B :=
  match m with
  | Return a => k a
  | Raise e => Raise e
  end.

(** [try: body / except Exception as e: handler e] *)
Definition try_except {A} (body : outcome A) (handler : string -> outcome A)
  : outcome A :=
  match body with
  | Return a => Return a
  | Raise e => handler e
  end.

Definition raises {A} (m : outcome A) : bool :=
  match m with Return _ => false | Raise _ => true end.

(** A [str] is a sequence of Unicode code points; [len] counts them. *)
Definition char := N.
Definition str := list char.

Definition len (s : str) : Z := Z.of_nat (List.length s).

(** Truthiness of a [str]: non-empty. *)
Definition truthy (s : str) : bool :=
  match s with [] => false | _ :: _ => true end.

Definition str_eqb (a b : str) : bool :=
  if list_eq_dec N.eq_dec a b then true else false.

(** [str.isspace] on one code point. *)
Definition isspace (c : char) : bool :=
  ((9 <=? c) && (c <=? 13) || (28 <=? c) && (c <=? 32)
   || (c =? 133) || (c =? 160) || (c =? 5760)
   || (8192 <=? c) && (c <=? 8202)
   || (c =? 8232) || (c =? 8233) || (c =? 8239) || (c =? 8287)
   || (c =? 12288))%N.

Fixpoint lstrip (s : str) : str :=
  match s with
  | [] => []
  | c :: t => if isspace c then lstrip t else s
  end.

Definition rstrip (s : str) : str := rev (lstrip (rev s)).

(** [s.strip()] *)
Definition strip (s : str) : str := rstrip (lstrip s).

(** A literal of ASCII characters as a [str]. *)
Fixpoint lit (s : string) : str :=
  match s with
  | EmptyString => []
  | String a t => N_of_ascii a :: lit t
  end.

(** [s] is empty or starts with a character that is not white space. *)
Definition no_leading_space (s : str) : Prop :=
  match s with
  | [] => True
  | c :: _ => isspace c = false
  end.

End Py.

(* ================================================================== *)
(** * IEEE-754 numbers: Python [float] and numpy/torch [float32] *)
(* ================================================================== *)

Module Float.

Local Open Scope Z_scope.

(** Python floats are binary64; comparisons do not depend on the format. *)
Definition float := spec_float.

(** [a >= b] *)
Definition ge (a b : float) : bool := SFleb b a.
(** [a < b] *)
Definition lt (a b : float) : bool := SFltb a b.
(** [a == b] *)
Definition eq (a b : float) : bool := SFeqb a b.

Definition zero : float := S754_zero false.            (* 0.0 *)

(** binary64 literals used by the configuration and in examples *)
Definition f0_5 : float := S754_finite false 4503599627370496 (-53).
Definition f0_8 : float := S754_finite false 7205759403792794 (-53).
Definition f0_9 : float := S754_finite false 8106479329266893 (-53).

(** binary32: 24 bits of precision, [emax = 128] *)
Definition float32 := spec_float.
Definition prec32 : Z := 24.
Definition emax32 : Z := 128.

(** [numpy.int16 -> numpy.float32] ([astype(np.float32)]) *)
Definition f32_of_int (z : Z) : float32 :=
  binary_normalize prec32 emax32 z 0 false.

Definition f32_div : float32 -> float32 -> float32 := SFdiv prec32 emax32.
Definition f32_mul : float32 -> float32 -> float32 := SFmul prec32 emax32.

(** The scalar [32768.0] as it enters a float32 operation. *)
Definition f32768 : float32 := Eval vm_compute in f32_of_int 32768.
Definition f32_one : float32 := Eval vm_compute in f32_of_int 1.
Definition f32_minus_one : float32 := Eval vm_compute in f32_of_int (-1).

(** Truncation toward zero of a finite number. *)
Definition trunc (x : spec_float) : option Z :=
  match x with
  | S754_zero _ => Some 0
  | S754_finite s m e =>
      let a := match e with
               | Z0 => Zpos m
               | Zpos _ => Z.shiftl (Zpos m) e
               | Zneg p => Z.shiftr (Zpos m) (Zpos p)
               end in
      Some (if s then - a else a)
  | S754_infinity _ | S754_nan => None
  end.

(** [astype(np.int16)] on a float: the C conversion truncates toward
    zero; what it does on NaN, infinities and values outside the int16
    range is left unspecified by numpy, hence [None]. *)
Definition astype_int16 (x : float32) : option Z :=
  match trunc x with
  | Some z => if (-32768 <=? z) && (z <=? 32767) then Some z else None
  | None => None
  end.

(** The C conversion of a float to a 32-bit integer, as numpy's cast
    loop runs it on x86-64: truncation toward zero, and [-2^31] (the
    "integer indefinite" value) on NaN, infinities and numbers outside
    the int32 range. *)
Definition to_int32 (x : spec_float) : Z :=
  match trunc x with
  | Some z =>
      if (-2147483648 <=? z) && (z <=? 2147483647) then z else -2147483648
  | None => -2147483648
  end.

(** The low 16 bits of an integer, read as an int16. *)
Definition wrap_int16 (z : Z) : Z := (z + 32768) mod 65536 - 32768.

(** [astype(np.int16)] on every float, as the machine computes it: the
    conversion to 32 bits, of which the low 16 bits are kept.  So
    [32768.0] becomes [-32768], [70000.0] becomes [4464], and NaN,
    infinities and numbers outside the int32 range become [0].  Where
    [astype_int16] is defined the two agree. *)
Definition astype_int16_wrap (x : float32) : Z := wrap_int16 (to_int32 x).

End Float.

(* ================================================================== *)
(** * [audio_handler.py] *)
(* ================================================================== *)

Module AudioHandler.

Import Py Float.
Local Open Scope Z_scope.

Definition bytes := list byte.
Definition tensor := list float32.

Definition byte_val (b : byte) : Z := Z.of_N (Byte.to_N b).

(** One little-endian two's-complement 16-bit sample. *)
Definition int16_of_bytes (lo hi : byte) : Z :=
  let u := byte_val lo + 256 * byte_val hi in
  if u <? 32768 then u else u - 65536.

(** [np.frombuffer(audio_bytes, dtype=np.int16)]: raises [ValueError]
    when the buffer size is not a multiple of the element size. *)
Fixpoint frombuffer_int16 (audio_bytes : bytes) : outcome (list Z) :=
  match audio_bytes with
  | [] => Return []
  | [_] => Raise "buffer size must be a multiple of element size"
  | lo :: hi :: rest =>
      bind (frombuffer_int16 rest)
           (fun a => Return (int16_of_bytes lo hi :: a))
  end.

(** [audio_array.astype(np.float32) / 32768.0] on one sample *)
Definition normalize (sample : Z) : float32 :=
  f32_div (f32_of_int sample) f32768.

(** [AudioHandler.bytes_to_tensor] *)
Definition bytes_to_tensor (audio_bytes : bytes) : outcome tensor :=
  try_except
    (bind (frombuffer_int16 audio_bytes)
          (fun audio_array => Return (map normalize audio_array)))
    (fun e => (* print(f"Audio conversion error: {e}") *) Return []).

(** [(audio_array * 32768.0).astype(np.int16)], the denormalisation of
    [AudioHandler.save_audio] and of [LanguageSwitchSystem.process_file],
    where numpy specifies the cast; [to_int16] below is the same on
    every tensor. *)
Definition denormalize1 (x : float32) : option Z :=
  astype_int16 (f32_mul x f32768).

Fixpoint denormalize (t : tensor) : option (list Z) :=
  match t with
  | [] => Some []
  | x :: rest =>
      match denormalize1 x, denormalize rest with
      | Some z, Some zs => Some (z :: zs)
      | _, _ => None
      end
  end.

(** [(audio_array * 32768.0).astype(np.int16)] on every tensor, with
    the cast as the machine computes it. *)
Definition to_int16 (t : tensor) : list Z :=
  map (fun x => astype_int16_wrap (f32_mul x f32768)) t.

Definition byte_of_Z (z : Z) : byte :=
  match Byte.of_N (Z.to_N (z mod 256)) with
  | Some b => b
  | None => x00
  end.

(** [ndarray.tobytes()] of an int16 array (little endian). *)
Fixpoint tobytes_int16 (a : list Z) : bytes :=
  match a with
  | [] => []
  | z :: rest => byte_of_Z z :: byte_of_Z (z / 256) :: tobytes_int16 rest
  end.

Definition is_int16 (z : Z) : Prop := -32768 <= z <= 32767.

End AudioHandler.

(* ================================================================== *)
(** * The Vosk recogniser, an external collaborator *)
(* ================================================================== *)

Module Vosk.

Import Py.

Definition bytes := list byte.

(** What has been asked of one [KaldiRecognizer] object since it was
    built: its whole state, as far as its answers are concerned. *)
Inductive call : Type :=
| Feed (data : bytes)       (* AcceptWaveform(data) *)
| Finalize.                 (* FinalResult() *)

(** After [AcceptWaveform(data)]: the recogniser either commits a
    result, read with [json.loads(Result()).get('text', '')], or only
    has a partial one, read with
    [json.loads(PartialResult()).get('partial', '')]. *)
Inductive answer : Type :=
| Accepted (text : str)
| Partial (partial : str).

(** A loaded model: how a recogniser built from it answers the last
    call of a history (the last element of the list). Any call may raise. *)
Record Model : Type := {
  accept_waveform : list call -> outcome answer;
  final_result : list call -> outcome str
}.

(** [KaldiRecognizer(model, sample_rate)] *)
Record KaldiRecognizer : Type := {
  model : Model;
  history : list call
}.

Definition new (m : Model) : KaldiRecognizer :=
  {| model := m; history := [] |}.

Definition feed (r : KaldiRecognizer) (data : bytes)
  : outcome answer * KaldiRecognizer :=
  let h := history r ++ [Feed data] in
  (accept_waveform (model r) h, {| model := model r; history := h |}).

Definition finalize (r : KaldiRecognizer) : outcome str * KaldiRecognizer :=
  let h := history r ++ [Finalize] in
  (final_result (model r) h, {| model := model r; history := h |}).

End Vosk.

(* ================================================================== *)
(** * [speech_recognizer.py] *)
(* ================================================================== *)

Module SpeechRecognizer.

Import Py.

Record t : Type := {
  recognizer : option Vosk.KaldiRecognizer
}.

(** [SpeechRecognizer.transcribe_audio]; the [language] argument is not
    used by the body ("for future multi-model support"). *)
Definition transcribe_audio (self : t) (audio_data : Vosk.bytes)
           (language : string) : outcome str * t :=
  match recognizer self with
  | None => (Return [], self)
  | Some r =>
      let (ans, r') := Vosk.feed r audio_data in
      (try_except
         (bind ans (fun a =>
            match a with
            | Vosk.Accepted text => Return (strip text)
            | Vosk.Partial partial => Return (strip partial)
            end))
         (fun e => (* print(f"Speech recognition error: {e}") *) Return []),
       {| recognizer := Some r' |})
  end.

(** [SpeechRecognizer.finalize_transcription] *)
Definition finalize_transcription (self : t) : outcome str * t :=
  match recognizer self with
  | None => (Return [], self)
  | Some r =>
      let (fin, r') := Vosk.finalize r in
      (try_except
         (bind fin (fun text => Return (strip text)))
         (fun e => (* print(f"Final transcription error: {e}") *) Return []),
       {| recognizer := Some r' |})
  end.

(** [SpeechRecognizer.reset]: a new recogniser on the same model. *)
Definition reset (self : t) : t :=
  match recognizer self with
  | Some r => {| recognizer := Some (Vosk.new (Vosk.model r)) |}
  | None => self
  end.

End SpeechRecognizer.

(* ================================================================== *)
(** * [language_detector.py] *)
(* ================================================================== *)

Module LanguageDetector.

Import Py Float.

Definition tensor := list float32.

(** The SpeechBrain classifier: [prediction = classify_batch(tensor)]
    read as [(prediction[3][0], float(prediction[1][0]))]; any of these
    steps may raise. *)
Definition Classifier := tensor -> outcome (string * float).

Record t : Type := {
  confidence_threshold : float;
  model : option Classifier         (* [None] when loading failed *)
}.

(** [LanguageDetector.detect_language] *)
Definition detect_language (self : t) (audio_tensor : tensor)
  : outcome (string * float) :=
  match model self with
  | None => Return ("en"%string, zero)
  | Some classify =>
      try_except
        (bind (classify audio_tensor)
              (fun '(language, confidence) => Return (language, confidence)))
        (fun e => (* print(f"Language detection error: {e}") *)
           Return ("en"%string, zero))
  end.

(** [LanguageDetector.is_confidence_high] *)
Definition is_confidence_high (self : t) (confidence : float) : bool :=
  ge confidence (confidence_threshold self).

End LanguageDetector.

(* ================================================================== *)
(** * [text_to_speech.py] *)
(* ================================================================== *)

Module TextToSpeech.

Import Py.

(** The Coqui model: [tts_to_file(text, file_path, language)] may raise. *)
Definition TTSModel := str -> string -> string -> outcome unit.

Record t : Type := {
  model : option TTSModel           (* [None] when loading failed *)
}.

Inductive event : Type :=
| TtsToFile (text : str) (file_path : string) (language : string)
| PrintSynthesisError (e : string).

(** [TextToSpeech.synthesize_speech]: the success status and the events. *)
Definition synthesize_speech (self : t) (text : str) (language : string)
           (output_path : string) : bool * list event :=
  match model self with
  | None => (false, [])
  | Some m =>
      if negb (truthy (strip text)) then (false, [])
      else
        match m text output_path language with
        | Return _ => (true, [TtsToFile text output_path language])
        | Raise e => (false, [TtsToFile text output_path language;
                              PrintSynthesisError e])
        end
  end.

End TextToSpeech.

(* ================================================================== *)
(** * [main.py]: [LanguageSwitchSystem] *)
(* ================================================================== *)

Module Main.

Import Py Float.

Definition bytes := list byte.

Record LanguageSwitchSystem : Type := {
  language_detector : LanguageDetector.t;
  speech_recognizer : SpeechRecognizer.t;
  current_language : string
}.

(** What one call to [process_audio_chunk] does besides returning. *)
Inductive event : Type :=
| PrintLanguageSwitched (old new : string) (confidence : float)
| Transcribe (audio : bytes) (language : string).

Definition set_current_language (self : LanguageSwitchSystem) (l : string) :=
  {| language_detector := language_detector self;
     speech_recognizer := speech_recognizer self;
     current_language := l |}.

Definition set_speech_recognizer (self : LanguageSwitchSystem)
           (r : SpeechRecognizer.t) :=
  {| language_detector := language_detector self;
     speech_recognizer := r;
     current_language := current_language self |}.

Definition numel (t : AudioHandler.tensor) : Z := Z.of_nat (List.length t).

(** [LanguageSwitchSystem.process_audio_chunk]: the returned value
    ([None] or the transcription), the system afterwards and the
    events of the call, in order. *)
Definition process_audio_chunk (self : LanguageSwitchSystem)
           (audio_bytes : bytes)
  : outcome (option str * LanguageSwitchSystem * list event) :=
  bind (AudioHandler.bytes_to_tensor audio_bytes) (fun audio_tensor =>
  if (numel audio_tensor =? 0)%Z then Return (None, self, [])
  else
    bind (LanguageDetector.detect_language (language_detector self)
                                           audio_tensor)
    (fun '(detected_lang, confidence) =>
      if LanguageDetector.is_confidence_high (language_detector self)
                                             confidence
      then
        let '(self1, ev1) :=
          if negb (String.eqb detected_lang (current_language self))
          then (set_current_language self detected_lang,
                [PrintLanguageSwitched (current_language self)
                                       detected_lang confidence])
          else (self, []) in
        let '(res, sr) :=
          SpeechRecognizer.transcribe_audio (speech_recognizer self1)
                                            audio_bytes detected_lang in
        bind res (fun transcription =>
          Return (Some transcription, set_speech_recognizer self1 sr,
                  ev1 ++ [Transcribe audio_bytes detected_lang]))
      else Return (None, self, []))).

Definition is_switch (e : event) : bool :=
  match e with PrintLanguageSwitched _ _ _ => true | Transcribe _ _ => false end.

Definition transcribed_under (l : string) (e : event) : bool :=
  match e with
  | Transcribe _ l' => String.eqb l l'
  | PrintLanguageSwitched _ _ _ => false
  end.

(** What one turn of the loop of [run_realtime] does. *)
Inductive loop_event : Type :=
| ProcessAudioChunk (audio_buffer : bytes) (evs : list event)
| PrintTranscription (language : string) (transcription : str).

(** One turn of the [while self.is_running] loop of [run_realtime],
    lines 97-118. [chunk_size] is [self.config['audio']['chunk_size']]
    and [chunk] what [read_audio_chunk] returned. Gives the system, the
    local [audio_buffer] and the events of the turn. *)
Definition realtime_turn (chunk_size : Z) (self : LanguageSwitchSystem)
           (audio_buffer : bytes) (chunk : option bytes)
  : outcome (LanguageSwitchSystem * bytes * list loop_event) :=
  match chunk with
  | None => Return (self, audio_buffer, [])
  | Some chunk =>
      let audio_buffer := audio_buffer ++ chunk in
      if (chunk_size * 4 <=? Z.of_nat (List.length audio_buffer))%Z then
        bind (process_audio_chunk self audio_buffer)
          (fun '(transcription, self', evs) =>
             let printed :=
               match transcription with
               | Some t =>
                   if truthy t && truthy (strip t)
                   then [PrintTranscription (current_language self') t]
                   else []
               | None => []
               end in
             Return (self', [], ProcessAudioChunk audio_buffer evs :: printed))
      else Return (self, audio_buffer, [])
  end.

Fixpoint realtime_turns (chunk_size : Z) (self : LanguageSwitchSystem)
         (audio_buffer : bytes) (read : list (option bytes))
  : outcome (LanguageSwitchSystem * bytes * list loop_event) :=
  match read with
  | [] => Return (self, audio_buffer, [])
  | chunk :: rest =>
      bind (realtime_turn chunk_size self audio_buffer chunk)
        (fun '(self1, buffer1, ev1) =>
           bind (realtime_turns chunk_size self1 buffer1 rest)
             (fun '(self2, buffer2, ev2) =>
                Return (self2, buffer2, ev1 ++ ev2)))
  end.

(** The loop of [run_realtime], from [audio_buffer = b""]. *)
Definition run_realtime (chunk_size : Z) (self : LanguageSwitchSystem)
           (read : list (option bytes))
  : outcome (LanguageSwitchSystem * bytes * list loop_event) :=
  realtime_turns chunk_size self [] read.

(** The buffers handed to [process_audio_chunk], in order. *)
Fixpoint processed (evs : list loop_event) : list bytes :=
  match evs with
  | [] => []
  | ProcessAudioChunk b _ :: rest => b :: processed rest
  | PrintTranscription _ _ :: rest => processed rest
  end.

(** The chunks that were read, in order. *)
Fixpoint chunks_read (read : list (option bytes)) : list bytes :=
  match read with
  | [] => []
  | Some c :: rest => c :: chunks_read rest
  | None :: rest => chunks_read rest
  end.

Inductive file_event : Type :=
| PrintDetected (language : string) (confidence : float)
| PrintLowConfidence
| FileTranscribe (audio_bytes : bytes) (language : string)
| PrintFileTranscription (transcription : str)
| Synthesis (evs : list TextToSpeech.event)
| PrintSaved (output_file : string)
| PrintSynthesisFailed
| PrintFileError (e : string).

(** Truthiness of the optional [output_file] argument. *)
Definition output_given (output_file : option string) : option string :=
  match output_file with
  | Some EmptyString | None => None
  | Some f => Some f
  end.

(** [LanguageSwitchSystem.process_file]. [loaded] is
    [torch.tensor(sf.read(input_file)[0], dtype=torch.float32)], which may
    raise. The cast to int16 of line 145 is the one the machine computes:
    a sample of [1.0] is sent as [-32768]. *)
Definition process_file (self : LanguageSwitchSystem) (tts : TextToSpeech.t)
           (loaded : outcome AudioHandler.tensor) (output_file : option string)
  : LanguageSwitchSystem * list file_event :=
  match loaded with
  | Raise e => (self, [PrintFileError e])
  | Return audio_tensor =>
      match LanguageDetector.detect_language (language_detector self)
                                             audio_tensor with
      | Raise e => (self, [PrintFileError e])
      | Return (detected_lang, confidence) =>
          if negb (LanguageDetector.is_confidence_high
                     (language_detector self) confidence)
          then (self, [PrintDetected detected_lang confidence;
                       PrintLowConfidence])
          else
            let audio_bytes :=
              AudioHandler.tobytes_int16 (AudioHandler.to_int16 audio_tensor) in
            let '(res, sr) :=
              SpeechRecognizer.transcribe_audio (speech_recognizer self)
                                                audio_bytes detected_lang in
            let self' := set_speech_recognizer self sr in
            match res with
            | Raise e =>
                (self', [PrintDetected detected_lang confidence;
                         FileTranscribe audio_bytes detected_lang;
                         PrintFileError e])
            | Return transcription =>
                let ev :=
                  [PrintDetected detected_lang confidence;
                   FileTranscribe audio_bytes detected_lang;
                   PrintFileTranscription transcription] in
                match output_given output_file with
                | None => (self', ev)
                | Some f =>
                    let '(success, tev) :=
                      TextToSpeech.synthesize_speech tts transcription
                                                     detected_lang f in
                    (self',
                     ev ++ [Synthesis tev;
                            if success then PrintSaved f
                            else PrintSynthesisFailed])
                end
            end
      end
  end.

End Main.

(* ================================================================== *)
(** * Python's [queue.Queue] *)
(* ================================================================== *)

Module PyQueue.

Section Queue.
Variable A : Type.

(** [maxsize <= 0] means that the queue size is infinite. *)
Record Queue : Type := {
  maxsize : Z;
  items : list A
}.

(** [queue.Queue()]: [maxsize] defaults to 0. *)
Definition create : Queue := {| maxsize := 0; items := [] |}.

Definition qsize (q : Queue) : Z := Z.of_nat (List.length (items q)).

Definition full (q : Queue) : bool :=
  ((0 <? maxsize q) && (maxsize q <=? qsize q))%Z.

(** [put(item)] with the default [block=True, timeout=None]: waits
    for a free slot while the queue is full. *)
Inductive put_result : Type :=
| Put (q : Queue)
| Blocks.

Definition put (q : Queue) (item : A) : put_result :=
  if full q then Blocks
  else Put {| maxsize := maxsize q; items := items q ++ [item] |}.

(** [get(timeout=...)]: the oldest item, or [None] for the
    [queue.Empty] raised when the timeout expires. *)
Definition get (q : Queue) : option (A * Queue) :=
  match items q with
  | [] => None
  | x :: rest => Some (x, {| maxsize := maxsize q; items := rest |})
  end.

End Queue.

End PyQueue.

(* ================================================================== *)
(** * [approach_4_realtime_fixed.py]: [RealTimeLanguageSwitch] *)
(* ================================================================== *)

Module Approach4.

Import Py Float.

(** A queue item: the float32 samples of one captured frame. *)
Definition frame := list float32.

Record RealTimeLanguageSwitch : Type := {
  sample_rate : nat;
  current_language : string;
  callback : option (list float32 -> string -> outcome unit)
}.

Inductive event : Type :=
| Callback (audio_array : list float32) (language : string)
| PrintProcessingError (e : string).

(** [buffer_size = self.sample_rate * 2] *)
Definition buffer_size (self : RealTimeLanguageSwitch) : nat :=
  sample_rate self * 2.

(** One turn of the [while self.is_recording] loop of
    [process_audio_queue]; [item] is what [audio_queue.get(timeout=0.1)]
    gave, [None] standing for [queue.Empty]. Returns the new [buffer]
    and the events of the turn. *)
Definition process_item (self : RealTimeLanguageSwitch)
           (buffer : list float32) (item : option frame)
  : list float32 * list event :=
  match item with
  | None => (buffer, [])
  | Some audio_chunk =>
      let buffer := buffer ++ audio_chunk in
      if buffer_size self <=? List.length buffer then
        let audio_array := firstn (buffer_size self) buffer in
        let buffer := skipn (buffer_size self / 2) buffer in
        match callback self with
        | None => (buffer, [])
        | Some cb =>
            match cb audio_array (current_language self) with
            | Return _ =>
                (buffer, [Callback audio_array (current_language self)])
            | Raise e =>
                (buffer, [Callback audio_array (current_language self);
                          PrintProcessingError e])
            end
        end
      else (buffer, [])
  end.

(** [process_audio_queue] over the successive results of [get],
    starting with [buffer = []]. *)
Fixpoint process_items (self : RealTimeLanguageSwitch)
         (buffer : list float32) (got : list (option frame))
  : list float32 * list event :=
  match got with
  | [] => (buffer, [])
  | item :: rest =>
      let '(buffer1, ev1) := process_item self buffer item in
      let '(buffer2, ev2) := process_items self buffer1 rest in
      (buffer2, ev1 ++ ev2)
  end.

Definition process_audio_queue (self : RealTimeLanguageSwitch)
           (got : list (option frame)) : list float32 * list event :=
  process_items self [] got.

(** The windows handed to the callback, in order. *)
Fixpoint windows (evs : list event) : list (list float32) :=
  match evs with
  | [] => []
  | Callback w _ :: rest => w :: windows rest
  | PrintProcessingError _ :: rest => windows rest
  end.

(** The windows [ws] all have [W] samples, the first one starts with
    [seed], and each one after it starts with what was kept of the one
    before, [skipn (W / 2)] of it. *)
Fixpoint chained (W : nat) (seed : list float32)
         (ws : list (list float32)) : Prop :=
  match ws with
  | [] => True
  | w :: rest =>
      List.length w = W
      /\ firstn (List.length seed) w = seed
      /\ chained W (skipn (W / 2) w) rest
  end.

(** The samples delivered by the queue, in order. *)
Fixpoint stream (got : list (option frame)) : list float32 :=
  match got with
  | [] => []
  | Some audio_chunk :: rest => audio_chunk ++ stream rest
  | None :: rest => stream rest
  end.

(** Lines 47-48 of [_audio_callback]: the frame put on the queue for
    the raw block [in_data]; [np.frombuffer] is not guarded here. *)
Definition audio_frame (in_data : list byte) : outcome frame :=
  bind (AudioHandler.frombuffer_int16 in_data)
       (fun audio_data => Return (map AudioHandler.normalize audio_data)).

(** [_audio_callback] on the queue, for a given [is_recording]. *)
Definition _audio_callback (is_recording : bool) (audio_queue : PyQueue.Queue frame)
           (in_data : list byte) : outcome (PyQueue.put_result frame) :=
  if is_recording then
    bind (audio_frame in_data)
         (fun audio_data => Return (PyQueue.put audio_queue audio_data))
  else Return (PyQueue.Put audio_queue).

End Approach4.

(* ================================================================== *)
(** * [realtime_working.py]: [WorkingRealTimeSystem] *)
(* ================================================================== *)

Module RealtimeWorking.

Import Py.
Local Open Scope Z_scope.

Definition bytes := list byte.

(** The pyttsx3 engine: [say(text); runAndWait()] may raise. *)
Definition TTSEngine := str -> outcome unit.

Record WorkingRealTimeSystem : Type := {
  audio_queue : PyQueue.Queue bytes;
  is_recording : bool;
  current_language : string;
  sample_rate : Z;
  (** [vosk_model] and [vosk_recognizer] are set together by
      [_init_vosk]; the model is the one of the recogniser. *)
  vosk_recognizer : option Vosk.KaldiRecognizer;
  tts_engine : option TTSEngine
}.

(** [WorkingRealTimeSystem.__init__], collaborators given. *)
Definition init (vosk : option Vosk.Model) (tts : option TTSEngine)
  : WorkingRealTimeSystem :=
  {| audio_queue := PyQueue.create bytes;
     is_recording := false;
     current_language := "en";
     sample_rate := 16000;
     vosk_recognizer := option_map Vosk.new vosk;
     tts_engine := tts |}.

Definition set_audio_queue (self : WorkingRealTimeSystem)
           (q : PyQueue.Queue bytes) : WorkingRealTimeSystem :=
  {| audio_queue := q;
     is_recording := is_recording self;
     current_language := current_language self;
     sample_rate := sample_rate self;
     vosk_recognizer := vosk_recognizer self;
     tts_engine := tts_engine self |}.

(** [self.is_recording = True], as [start_recording] does once the
    stream is open. *)
Definition set_is_recording (self : WorkingRealTimeSystem) (b : bool)
  : WorkingRealTimeSystem :=
  {| audio_queue := audio_queue self;
     is_recording := b;
     current_language := current_language self;
     sample_rate := sample_rate self;
     vosk_recognizer := vosk_recognizer self;
     tts_engine := tts_engine self |}.

(** [_audio_callback], run by the capture thread for every frame:
    [None] when the call would block, else the system afterwards. *)
Definition _audio_callback (self : WorkingRealTimeSystem) (in_data : bytes)
  : option WorkingRealTimeSystem :=
  if is_recording self then
    match PyQueue.put (audio_queue self) in_data with
    | PyQueue.Put q => Some (set_audio_queue self q)
    | PyQueue.Blocks _ => None
    end
  else Some self.

(** The two threads seen from the queue: the capture thread delivers a
    frame, or the processing thread takes one. *)
Inductive queue_op : Type :=
| Capture (in_data : bytes)
| Take.

Fixpoint run_queue (self : WorkingRealTimeSystem) (ops : list queue_op)
  : option WorkingRealTimeSystem :=
  match ops with
  | [] => Some self
  | Capture in_data :: rest =>
      match _audio_callback self in_data with
      | Some self' => run_queue self' rest
      | None => None
      end
  | Take :: rest =>
      match PyQueue.get (audio_queue self) with
      | Some (_, q) => run_queue (set_audio_queue self q) rest
      | None => run_queue self rest
      end
  end.

(** The frames delivered by the capture thread, in order, and the
    number of attempts of the processing thread. *)
Fixpoint captured (ops : list queue_op) : list bytes :=
  match ops with
  | [] => []
  | Capture in_data :: rest => in_data :: captured rest
  | Take :: rest => captured rest
  end.

Fixpoint takes (ops : list queue_op) : nat :=
  match ops with
  | [] => O
  | Capture _ :: rest => takes rest
  | Take :: rest => S (takes rest)
  end.

Inductive event : Type :=
| PrintProcessing (n : Z)                               (* "Processing audio #n..." *)
| PrintNoRecognizer                                     (* " No Vosk recognizer" *)
| PrintChunkError (e : string)
| PrintFinalError (e : string)
| PrintTranscript (language : string) (transcription : str)
| Say (text : str)                                      (* tts_engine.say(text) *)
| PrintTTSError (e : string)
| PrintNoSpeech.                                        (* " ✓" *)

(** [speak_text] *)
Definition speak_text (self : WorkingRealTimeSystem) (text : str)
  : list event :=
  match tts_engine self with
  | None => []
  | Some engine =>
      if negb (truthy (strip text)) then []
      else match engine text with
           | Return _ => [Say text]
           | Raise e => [Say text; PrintTTSError e]
           end
  end.

Definition chunk_size : nat := 4000.

(** The slices [audio_buffer[i:i+chunk_size]] for
    [i in range(0, len(audio_buffer), chunk_size)]. *)
Fixpoint chunks_upto (fuel : nat) (audio_buffer : bytes) : list bytes :=
  match fuel, audio_buffer with
  | _, [] => []
  | O, _ :: _ => []
  | S fuel', _ :: _ =>
      firstn chunk_size audio_buffer
      :: chunks_upto fuel' (skipn chunk_size audio_buffer)
  end.

Definition chunks (audio_buffer : bytes) : list bytes :=
  chunks_upto (List.length audio_buffer) audio_buffer.

(** The body of the [for] loop over the sub-chunks, lines 201-215. *)
Definition accept_chunk (recognizer : Vosk.KaldiRecognizer)
           (transcription : str) (chunk_data : bytes)
  : Vosk.KaldiRecognizer * str * list event :=
  if 0 <? Z.of_nat (List.length chunk_data) then
    let (ans, recognizer') := Vosk.feed recognizer chunk_data in
    match ans with
    | Return (Vosk.Accepted t) =>
        let text := strip t in
        (recognizer', if truthy text then text else transcription, [])
    | Return (Vosk.Partial p) =>
        let partial := strip p in
        (recognizer',
         if truthy partial && (len transcription <? len partial)
         then partial else transcription,
         [])
    | Raise e => (recognizer', transcription, [PrintChunkError e])
    end
  else (recognizer, transcription, []).

Fixpoint accept_chunks (recognizer : Vosk.KaldiRecognizer)
         (transcription : str) (cs : list bytes)
  : Vosk.KaldiRecognizer * str * list event :=
  match cs with
  | [] => (recognizer, transcription, [])
  | chunk_data :: rest =>
      let '(r1, t1, ev1) := accept_chunk recognizer transcription chunk_data in
      let '(r2, t2, ev2) := accept_chunks r1 t1 rest in
      (r2, t2, ev1 ++ ev2)
  end.

(** "Get final result", lines 218-224. *)
Definition final_result (recognizer : Vosk.KaldiRecognizer)
           (transcription : str) : str * list event :=
  match fst (Vosk.finalize recognizer) with
  | Return t =>
      let final_text := strip t in
      (if truthy final_text then final_text else transcription, [])
  | Raise e => (transcription, [PrintFinalError e])
  end.

(** The transcription of one window, lines 194-224: a fresh
    recogniser, the sub-chunks, then the final result. *)
Definition transcribe_window (m : Vosk.Model) (audio_buffer : bytes)
  : str * list event :=
  let recognizer := Vosk.new m in
  let '(recognizer, transcription, ev1) :=
    accept_chunks recognizer [] (chunks audio_buffer) in
  let '(transcription, ev2) := final_result recognizer transcription in
  (transcription, ev1 ++ ev2).

(** Lines 226-235: what is done with the transcription of a window.
    Returns the new [last_transcription] and the events. *)
Definition emit_transcription (self : WorkingRealTimeSystem)
           (last_transcription transcription : str) : str * list event :=
  if truthy transcription
     && negb (str_eqb transcription last_transcription)
     && (2 <? len transcription)
  then
    let response := lit "I heard: " ++ transcription in
    (transcription,
     PrintTranscript (current_language self) transcription
     :: speak_text self response)
  else (last_transcription, [PrintNoSpeech]).

(** The local variables of [_process_audio_queue]. *)
Record locals : Type := {
  audio_buffer : bytes;
  last_transcription : str;
  processing_count : Z
}.

Definition initial : locals :=
  {| audio_buffer := []; last_transcription := []; processing_count := 0 |}.

(** [buffer_size = self.sample_rate * 3] *)
Definition buffer_size (self : WorkingRealTimeSystem) : Z :=
  sample_rate self * 3.

(** One turn of the [while self.is_recording] loop; [item] is the
    result of [audio_queue.get(timeout=0.1)], [None] for [queue.Empty]. *)
Definition process_item (self : WorkingRealTimeSystem) (st : locals)
           (item : option bytes) : locals * list event :=
  match item with
  | None => (st, [])
  | Some audio_chunk =>
      let buf := audio_buffer st ++ audio_chunk in
      if buffer_size self <=? Z.of_nat (List.length buf) then
        let count := processing_count st + 1 in
        match vosk_recognizer self with
        | None =>
            ({| audio_buffer := [];
                last_transcription := last_transcription st;
                processing_count := count |},
             [PrintProcessing count; PrintNoRecognizer])
        | Some r =>
            let '(transcription, ev1) :=
              transcribe_window (Vosk.model r) buf in
            let '(last, ev2) :=
              emit_transcription self (last_transcription st) transcription in
            ({| audio_buffer := [];
                last_transcription := last;
                processing_count := count |},
             PrintProcessing count :: ev1 ++ ev2)
        end
      else
        ({| audio_buffer := buf;
            last_transcription := last_transcription st;
            processing_count := processing_count st |}, [])
  end.

Fixpoint process_items (self : WorkingRealTimeSystem) (st : locals)
         (got : list (option bytes)) : locals * list event :=
  match got with
  | [] => (st, [])
  | item :: rest =>
      let '(st1, ev1) := process_item self st item in
      let '(st2, ev2) := process_items self st1 rest in
      (st2, ev1 ++ ev2)
  end.

(** [_process_audio_queue] *)
Definition _process_audio_queue (self : WorkingRealTimeSystem)
           (got : list (option bytes)) : locals * list event :=
  process_items self initial got.

(** Downstream emissions: the transcript print and the synthesis. *)
Definition is_emission (e : event) : bool :=
  match e with
  | PrintTranscript _ _ | Say _ => true
  | _ => false
  end.

Definition emissions (evs : list event) : list event :=
  filter is_emission evs.

Definition is_transcript (e : event) : bool :=
  match e with PrintTranscript _ _ => true | _ => false end.

(** [process_audio_data]: one block through the recogniser of the
    system; gives the text and the system afterwards. *)
Definition process_audio_data (self : WorkingRealTimeSystem)
           (audio_data : bytes) : str * WorkingRealTimeSystem :=
  match vosk_recognizer self with
  | None => ([], self)
  | Some r =>
      let (ans, r') := Vosk.feed r audio_data in
      let self' :=
        {| audio_queue := audio_queue self;
           is_recording := is_recording self;
           current_language := current_language self;
           sample_rate := sample_rate self;
           vosk_recognizer := Some r';
           tts_engine := tts_engine self |} in
      match ans with
      | Return (Vosk.Accepted t) => (strip t, self')
      | Return (Vosk.Partial p) => (strip p, self')
      | Raise e => ((* print(f"Speech recognition error: {e}") *) [], self')
      end
  end.

(** The transcripts printed, in order. *)
Fixpoint transcripts (evs : list event) : list str :=
  match evs with
  | [] => []
  | PrintTranscript _ t :: rest => t :: transcripts rest
  | _ :: rest => transcripts rest
  end.

(** The numbers announced by "Processing audio #n", in order. *)
Fixpoint processing_numbers (evs : list event) : list Z :=
  match evs with
  | [] => []
  | PrintProcessing n :: rest => n :: processing_numbers rest
  | _ :: rest => processing_numbers rest
  end.

(** No two neighbours of the list are equal. *)
Fixpoint no_repeat (l : list str) : Prop :=
  match l with
  | [] => True
  | a :: rest =>
      match rest with
      | [] => True
      | b :: _ => a <> b /\ no_repeat rest
      end
  end.

(** What is said, in order. *)
Fixpoint said (evs : list event) : list str :=
  match evs with
  | [] => []
  | Say t :: rest => t :: said rest
  | _ :: rest => said rest
  end.

End RealtimeWorking.

(* ================================================================== *)
(** * [simple_working.py]: [SimpleWorkingSystem] *)
(* ================================================================== *)

Module SimpleWorking.

Import Py.
Local Open Scope Z_scope.

Definition bytes := list byte.

Record SimpleWorkingSystem : Type := {
  vosk_recognizer : option Vosk.KaldiRecognizer;
  tts_engine : option RealtimeWorking.TTSEngine
}.

Inductive event : Type :=
| PrintProcessingError (e : string)
| PrintSpeechDetected (transcription : str)
| Say (text : str)
| PrintTTSError (e : string).

(** [speak] *)
Definition speak (self : SimpleWorkingSystem) (text : str) : list event :=
  match tts_engine self with
  | Some engine =>
      if truthy text then
        match engine text with
        | Return _ => [Say text]
        | Raise e => [Say text; PrintTTSError e]
        end
      else []
  | None => []
  end.

(** [process_audio_chunk] *)
Definition process_audio_chunk (self : SimpleWorkingSystem)
           (audio_data : bytes)
  : str * SimpleWorkingSystem * list event :=
  match vosk_recognizer self with
  | None => ([], self, [])
  | Some r =>
      let (ans, r') := Vosk.feed r audio_data in
      let self' := {| vosk_recognizer := Some r';
                      tts_engine := tts_engine self |} in
      match ans with
      | Return (Vosk.Accepted t) => (strip t, self', [])
      | Return (Vosk.Partial p) => (strip p, self', [])
      | Raise e => ([], self', [PrintProcessingError e])
      end
  end.

(** The body of the [while self.is_recording] loop of [run], lines
    116-131, for one block [audio_data] read from the stream. *)
Definition run_step (self : SimpleWorkingSystem) (audio_data : bytes)
  : SimpleWorkingSystem * list event :=
  let '(transcription, self1, ev1) := process_audio_chunk self audio_data in
  if truthy transcription && (2 <? len transcription) then
    let response := lit "I heard: " ++ transcription in
    let ev2 := PrintSpeechDetected transcription :: speak self1 response in
    ({| vosk_recognizer :=
          option_map (fun r => Vosk.new (Vosk.model r)) (vosk_recognizer self1);
        tts_engine := tts_engine self1 |},
     ev1 ++ ev2)
  else (self1, ev1).

Definition is_emission (e : event) : bool :=
  match e with
  | PrintSpeechDetected _ | Say _ => true
  | _ => false
  end.

Definition emissions (evs : list event) : list event :=
  filter is_emission evs.

(** The loop of [run] over the blocks read from the stream. *)
Fixpoint run_steps (self : SimpleWorkingSystem) (blocks : list bytes)
  : SimpleWorkingSystem * list event :=
  match blocks with
  | [] => (self, [])
  | audio_data :: rest =>
      let '(self1, ev1) := run_step self audio_data in
      let '(self2, ev2) := run_steps self1 rest in
      (self2, ev1 ++ ev2)
  end.

End SimpleWorking.

(* ================================================================== *)
(** * Concrete collaborators used in examples *)
(* ================================================================== *)

Module Examples.

Import Py Float.

(** A recogniser that commits "hello world" for every chunk. *)
Definition hello_model : Vosk.Model :=
  {| Vosk.accept_waveform := fun _ => Return (Vosk.Accepted (lit "hello world"));
     Vosk.final_result := fun _ => Return [] |}.

Definition hello_recognizer : SpeechRecognizer.t :=
  {| SpeechRecognizer.recognizer := Some (Vosk.new hello_model) |}.

(** A classifier answering a fixed language and confidence. *)
Definition const_classifier (l : string) (c : float)
  : LanguageDetector.Classifier := fun _ => Return (l, c).

Definition failing_classifier : LanguageDetector.Classifier :=
  fun _ => Raise "classify_batch failed".

Definition system (threshold : float)
           (m : option LanguageDetector.Classifier) (current : string)
  : Main.LanguageSwitchSystem :=
  {| Main.language_detector :=
       {| LanguageDetector.confidence_threshold := threshold;
          LanguageDetector.model := m |};
     Main.speech_recognizer := hello_recognizer;
     Main.current_language := current |}.

(** A recogniser whose first answer is the partial "hello world", which
    then commits "hello" and has nothing left at the end. *)
Definition regressing_model : Vosk.Model :=
  {| Vosk.accept_waveform := fun h =>
       match h with
       | [_] => Return (Vosk.Partial (lit "hello world"))
       | _ => Return (Vosk.Accepted (lit "hello"))
       end;
     Vosk.final_result := fun _ => Return [] |}.

(** A recogniser with growing partials and a final result. *)
Definition growing_model : Vosk.Model :=
  {| Vosk.accept_waveform := fun h =>
       match h with
       | [_] => Return (Vosk.Partial (lit "good"))
       | _ => Return (Vosk.Partial (lit "good morning"))
       end;
     Vosk.final_result := fun _ => Return (lit " good morning all ") |}.

(** A recogniser with partials only and an empty final result. *)
Definition partial_model : Vosk.Model :=
  {| Vosk.accept_waveform := fun h =>
       match h with
       | [_] => Return (Vosk.Partial (lit "good morning"))
       | _ => Return (Vosk.Partial (lit "good"))
       end;
     Vosk.final_result := fun _ => Return [] |}.

(** A window of 4001 bytes: two sub-chunks. *)
Definition two_chunks : list byte := repeat x00 4001.

(** A working real-time system with a small sample rate. *)
Definition working (m : Vosk.Model) (rate : Z)
  : RealtimeWorking.WorkingRealTimeSystem :=
  {| RealtimeWorking.audio_queue := PyQueue.create (list byte);
     RealtimeWorking.is_recording := true;
     RealtimeWorking.current_language := "en";
     RealtimeWorking.sample_rate := rate;
     RealtimeWorking.vosk_recognizer := Some (Vosk.new m);
     RealtimeWorking.tts_engine := Some (fun _ => Return tt) |}.

Definition simple (m : Vosk.Model) : SimpleWorking.SimpleWorkingSystem :=
  {| SimpleWorking.vosk_recognizer := Some (Vosk.new m);
     SimpleWorking.tts_engine := Some (fun _ => Return tt) |}.

(** One sample of silence followed by one of value 256. *)
Definition two_samples : list byte := [x00; x00; x00; x01].

End Examples.

(* ================================================================== *)
(** * What the recogniser answered during one window *)
(* ================================================================== *)

Module Window.

Import Py.

(** The answers to the successive [AcceptWaveform] calls on the
    sub-chunks [cs], for a recogniser of model [m] whose history is [h]. *)
Fixpoint answers_from (m : Vosk.Model) (h : list Vosk.call)
         (cs : list Vosk.bytes) : list (outcome Vosk.answer) :=
  match cs with
  | [] => []
  | c :: rest =>
      let h' := h ++ [Vosk.Feed c] in
      Vosk.accept_waveform m h' :: answers_from m h' rest
  end.

(** The answers for the sub-chunks of the window [audio_buffer], given
    to a fresh recogniser. *)
Definition answers (m : Vosk.Model) (audio_buffer : Vosk.bytes)
  : list (outcome Vosk.answer) :=
  answers_from m [] (RealtimeWorking.chunks audio_buffer).

(** The answer to [FinalResult()] after these sub-chunks. *)
Definition final_answer (m : Vosk.Model) (audio_buffer : Vosk.bytes)
  : outcome str :=
  Vosk.final_result m
    (map Vosk.Feed (RealtimeWorking.chunks audio_buffer) ++ [Vosk.Finalize]).

(** What lines 204-213 make of [transcription] for one answer. *)
Definition keep (transcription : str) (a : outcome Vosk.answer) : str :=
  match a with
  | Return (Vosk.Accepted t) =>
      if truthy (strip t) then strip t else transcription
  | Return (Vosk.Partial p) =>
      if truthy (strip p) && (len transcription <? len (strip p))%Z
      then strip p else transcription
  | Raise _ => transcription
  end.

(** The partial hypotheses among the answers, stripped, in order. *)
Fixpoint partial_texts (l : list (outcome Vosk.answer)) : list str :=
  match l with
  | [] => []
  | Return (Vosk.Partial p) :: rest => strip p :: partial_texts rest
  | _ :: rest => partial_texts rest
  end.

(** Some sub-chunk got a committed, non-empty result. *)
Fixpoint has_commit (l : list (outcome Vosk.answer)) : bool :=
  match l with
  | [] => false
  | Return (Vosk.Accepted t) :: rest => truthy (strip t) || has_commit rest
  | _ :: rest => has_commit rest
  end.

(** [FinalResult()] raised or gave only white space. *)
Definition final_is_empty (fin : outcome str) : bool :=
  match fin with
  | Return t => negb (truthy (strip t))
  | Raise _ => true
  end.

End Window.

(* ================================================================== *)
(** * The chunking policy in the words of the specification *)
(* ================================================================== *)

Module Spec.

Import Py.
Local Open Scope Z_scope.

(** "track the best (longest non-empty) partial text seen across
    sub-chunks": the first of the longest texts, starting from [best]. *)
Fixpoint longest_from (best : str) (texts : list str) : str :=
  match texts with
  | [] => best
  | p :: rest => longest_from (if len best <? len p then p else best) rest
  end.

Definition longest_partial (partials : list str) : str :=
  longest_from [] partials.

(** "if a forceFinal() call yields non-empty text, it supersedes any
    partial" *)
Definition kept (partials : list str) (final_text : str) : str :=
  if truthy final_text then final_text else longest_partial partials.

End Spec.

(* ================================================================== *)
(** * Exhaustive checks over the int16 range *)
(* ================================================================== *)

Module Int16.

Import Float.
Local Open Scope Z_scope.

(** [p] holds at [z], [z+1], ..., [z + 2^d - 1]. *)
Fixpoint check_block (d : nat) (z : Z) (p : Z -> bool) : bool :=
  match d with
  | O => p z
  | S k => check_block k z p && check_block k (z + 2 ^ Z.of_nat k) p
  end.

Definition for_all_int16 (p : Z -> bool) : bool :=
  check_block 16 (-32768) p.

(** [-1.0 <= x <= 1.0] *)
Definition in_unit_interval (x : float32) : bool :=
  SFleb f32_minus_one x && SFleb x f32_one.

(** The number [x] is exactly the quotient [z / 32768]. *)
Definition is_quotient_by_32768 (z : Z) (x : float32) : bool :=
  match x with
  | S754_zero _ => z =? 0
  | S754_finite s m (Zneg p) =>
      (if s then - Zpos m else Zpos m) * 32768 =? z * 2 ^ Zpos p
  | _ => false
  end.

Definition normalize_ok (z : Z) : bool :=
  in_unit_interval (AudioHandler.normalize z)
  && is_quotient_by_32768 z (AudioHandler.normalize z).

Definition round_trip_ok (z : Z) : bool :=
  match AudioHandler.denormalize1 (AudioHandler.normalize z) with
  | Some y => y =? z
  | None => false
  end.

Definition bytes_ok (z : Z) : bool :=
  AudioHandler.int16_of_bytes (AudioHandler.byte_of_Z z)
                              (AudioHandler.byte_of_Z (z / 256)) =? z.

End Int16.

(* ================================================================== *)
(** * [language_detector_simple.py] *)
(* ================================================================== *)

Module SimpleLanguageDetector.

Import Py Float.
Local Open Scope Z_scope.

(** binary64 numbers *)
Definition f64_of_int (z : Z) : float := binary_normalize 53 1024 z 0 false.
Definition f64_div : float -> float -> float := SFdiv 53 1024.
Definition f64_mul : float -> float -> float := SFmul 53 1024.

Definition f0_6 : float := S754_finite false 5404319552844595 (-53).
Definition f0_7 : float := S754_finite false 6305039478318694 (-53).
Definition f1_0 : float := S754_finite false 4503599627370496 (-52).

(** [min(a, b)] *)
Definition py_min (a b : float) : float := if lt b a then b else a.

(** The keys and values of [self.supported_languages]. *)
Definition supported_languages : list (string * string) :=
  [("en", "English"); ("es", "Spanish"); ("fr", "French"); ("de", "German"); ("it", "Italian"); ("pt", "Portuguese"); ("ru", "Russian"); ("ja", "Japanese"); ("ko", "Korean"); ("zh", "Chinese"); ("hi", "Hindi"); ("ar", "Arabic")]%string.

Record t : Type := {
  confidence_threshold : float;
  current_language : string
}.

(** [SimpleLanguageDetector(confidence_threshold)] *)
Definition init (threshold : float) : t :=
  {| confidence_threshold := threshold; current_language := "en" |}.

(** The dictionary [patterns] of [_detect_from_text], in its order. *)
Definition patterns : list (string * list str) :=
  [
   ("en"%string,
     [[116; 104; 101];
      [97; 110; 100];
      [105; 115];
      [97; 114; 101];
      [119; 97; 115];
      [119; 101; 114; 101];
      [104; 97; 118; 101];
      [104; 97; 115];
      [104; 97; 100]]);
   ("es"%string,
     [[101; 108];
      [108; 97];
      [100; 101];
      [113; 117; 101];
      [121];
      [101; 110];
      [117; 110];
      [101; 115];
      [115; 101];
      [110; 111]]);
   ("fr"%string,
     [[108; 101];
      [108; 97];
      [100; 101];
      [101; 116];
      [224];
      [117; 110];
      [105; 108];
      [113; 117; 101];
      [110; 101];
      [115; 101]]);
   ("de"%string,
     [[100; 101; 114];
      [100; 105; 101];
      [100; 97; 115];
      [117; 110; 100];
      [105; 115; 116];
      [115; 105; 110; 100];
      [104; 97; 98; 101; 110];
      [109; 105; 116];
      [118; 111; 110]]);
   ("hi"%string,
     [[2361; 2376];
      [2361; 2376; 2306];
      [2325; 2366];
      [2325; 2368];
      [2325; 2375];
      [2350; 2375; 2306];
      [2360; 2375];
      [2325; 2379];
      [2346; 2352];
      [2340; 2379]]);
   ("zh"%string,
     [[30340];
      [20102];
      [22312];
      [26159];
      [25105];
      [20320];
      [20182];
      [22905];
      [23427];
      [20204]]);
   ("ja"%string,
     [[12391; 12377];
      [12414; 12377];
      [12398];
      [12434];
      [12395];
      [12399];
      [12364];
      [12392];
      [12391];
      [12363; 12425]]);
   ("ko"%string,
     [[51077; 45768; 45796];
      [49845; 45768; 45796];
      [51032];
      [51012];
      [47484];
      [50640];
      [50640; 49436];
      [50752];
      [44284];
      [47196]])
  ]%N.

(** [p] is a prefix of [s]. *)
Fixpoint starts_with (p s : str) : bool :=
  match p, s with
  | [], _ => true
  | _ :: _, [] => false
  | a :: p', b :: s' => (a =? b)%N && starts_with p' s'
  end.

(** [p in s] *)
Fixpoint contains (p s : str) : bool :=
  starts_with p s
  || match s with
     | [] => false
     | _ :: s' => contains p s'
     end.

(** [sum(1 for pattern in patterns_list if pattern in text_lower)] *)
Definition score (patterns_list : list str) (text_lower : str) : Z :=
  Z.of_nat (List.length (filter (fun pattern => contains pattern text_lower)
                                patterns_list)).

(** The dictionary [scores], in insertion order. *)
Fixpoint scores_of (pats : list (string * list str)) (text_lower : str)
  : list (string * float) :=
  match pats with
  | [] => []
  | (lang, patterns_list) :: rest =>
      let sc := score patterns_list text_lower in
      if 0 <? sc
      then (lang, f64_div (f64_of_int sc)
                          (f64_of_int (Z.of_nat (List.length patterns_list))))
             :: scores_of rest text_lower
      else scores_of rest text_lower
  end.

(** [max(scores, key=scores.get)]: the first entry of greatest value. *)
Fixpoint max_by_value (best : string * float) (rest : list (string * float))
  : string * float :=
  match rest with
  | [] => best
  | item :: rest' =>
      max_by_value (if lt (snd best) (snd item) then item else best) rest'
  end.

(** [_detect_from_text]; [lower] is [str.lower]. *)
Definition _detect_from_text (lower : str -> str) (text : str)
  : string * float :=
  let text_lower := lower text in
  match scores_of patterns text_lower with
  | [] => ("en"%string, f0_5)
  | first :: rest =>
      let best := max_by_value first rest in
      (fst best, py_min (f64_mul (snd best) (f64_of_int 2)) f1_0)
  end.

(** [detect_language_simple(audio_tensor, text_hint)]; the tensor is not
    used. *)
Definition detect_language_simple (lower : str -> str) (self : t)
           (text_hint : option str) : string * float :=
  match text_hint with
  | Some hint =>
      if truthy hint then _detect_from_text lower hint
      else (current_language self, f0_7)
  | None => (current_language self, f0_7)
  end.

Definition is_supported (language : string) : bool :=
  existsb (fun kv => String.eqb language (fst kv)) supported_languages.

Inductive event : Type :=
| PrintLanguageSet (name : string)
| PrintUnsupported (language : string).

Definition language_name (language : string) : string :=
  match find (fun kv => String.eqb language (fst kv)) supported_languages with
  | Some kv => snd kv
  | None => ""
  end.

(** [set_language] *)
Definition set_language (self : t) (language : string) : t * list event :=
  if is_supported language
  then ({| confidence_threshold := confidence_threshold self;
           current_language := language |},
        [PrintLanguageSet (language_name language)])
  else (self, [PrintUnsupported language]).

Fixpoint set_languages (self : t) (languages : list string) : t :=
  match languages with
  | [] => self
  | l :: rest => set_languages (fst (set_language self l)) rest
  end.

(** [is_confidence_high] *)
Definition is_confidence_high (self : t) (confidence : float) : bool :=
  ge confidence (confidence_threshold self).

End SimpleLanguageDetector.

(* ================================================================== *)
(** * [speech_recognizer_simple.py] *)
(* ================================================================== *)

Module SimpleSpeechRecognizer.

Import Py.

Record t : Type := {
  recognizer : option Vosk.KaldiRecognizer
}.

Definition placeholder : str :=
  lit "[Audio transcription not available - Vosk model needed]".

(** [SimpleSpeechRecognizer.transcribe_audio] *)
Definition transcribe_audio (self : t) (audio_data : Vosk.bytes)
           (language : string) : str * t :=
  match recognizer self with
  | None => (placeholder, self)
  | Some r =>
      let (ans, r') := Vosk.feed r audio_data in
      (match ans with
       | Return (Vosk.Accepted text) => strip text
       | Return (Vosk.Partial partial) => strip partial
       | Raise e => (* print(f"Speech recognition error: {e}") *) []
       end,
       {| recognizer := Some r' |})
  end.

(** [SimpleSpeechRecognizer.transcribe_text_input] *)
Definition transcribe_text_input (self : t) (text : str) : str := text.

End SimpleSpeechRecognizer.

(* ================================================================== *)
(** * [text_to_speech_simple.py] *)
(* ================================================================== *)

Module SimpleTextToSpeech.

Import Py.

(** What the loaded engine can do, as [hasattr] sees it: a Coqui engine
    has [tts_to_file]; a pyttsx3 engine has [save_to_file] and [say],
    each followed by [runAndWait()]. Every call may raise. *)
Record Engine : Type := {
  tts_to_file : option (str -> string -> string -> outcome unit);
  save_to_file : option (str -> string -> outcome unit);
  say : option (str -> outcome unit)
}.

Record t : Type := {
  tts_engine : option Engine
}.

Inductive event : Type :=
| PrintWouldSynthesize (text : str) (language : string)
| PrintWouldSpeak (text : str) (language : string)
| TtsToFile (text : str) (file_path : string) (language : string)
| SaveToFile (text : str) (file_path : string)
| Say (text : str)
| PrintSynthesized (output_path : string)
| PrintSynthesisError (e : string)
| PrintSpeakError (e : string).

(** [SimpleTextToSpeech.synthesize_speech] *)
Definition synthesize_speech (self : t) (text : str) (language : string)
           (output_path : string) : bool * list event :=
  if negb (truthy (strip text)) then (false, [])
  else
    match tts_engine self with
    | None => (false, [PrintWouldSynthesize text language])
    | Some engine =>
        match tts_to_file engine, save_to_file engine with
        | Some f, _ =>
            match f text output_path language with
            | Return _ => (true, [TtsToFile text output_path language;
                                  PrintSynthesized output_path])
            | Raise e => (false, [TtsToFile text output_path language;
                                  PrintSynthesisError e])
            end
        | None, Some f =>
            match f text output_path with
            | Return _ => (true, [SaveToFile text output_path;
                                  PrintSynthesized output_path])
            | Raise e => (false, [SaveToFile text output_path;
                                  PrintSynthesisError e])
            end
        | None, None => (false, [PrintWouldSynthesize text language])
        end
    end.

(** [SimpleTextToSpeech.speak_text] *)
Definition speak_text (self : t) (text : str) (language : string)
  : bool * list event :=
  if negb (truthy (strip text)) then (false, [])
  else
    match tts_engine self with
    | None => (false, [PrintWouldSpeak text language])
    | Some engine =>
        match say engine with
        | Some f =>
            match f text with
            | Return _ => (true, [Say text])
            | Raise e => (false, [Say text; PrintSpeakError e])
            end
        | None => (false, [PrintWouldSpeak text language])
        end
    end.

End SimpleTextToSpeech.

(* ================================================================== *)
(** * [approach_4_realtime_fixed.py]: [SimpleRealTimeProcessor] *)
(* ================================================================== *)

Module Processor.

Import Py Float.

(** The processor with what it shares with its [rt_system]: the current
    language, which [process_audio] writes and [process_audio_queue]
    reads, and the sample rate. *)
Record SimpleRealTimeProcessor : Type := {
  sample_rate : nat;
  current_language : string;              (* rt_system.current_language *)
  language_detector : SimpleLanguageDetector.t;
  speech_recognizer : SimpleSpeechRecognizer.t;
  text_to_speech : SimpleTextToSpeech.t
}.

Inductive event : Type :=
| PrintSwitched (old new : string)
| Transcribe (audio_bytes : list byte) (language : string)
| PrintTranscript (language : string) (transcription : str)
| SpeakText (text : str) (language : string)
         (evs : list SimpleTextToSpeech.event)
| PrintProcessingError (e : string).

Definition with_language (self : SimpleRealTimeProcessor) (l : string)
           (sr : SimpleSpeechRecognizer.t) : SimpleRealTimeProcessor :=
  {| sample_rate := sample_rate self;
     current_language := l;
     language_detector := language_detector self;
     speech_recognizer := sr;
     text_to_speech := text_to_speech self |}.

(** The names bound at the top level of [approach_4_realtime_fixed.py]:
    its imports (lines 5-10), its two classes and [main]. [torch] is
    not among them: it is imported inside [main] only (line 211), where
    it is a local name. *)
Definition module_globals : list string :=
  ["time"; "np"; "pyaudio"; "threading"; "queue"; "Optional"; "Callable";
   "RealTimeLanguageSwitch"; "SimpleRealTimeProcessor"; "main"]%string.

(** The lookup of a global name inside a method of the module (none of
    the names looked up below is a builtin): [NameError] when the module
    does not bind it. *)
Definition load_global (name : string) : outcome unit :=
  if existsb (String.eqb name) module_globals then Return tt
  else Raise ("name '" ++ name ++ "' is not defined")%string.

(** [SimpleRealTimeProcessor.process_audio]. [lower] is [str.lower].
    The argument [torch.tensor(audio_data)] of line 178 is evaluated
    before the detector is called. The [language] argument is not
    used. *)
Definition process_audio (lower : str -> str) (self : SimpleRealTimeProcessor)
           (audio_data : list float32) (language : string)
  : SimpleRealTimeProcessor * list event :=
  let body :=
    bind (load_global "torch") (fun _ =>
      let '(detected_lang, confidence) :=
        SimpleLanguageDetector.detect_language_simple
          lower (language_detector self) None in
      if lt SimpleLanguageDetector.f0_6 confidence then
        let ev1 :=
          if negb (String.eqb detected_lang (current_language self))
          then [PrintSwitched (current_language self) detected_lang]
          else [] in
        let audio_bytes :=
          AudioHandler.tobytes_int16 (AudioHandler.to_int16 audio_data) in
        let '(transcription, sr) :=
          SimpleSpeechRecognizer.transcribe_audio (speech_recognizer self)
                                                  audio_bytes detected_lang in
        let ev2 :=
          if truthy transcription && (3 <? len (strip transcription))%Z
          then
            let response := lit "I heard: " ++ transcription in
            [PrintTranscript detected_lang transcription;
             SpeakText response detected_lang
               (snd (SimpleTextToSpeech.speak_text (text_to_speech self)
                                                   response detected_lang))]
          else [] in
        Return (with_language self detected_lang sr,
                ev1 ++ [Transcribe audio_bytes detected_lang] ++ ev2)
      else Return (self, [])) in
  match body with
  | Return r => r
  | Raise e => (self, [PrintProcessingError e])
  end.

(** One turn of [RealTimeLanguageSwitch.process_audio_queue] with
    [process_audio] as its callback. *)
Definition process_item (lower : str -> str) (self : SimpleRealTimeProcessor)
           (buffer : list float32) (item : option Approach4.frame)
  : SimpleRealTimeProcessor * list float32 * list event :=
  match item with
  | None => (self, buffer, [])
  | Some audio_chunk =>
      let buffer := buffer ++ audio_chunk in
      let buffer_size := sample_rate self * 2 in
      if buffer_size <=? List.length buffer then
        let audio_array := firstn buffer_size buffer in
        let buffer := skipn (buffer_size / 2) buffer in
        let '(self', evs) :=
          process_audio lower self audio_array (current_language self) in
        (self', buffer, evs)
      else (self, buffer, [])
  end.

Fixpoint process_items (lower : str -> str) (self : SimpleRealTimeProcessor)
         (buffer : list float32) (got : list (option Approach4.frame))
  : SimpleRealTimeProcessor * list float32 * list event :=
  match got with
  | [] => (self, buffer, [])
  | item :: rest =>
      let '(self1, buffer1, ev1) := process_item lower self buffer item in
      let '(self2, buffer2, ev2) := process_items lower self1 buffer1 rest in
      (self2, buffer2, ev1 ++ ev2)
  end.

(** The byte buffers handed to the recogniser, in order. *)
Fixpoint transcribed (evs : list event) : list (list byte) :=
  match evs with
  | [] => []
  | Transcribe audio_bytes _ :: rest => audio_bytes :: transcribed rest
  | _ :: rest => transcribed rest
  end.

(** The frames that [_audio_callback] makes of raw blocks. *)
Fixpoint frames_of (blocks : list (list byte)) : option (list (option Approach4.frame)) :=
  match blocks with
  | [] => Some []
  | in_data :: rest =>
      match Approach4.audio_frame in_data, frames_of rest with
      | Return f, Some fs => Some (Some f :: fs)
      | _, _ => None
      end
  end.

End Processor.

(* ================================================================== *)
(** * The scores of [_detect_from_text] as fractions *)
(* ================================================================== *)

Module TextScores.

Import Py Float SimpleLanguageDetector.
Local Open Scope Z_scope.

(** [k / n] for two integers. *)
Definition ratio (kn : Z * Z) : float :=
  f64_div (f64_of_int (fst kn)) (f64_of_int (snd kn)).

(** [min(v * 2, 1.0)] *)
Definition confidence_of (v : float) : float :=
  py_min (f64_mul v (f64_of_int 2)) f1_0.

Definition f0_2 : float := S754_finite false 7205759403792794 (-55).

(** The score and the number of patterns of every language with a
    positive score, in the order of [patterns]. *)
Fixpoint counts_of (pats : list (string * list str)) (text_lower : str)
  : list (string * (Z * Z)) :=
  match pats with
  | [] => []
  | (lang, patterns_list) :: rest =>
      let sc := score patterns_list text_lower in
      if 0 <? sc
      then (lang, (sc, Z.of_nat (List.length patterns_list)))
             :: counts_of rest text_lower
      else counts_of rest text_lower
  end.

(** [a] is a smaller fraction than [b]. *)
Definition less (a b : Z * Z) : bool := fst a * snd b <? fst b * snd a.

(** The first entry of greatest fraction. *)
Fixpoint max_fraction (best : string * (Z * Z))
         (rest : list (string * (Z * Z))) : string * (Z * Z) :=
  match rest with
  | [] => best
  | item :: rest' =>
      max_fraction (if less (snd best) (snd item) then item else best) rest'
  end.

(** The fractions [k / n] with [1 <= k <= n] and [n] 9 or 10. *)
Definition fractions : list (Z * Z) :=
  map (fun k => (k, 9)) [1; 2; 3; 4; 5; 6; 7; 8; 9]
  ++ map (fun k => (k, 10)) [1; 2; 3; 4; 5; 6; 7; 8; 9; 10].

(** Float comparison of two such quotients is that of the fractions. *)
Definition order_ok : bool :=
  forallb (fun a =>
    forallb (fun b => Bool.eqb (lt (ratio a) (ratio b)) (less a b)) fractions)
    fractions.

(** The confidence made of such a quotient lies in [0.2, 1.0], and it
    reaches 0.8 exactly from four matches on. *)
Definition confidence_ok : bool :=
  forallb (fun a =>
    let c := confidence_of (ratio a) in
    ge c f0_2 && ge f1_0 c && Bool.eqb (ge c f0_8) (4 <=? fst a))
    fractions.

Definition languages : list string :=
  ["en"; "es"; "fr"; "de"; "hi"; "zh"; "ja"; "ko"]%string.

(** Every entry of [patterns] has 9 or 10 patterns and one of the eight
    language codes. *)
Definition patterns_ok : bool :=
  forallb (fun kv =>
    let n := Z.of_nat (List.length (snd kv)) in
    ((n =? 9) || (n =? 10))
    && existsb (String.eqb (fst kv)) languages)
    patterns.

(** A score [k] out of [n] patterns, [n] being 9 or 10. *)
Definition valid (kn : Z * Z) : Prop :=
  1 <= fst kn <= snd kn /\ (snd kn = 9 \/ snd kn = 10).

End TextScores.

(* ================================================================== *)
(** * Comparison of floats *)
(* ================================================================== *)

Section FloatFacts.

Lemma SFcompare_swap (x y : spec_float) :
  SFcompare y x = option_map CompOpp (SFcompare x y).
Proof.
  destruct x as [sx | sx | | sx mx ex], y as [sy | sy | | sy my ey];
    simpl; try reflexivity;
    try (destruct sx; reflexivity);
    try (destruct sy; reflexivity);
    try (destruct sx, sy; reflexivity).
  destruct sx, sy; simpl; try reflexivity;
    rewrite (Z.compare_antisym ex ey);
    destruct (Z.compare ex ey); simpl; try reflexivity;
    pose proof (Pos.compare_cont_antisym mx my Eq) as H; simpl in H;
    rewrite <- H; try rewrite CompOpp_involutive; reflexivity.
Qed.

(** [c < t] excludes [c >= t]. *)
Lemma lt_not_ge (c t : Float.float) :
  Float.lt c t = true -> Float.ge c t = false.
Proof.
  unfold Float.lt, Float.ge, SFltb, SFleb.
  rewrite (SFcompare_swap c t).
  destruct (SFcompare c t) as [[ | | ] | ]; simpl; congruence.
Qed.

(** [c == t] gives [c >= t]. *)
Lemma eq_ge (c t : Float.float) :
  Float.eq c t = true -> Float.ge c t = true.
Proof.
  unfold Float.eq, Float.ge, SFeqb, SFleb.
  rewrite (SFcompare_swap c t).
  destruct (SFcompare c t) as [[ | | ] | ]; simpl; congruence.
Qed.

(** [c >= t] is [c > t or c == t]. *)
Lemma ge_iff (c t : Float.float) :
  Float.ge c t = true <-> Float.lt t c = true \/ Float.eq c t = true.
Proof.
  unfold Float.eq, Float.ge, Float.lt, SFeqb, SFleb, SFltb.
  rewrite (SFcompare_swap c t).
  destruct (SFcompare c t) as [[ | | ] | ]; simpl; intuition congruence.
Qed.

End FloatFacts.

(* ================================================================== *)
(** * [main.py]: the confidence gate *)
(* ================================================================== *)

Section Gate.

Import Py.

Lemma transcribe_audio_returns (sr : SpeechRecognizer.t) audio lang :
  exists text, fst (SpeechRecognizer.transcribe_audio sr audio lang) = Return text.
Proof.
  unfold SpeechRecognizer.transcribe_audio.
  destruct (SpeechRecognizer.recognizer sr) as [r | ]; simpl.
  - destruct (Vosk.accept_waveform _ _) as [[t | p] | e]; simpl; eauto.
  - eauto.
Qed.

Lemma bytes_to_tensor_returns (audio_bytes : list byte) :
  exists t, AudioHandler.bytes_to_tensor audio_bytes = Return t.
Proof.
  unfold AudioHandler.bytes_to_tensor.
  destruct (AudioHandler.frombuffer_int16 audio_bytes); simpl; eauto.
Qed.

Lemma detect_language_returns (d : LanguageDetector.t) t :
  exists l c, LanguageDetector.detect_language d t = Return (l, c).
Proof.
  unfold LanguageDetector.detect_language.
  destruct (LanguageDetector.model d) as [classify | ]; [ | eauto].
  destruct (classify t) as [[l c] | e]; simpl; eauto.
Qed.

(** The two branches of the gate of [process_audio_chunk], once the
    window is not empty and the detector has answered. *)
Lemma process_audio_chunk_low self audio_bytes t l c :
  AudioHandler.bytes_to_tensor audio_bytes = Return t ->
  LanguageDetector.detect_language (Main.language_detector self) t
    = Return (l, c) ->
  LanguageDetector.is_confidence_high (Main.language_detector self) c = false ->
  Main.process_audio_chunk self audio_bytes = Return (None, self, []).
Proof.
  intros Ht Hd Hc. unfold Main.process_audio_chunk.
  rewrite Ht; simpl.
  destruct (Main.numel t =? 0)%Z; [reflexivity | ].
  rewrite Hd; simpl. rewrite Hc. reflexivity.
Qed.

Lemma process_audio_chunk_high self audio_bytes t l c :
  AudioHandler.bytes_to_tensor audio_bytes = Return t ->
  t <> [] ->
  LanguageDetector.detect_language (Main.language_detector self) t
    = Return (l, c) ->
  LanguageDetector.is_confidence_high (Main.language_detector self) c = true ->
  exists text sr,
    Main.process_audio_chunk self audio_bytes
    = Return (Some text,
              Main.set_speech_recognizer
                (if String.eqb l (Main.current_language self) then self
                 else Main.set_current_language self l) sr,
              (if String.eqb l (Main.current_language self) then []
               else [Main.PrintLanguageSwitched (Main.current_language self) l c])
              ++ [Main.Transcribe audio_bytes l]).
Proof.
  intros Ht Hne Hd Hc. unfold Main.process_audio_chunk.
  rewrite Ht; simpl.
  replace (Main.numel t =? 0)%Z with false
    by (symmetry; apply Z.eqb_neq; unfold Main.numel;
        destruct t; [congruence | simpl; lia]).
  rewrite Hd; simpl. rewrite Hc.
  destruct (String.eqb l (Main.current_language self)); simpl.
  - destruct (transcribe_audio_returns (Main.speech_recognizer self)
                audio_bytes l) as [text Htx].
    destruct (SpeechRecognizer.transcribe_audio _ _ _) as [res sr].
    simpl in Htx; subst res; simpl. eauto.
  - destruct (transcribe_audio_returns (Main.speech_recognizer self)
                audio_bytes l) as [text Htx].
    destruct (SpeechRecognizer.transcribe_audio _ _ _) as [res sr].
    simpl in Htx; subst res; simpl. eauto.
Qed.

End Gate.

Section GateClaims.

Import Py.

(** C2. For every candidate language [l], confidence [c], current
    language and threshold, a non-empty window makes
    [process_audio_chunk] switch the language (the switch is announced
    and [current_language] changes) if and only if [c >= threshold] and
    [l] differs from the current language; when [c] equals the
    threshold and the languages differ the switch occurs. *)
Theorem C2_switch_iff_confident_and_different
        (self : Main.LanguageSwitchSystem) (audio_bytes : list byte)
        (t : AudioHandler.tensor) (l : string) (c : Float.float) :
  AudioHandler.bytes_to_tensor audio_bytes = Return t ->
  t <> [] ->
  LanguageDetector.detect_language (Main.language_detector self) t
    = Return (l, c) ->
  let threshold :=
    LanguageDetector.confidence_threshold (Main.language_detector self) in
  exists r self' evs,
    Main.process_audio_chunk self audio_bytes = Return (r, self', evs)
    /\ (existsb Main.is_switch evs = true
        <-> Float.ge c threshold = true /\ l <> Main.current_language self)
    /\ (Main.current_language self' <> Main.current_language self
        <-> Float.ge c threshold = true /\ l <> Main.current_language self)
    /\ (Float.eq c threshold = true -> l <> Main.current_language self ->
        Main.current_language self' = l
        /\ existsb Main.is_switch evs = true).
Proof.
  intros Ht Hne Hd threshold.
  destruct (LanguageDetector.is_confidence_high (Main.language_detector self) c)
    eqn:Hc.
  - destruct (process_audio_chunk_high self audio_bytes Ht Hne Hd Hc)
      as (text & sr & Hp).
    rewrite Hp. do 3 eexists. split; [reflexivity | ].
    unfold LanguageDetector.is_confidence_high in Hc. fold threshold in Hc.
    destruct (String.eqb l (Main.current_language self)) eqn:He; simpl.
    + apply String.eqb_eq in He.
      repeat split; intros; try tauto; try intuition congruence.
    + apply String.eqb_neq in He.
      repeat split; intros; try tauto; try intuition congruence.
  - rewrite (process_audio_chunk_low self audio_bytes Ht Hd Hc).
    do 3 eexists. split; [reflexivity | ].
    unfold LanguageDetector.is_confidence_high in Hc. fold threshold in Hc.
    assert (Hno : Float.eq c threshold = true -> False)
      by (intro E; apply eq_ge in E; congruence).
    simpl. repeat split; intros; try intuition congruence;
      exfalso; auto.
Qed.

Lemma C2_switch_at_threshold_witness :
  exists r self' evs,
    Main.process_audio_chunk (Examples.system Float.f0_8
        (Some (Examples.const_classifier "es" Float.f0_8)) "en")
      Examples.two_samples = Return (r, self', evs)
    /\ Main.current_language self' = "es"%string
    /\ existsb Main.is_switch evs = true.
Proof.
  destruct (@C2_switch_iff_confident_and_different
              (Examples.system Float.f0_8
                 (Some (Examples.const_classifier "es" Float.f0_8)) "en")
              Examples.two_samples
              [AudioHandler.normalize 0; AudioHandler.normalize 256]
              "es"%string Float.f0_8)
    as (r & self' & evs & Hp & _ & _ & Heq).
  - reflexivity.
  - discriminate.
  - reflexivity.
  - exists r, self', evs. split; [exact Hp | ].
    apply Heq; [reflexivity | discriminate].
Defined.

(** C1 (amended). For every window whose detected-language confidence
    is strictly below the threshold, [process_audio_chunk] leaves the
    system (its active language included) unchanged, returns [None] and
    does not transcribe the window: no call to the recogniser is made. *)
Theorem C1_low_confidence_leaves_state_and_skips
        (self : Main.LanguageSwitchSystem) (audio_bytes : list byte)
        (t : AudioHandler.tensor) (l : string) (c : Float.float) :
  AudioHandler.bytes_to_tensor audio_bytes = Return t ->
  LanguageDetector.detect_language (Main.language_detector self) t
    = Return (l, c) ->
  Float.lt c (LanguageDetector.confidence_threshold
                (Main.language_detector self)) = true ->
  Main.process_audio_chunk self audio_bytes = Return (None, self, []).
Proof.
  intros Ht Hd Hlt.
  apply (process_audio_chunk_low self audio_bytes Ht Hd).
  unfold LanguageDetector.is_confidence_high.
  now apply lt_not_ge.
Qed.

Lemma C1_low_confidence_witness :
  let self := Examples.system Float.f0_8
                (Some (Examples.const_classifier "es" Float.f0_5)) "en" in
  Main.process_audio_chunk self Examples.two_samples = Return (None, self, []).
Proof.
  intro self.
  apply (@C1_low_confidence_leaves_state_and_skips self Examples.two_samples
           [AudioHandler.normalize 0; AudioHandler.normalize 256]
           "es"%string Float.f0_5); reflexivity.
Defined.

(** C1 as stated fails: English is active, the threshold is 0.8 and the
    detector reports Spanish with confidence 0.5; the window is not
    transcribed under the active language, nor under any other. *)
Lemma C1_low_confidence_not_transcribed :
  let self := Examples.system Float.f0_8
                (Some (Examples.const_classifier "es" Float.f0_5)) "en" in
  Float.lt Float.f0_5 Float.f0_8 = true
  /\ Main.process_audio_chunk self Examples.two_samples
     = Return (None, self, [])
  /\ ~ (exists r self' evs,
          Main.process_audio_chunk self Examples.two_samples
          = Return (r, self', evs)
          /\ existsb (Main.transcribed_under (Main.current_language self)) evs
             = true).
Proof.
  intro self. split; [reflexivity | ]. split; [reflexivity | ].
  intros (r & self' & evs & Hp & Hex).
  assert (Hq : Main.process_audio_chunk self Examples.two_samples
               = Return (None, self, [])) by reflexivity.
  rewrite Hq in Hp. inversion Hp; subst. discriminate Hex.
Qed.

(** [detect_language] never raises: when the model is missing or the
    classifier raises, it answers English with confidence 0.0. *)
Lemma detect_language_fallback (d : LanguageDetector.t) t :
  (LanguageDetector.model d = None
   \/ exists classify, LanguageDetector.model d = Some classify
                       /\ raises (classify t) = true) ->
  LanguageDetector.detect_language d t = Return ("en"%string, Float.zero).
Proof.
  unfold LanguageDetector.detect_language.
  intros [Hm | (classify & Hm & Hr)]; rewrite Hm; [reflexivity | ].
  destruct (classify t); [discriminate Hr | reflexivity].
Qed.

(** C7 (amended). When the language-identification collaborator raises
    (or its model failed to load), [detect_language] does not propagate
    the exception and answers ("en", 0.0); under a positive threshold
    [process_audio_chunk] then skips the window: it returns [None],
    leaves the system unchanged and transcribes nothing. *)
Theorem C7_detector_failure_is_absorbed_and_window_skipped
        (self : Main.LanguageSwitchSystem) (audio_bytes : list byte)
        (t : AudioHandler.tensor) :
  AudioHandler.bytes_to_tensor audio_bytes = Return t ->
  (LanguageDetector.model (Main.language_detector self) = None
   \/ exists classify,
        LanguageDetector.model (Main.language_detector self) = Some classify
        /\ raises (classify t) = true) ->
  LanguageDetector.detect_language (Main.language_detector self) t
    = Return ("en"%string, Float.zero)
  /\ (Float.lt Float.zero
        (LanguageDetector.confidence_threshold (Main.language_detector self))
      = true ->
      Main.process_audio_chunk self audio_bytes = Return (None, self, [])).
Proof.
  intros Ht Hfail.
  pose proof (detect_language_fallback (Main.language_detector self) t Hfail)
    as Hd.
  split; [exact Hd | ].
  intro Hpos.
  apply (process_audio_chunk_low self audio_bytes Ht Hd).
  unfold LanguageDetector.is_confidence_high. now apply lt_not_ge.
Qed.

Lemma C7_detector_failure_witness :
  let self := Examples.system Float.f0_8
                (Some Examples.failing_classifier) "es" in
  Main.process_audio_chunk self Examples.two_samples = Return (None, self, []).
Proof.
  intro self.
  apply (@C7_detector_failure_is_absorbed_and_window_skipped self
           Examples.two_samples
           [AudioHandler.normalize 0; AudioHandler.normalize 256]).
  - reflexivity.
  - right. exists Examples.failing_classifier. split; reflexivity.
  - reflexivity.
Defined.

(** C7 as stated fails: Spanish is active, the threshold is 0.8 and the
    classifier raises; the window is not processed under Spanish, it is
    dropped. *)
Lemma C7_failed_detection_drops_window :
  let self := Examples.system Float.f0_8
                (Some Examples.failing_classifier) "es" in
  Main.process_audio_chunk self Examples.two_samples
  = Return (None, self, [])
  /\ ~ (exists r self' evs,
          Main.process_audio_chunk self Examples.two_samples
          = Return (r, self', evs)
          /\ existsb (Main.transcribed_under "es") evs = true).
Proof.
  intro self. split; [reflexivity | ].
  intros (r & self' & evs & Hp & Hex).
  assert (Hq : Main.process_audio_chunk self Examples.two_samples
               = Return (None, self, [])) by reflexivity.
  rewrite Hq in Hp. inversion Hp; subst. discriminate Hex.
Qed.

(** The scenario of the specification: Spanish is active, the threshold
    is 0.8 and English is detected with confidence 0.9; the language is
    switched and the window is transcribed under English. *)
Example english_at_0_9_switches_from_spanish :
  Main.process_audio_chunk
    (Examples.system Float.f0_8
       (Some (Examples.const_classifier "en" Float.f0_9)) "es")
    Examples.two_samples
  = Return (Some (lit "hello world"),
            {| Main.language_detector :=
                 {| LanguageDetector.confidence_threshold := Float.f0_8;
                    LanguageDetector.model :=
                      Some (Examples.const_classifier "en" Float.f0_9) |};
               Main.speech_recognizer :=
                 {| SpeechRecognizer.recognizer :=
                      Some {| Vosk.model := Examples.hello_model;
                              Vosk.history := [Vosk.Feed Examples.two_samples] |} |};
               Main.current_language := "en" |},
            [Main.PrintLanguageSwitched "es" "en" Float.f0_9;
             Main.Transcribe Examples.two_samples "en"]).
Proof. reflexivity. Qed.

End GateClaims.

(* ================================================================== *)
(** * [audio_handler.py]: normalisation of samples *)
(* ================================================================== *)

Section Normalisation.

Import Py.
Local Open Scope Z_scope.

Lemma check_block_sound (p : Z -> bool) (d : nat) :
  forall z, Int16.check_block d z p = true ->
  forall x, z <= x < z + 2 ^ Z.of_nat d -> p x = true.
Proof.
  induction d as [ | k IH]; intros z Hc x Hx.
  - simpl in Hc, Hx. replace x with z by lia. exact Hc.
  - cbn [Int16.check_block] in Hc.
    apply andb_true_iff in Hc. destruct Hc as [Hl Hr].
    rewrite Nat2Z.inj_succ, Z.pow_succ_r in Hx by lia.
    destruct (Z_lt_le_dec x (z + 2 ^ Z.of_nat k)) as [Hlt | Hge].
    + apply (IH z Hl). lia.
    + apply (IH (z + 2 ^ Z.of_nat k) Hr). lia.
Qed.

Lemma for_all_int16_sound (p : Z -> bool) :
  Int16.for_all_int16 p = true ->
  forall z, AudioHandler.is_int16 z -> p z = true.
Proof.
  intros Hc z [Hlo Hhi].
  apply (@check_block_sound p 16 (-32768) Hc).
  change (2 ^ Z.of_nat 16) with 65536. lia.
Qed.

Lemma normalize_all_ok : Int16.for_all_int16 Int16.normalize_ok = true.
Proof. vm_compute. reflexivity. Qed.

Lemma round_trip_all_ok : Int16.for_all_int16 Int16.round_trip_ok = true.
Proof. vm_compute. reflexivity. Qed.

Lemma bytes_all_ok : Int16.for_all_int16 Int16.bytes_ok = true.
Proof. vm_compute. reflexivity. Qed.

Lemma byte_val_bounds (b : byte) : 0 <= AudioHandler.byte_val b <= 255.
Proof.
  unfold AudioHandler.byte_val.
  pose proof (Byte.to_N_bounded b). lia.
Qed.

Lemma int16_of_bytes_range (lo hi : byte) :
  AudioHandler.is_int16 (AudioHandler.int16_of_bytes lo hi).
Proof.
  unfold AudioHandler.is_int16, AudioHandler.int16_of_bytes.
  pose proof (byte_val_bounds lo). pose proof (byte_val_bounds hi).
  cbv zeta.
  destruct (Z.ltb_spec (AudioHandler.byte_val lo + 256 * AudioHandler.byte_val hi)
                       32768); lia.
Qed.

(** Induction on byte strings, two bytes at a time. *)
Lemma bytes_pair_ind (P : list byte -> Prop) :
  P [] -> (forall b, P [b]) ->
  (forall lo hi rest, P rest -> P (lo :: hi :: rest)) ->
  forall bs, P bs.
Proof.
  intros H0 H1 H2 bs.
  assert (H : P bs /\ forall b, P (b :: bs)).
  { induction bs as [ | b bs [IHa IHb]].
    - split; [exact H0 | exact H1].
    - split; [apply IHb | intro b'; apply H2; exact IHa]. }
  exact (proj1 H).
Qed.

Lemma frombuffer_int16_range (audio_bytes : list byte) :
  forall a, AudioHandler.frombuffer_int16 audio_bytes = Return a ->
            Forall AudioHandler.is_int16 a.
Proof.
  induction audio_bytes as [ | b | lo hi rest IH] using bytes_pair_ind;
    intros a Ha.
  - inversion Ha. constructor.
  - discriminate Ha.
  - simpl in Ha.
    destruct (AudioHandler.frombuffer_int16 rest) as [a' | e];
      simpl in Ha; [ | discriminate].
    inversion Ha; subst. constructor.
    + apply int16_of_bytes_range.
    + apply IH. reflexivity.
Qed.

Lemma frombuffer_tobytes (samples : list Z) :
  Forall AudioHandler.is_int16 samples ->
  AudioHandler.frombuffer_int16 (AudioHandler.tobytes_int16 samples)
  = Return samples.
Proof.
  induction 1 as [ | z rest Hz _ IH]; [reflexivity | ].
  simpl. rewrite IH. simpl.
  pose proof (@for_all_int16_sound _ bytes_all_ok z Hz) as Hb.
  unfold Int16.bytes_ok in Hb. apply Z.eqb_eq in Hb. rewrite Hb.
  reflexivity.
Qed.

Lemma denormalize_normalize (samples : list Z) :
  Forall AudioHandler.is_int16 samples ->
  AudioHandler.denormalize (map AudioHandler.normalize samples)
  = Some samples.
Proof.
  induction 1 as [ | z rest Hz _ IH]; [reflexivity | ].
  cbn [map AudioHandler.denormalize]. rewrite IH.
  pose proof (@for_all_int16_sound _ round_trip_all_ok z Hz) as Hr.
  unfold Int16.round_trip_ok in Hr.
  destruct (AudioHandler.denormalize1 (AudioHandler.normalize z)) as [y | ];
    [ | discriminate].
  apply Z.eqb_eq in Hr. subst y. reflexivity.
Qed.

Lemma normalize_ok_all (z : Z) :
  AudioHandler.is_int16 z ->
  Int16.in_unit_interval (AudioHandler.normalize z) = true
  /\ Int16.is_quotient_by_32768 z (AudioHandler.normalize z) = true.
Proof.
  intro Hz.
  pose proof (@for_all_int16_sound _ normalize_all_ok z Hz) as Hok.
  unfold Int16.normalize_ok in Hok. apply andb_true_iff in Hok. exact Hok.
Qed.

Lemma normalize_in_unit_interval (a : list Z) :
  Forall AudioHandler.is_int16 a ->
  Forall (fun x => Int16.in_unit_interval x = true)
         (map AudioHandler.normalize a).
Proof.
  induction 1 as [ | z rest Hz _ IH]; simpl; constructor.
  - apply normalize_ok_all, Hz.
  - exact IH.
Qed.

Lemma normalize_exact (a : list Z) :
  Forall AudioHandler.is_int16 a ->
  Forall2 (fun z x => Int16.is_quotient_by_32768 z x = true)
          a (map AudioHandler.normalize a).
Proof.
  induction 1 as [ | z rest Hz _ IH]; simpl; constructor.
  - apply normalize_ok_all, Hz.
  - exact IH.
Qed.

(** C9. For every byte string, [bytes_to_tensor] returns (it never
    raises) a tensor all of whose samples lie in [-1, 1]; when the bytes
    decode to int16 samples, the tensor holds, sample by sample, exactly
    the quotient of the sample by 32768. *)
Theorem C9_bytes_to_tensor_normalised (audio_bytes : list byte) :
  exists t,
    AudioHandler.bytes_to_tensor audio_bytes = Return t
    /\ Forall (fun x => Int16.in_unit_interval x = true) t
    /\ (forall samples,
          AudioHandler.frombuffer_int16 audio_bytes = Return samples ->
          t = map AudioHandler.normalize samples
          /\ Forall2 (fun z x => Int16.is_quotient_by_32768 z x = true)
                     samples t).
Proof.
  unfold AudioHandler.bytes_to_tensor.
  pose proof (frombuffer_int16_range audio_bytes) as Hrange.
  destruct (AudioHandler.frombuffer_int16 audio_bytes) as [a | e]; simpl.
  - exists (map AudioHandler.normalize a).
    specialize (Hrange a eq_refl).
    split; [reflexivity | ].
    split; [apply normalize_in_unit_interval, Hrange | ].
    intros samples Hs. inversion Hs; subst samples.
    split; [reflexivity | apply normalize_exact, Hrange].
  - exists []. split; [reflexivity | ]. split; [constructor | ].
    intros samples Hs. discriminate Hs.
Qed.

(** C10. For every sequence of signed 16-bit samples, converting their
    raw bytes with [bytes_to_tensor], then multiplying by 32768 and
    casting back to int16, gives the original samples. *)
Theorem C10_normalisation_round_trip (samples : list Z) :
  Forall AudioHandler.is_int16 samples ->
  exists t,
    AudioHandler.bytes_to_tensor (AudioHandler.tobytes_int16 samples)
    = Return t
    /\ AudioHandler.denormalize t = Some samples.
Proof.
  intro Hs. unfold AudioHandler.bytes_to_tensor.
  rewrite (frombuffer_tobytes Hs). simpl.
  eexists. split; [reflexivity | ].
  apply denormalize_normalize. exact Hs.
Qed.

Lemma C10_round_trip_witness :
  exists t,
    AudioHandler.bytes_to_tensor
      (AudioHandler.tobytes_int16 [0; -32768; 32767; -1; 12345]) = Return t
    /\ AudioHandler.denormalize t = Some [0; -32768; 32767; -1; 12345].
Proof.
  apply C10_normalisation_round_trip.
  repeat constructor; unfold AudioHandler.is_int16; lia.
Defined.

End Normalisation.
(* ================================================================== *)
(** * [realtime_working.py]: the frame queue *)
(* ================================================================== *)

Section FrameQueue.

Import RealtimeWorking.

(** On an unbounded queue the capture callback never blocks, and the
    queue afterwards holds, oldest first, every frame that was there or
    was captured, less the [k] frames the consumer took. *)
Lemma run_queue_unbounded (ops : list queue_op) :
  forall self,
    PyQueue.maxsize (audio_queue self) = 0%Z ->
    is_recording self = true ->
    exists self' k,
      run_queue self ops = Some self'
      /\ (k <= takes ops)%nat
      /\ PyQueue.maxsize (audio_queue self') = 0%Z
      /\ PyQueue.items (audio_queue self')
         = skipn k (PyQueue.items (audio_queue self) ++ captured ops).
Proof.
  induction ops as [ | [in_data | ] rest IH]; intros self Hmax Hrec.
  - exists self, O. simpl. rewrite app_nil_r. auto.
  - cbn [run_queue captured takes]. unfold _audio_callback.
    rewrite Hrec. unfold PyQueue.put, PyQueue.full. rewrite Hmax. simpl.
    destruct (IH (set_audio_queue self
                    {| PyQueue.maxsize := 0;
                       PyQueue.items :=
                         PyQueue.items (audio_queue self) ++ [in_data] |}))
      as (self' & k & Hrun & Hk & Hm & Hitems); [reflexivity | exact Hrec | ].
    exists self', k. rewrite Hrun. repeat split; auto.
    rewrite Hitems. simpl. rewrite <- app_assoc. reflexivity.
  - cbn [run_queue captured takes]. unfold PyQueue.get.
    destruct (PyQueue.items (audio_queue self)) as [ | x r] eqn:Hq.
    + destruct (IH self Hmax Hrec) as (self' & k & Hrun & Hk & Hm & Hitems).
      exists self', k. rewrite Hq in Hitems. repeat split; auto.
    + destruct (IH (set_audio_queue self
                      {| PyQueue.maxsize := PyQueue.maxsize (audio_queue self);
                         PyQueue.items := r |}))
        as (self' & k & Hrun & Hk & Hm & Hitems); [exact Hmax | exact Hrec | ].
      exists self', (S k).
      split; [exact Hrun | ]. split; [lia | ]. split; [exact Hm | ].
      rewrite Hitems. reflexivity.
Qed.

Lemma captured_map_Capture (frames : list bytes) :
  captured (map Capture frames) = frames /\ takes (map Capture frames) = O.
Proof. induction frames as [ | f fs [IH1 IH2]]; simpl; [ | rewrite IH1]; auto. Qed.

(** C3 (amended). The frame queue is created by [queue.Queue()], without
    a capacity: whatever the interleaving of captures and takes, the
    capture callback never blocks and no frame is dropped; the queue
    holds, oldest first, exactly the captured frames the consumer has
    not taken yet, so that after [n] captures and no take it holds all
    [n] frames. *)
Theorem C3_capture_never_blocks_and_queue_keeps_every_frame
        (vosk : option Vosk.Model) (tts : option TTSEngine)
        (ops : list queue_op) :
  exists self' k,
    run_queue (set_is_recording (init vosk tts) true) ops = Some self'
    /\ (k <= takes ops)%nat
    /\ PyQueue.items (audio_queue self') = skipn k (captured ops)
    /\ (takes ops = O ->
        PyQueue.items (audio_queue self') = captured ops
        /\ PyQueue.qsize (audio_queue self')
           = Z.of_nat (List.length (captured ops))).
Proof.
  destruct (@run_queue_unbounded ops (set_is_recording (init vosk tts) true))
    as (self' & k & Hrun & Hk & _ & Hitems); [reflexivity | reflexivity | ].
  simpl in Hitems.
  exists self', k. repeat split; auto.
  - rewrite Hitems. replace k with O by lia. reflexivity.
  - unfold PyQueue.qsize. rewrite Hitems. replace k with O by lia.
    reflexivity.
Qed.

(** C3 as stated fails: no capacity bounds the queue, and the oldest
    frame is still queued after later ones have been pushed. *)
Lemma C3_queue_is_unbounded_and_drops_nothing :
  let self := set_is_recording (init None None) true in
  (exists self',
      run_queue self [Capture [x01]; Capture [x02]; Capture [x03]] = Some self'
      /\ PyQueue.items (audio_queue self') = [[x01]; [x02]; [x03]])
  /\ ~ (exists C : nat,
          forall frames self',
            run_queue self (map Capture frames) = Some self' ->
            (List.length (PyQueue.items (audio_queue self')) <= C)%nat).
Proof.
  intro self. split.
  - eexists. split; reflexivity.
  - intros (C & Hbound).
    destruct (@run_queue_unbounded (map Capture (repeat [] (S C))) self)
      as (self' & k & Hrun & Hk & _ & Hitems); [reflexivity | reflexivity | ].
    specialize (Hbound _ _ Hrun).
    destruct (captured_map_Capture (repeat [] (S C))) as [Hc Ht].
    rewrite Ht in Hk. rewrite Hc in Hitems.
    replace k with O in Hitems by lia.
    rewrite Hitems in Hbound. simpl in Hbound.
    rewrite repeat_length in Hbound. lia.
Qed.

End FrameQueue.
(* ================================================================== *)
(** * [approach_4_realtime_fixed.py]: overlapping windows *)
(* ================================================================== *)

Section Windower.

Import Py Approach4.

Variable self : RealTimeLanguageSwitch.

Let W := buffer_size self.

Lemma windows_app (e1 e2 : list event) :
  windows (e1 ++ e2) = windows e1 ++ windows e2.
Proof.
  induction e1 as [ | [w l | e] rest IH]; simpl; [ | rewrite IH | ]; auto.
Qed.

Lemma no_callback_no_window (got : list (option frame)) :
  callback self = None ->
  forall buffer, windows (snd (process_items self buffer got)) = [].
Proof.
  intro Hcb. induction got as [ | item rest IH]; intro buffer; [reflexivity | ].
  cbn [process_items].
  destruct (process_item self buffer item) as [b1 ev1] eqn:H1.
  specialize (IH b1).
  destruct (process_items self b1 rest) as [b2 ev2]. simpl in *.
  rewrite windows_app, IH, app_nil_r.
  unfold process_item in H1. rewrite Hcb in H1.
  destruct item as [chunk | ]; [ | inversion H1; reflexivity].
  destruct (buffer_size self <=? List.length (buffer ++ chunk));
    inversion H1; reflexivity.
Qed.

Lemma process_items_chained (got : list (option frame)) :
  forall buffer seed rest,
    buffer = seed ++ rest ->
    List.length seed <= W ->
    chained W seed (windows (snd (process_items self buffer got))).
Proof.
  induction got as [ | item more IH]; intros buffer seed rest Hb Hseed;
    [exact I | ].
  cbn [process_items].
  destruct (process_item self buffer item) as [b1 ev1] eqn:H1.
  destruct (process_items self b1 more) as [b2 ev2] eqn:H2.
  cbn [snd]. rewrite windows_app.
  unfold process_item in H1.
  destruct item as [chunk | ].
  2:{ injection H1 as <- <-. simpl.
      specialize (IH buffer seed rest Hb Hseed). rewrite H2 in IH. exact IH. }
  fold W in H1.
  destruct (Nat.leb_spec W (List.length (buffer ++ chunk))) as [Hfull | Hnot].
  - assert (Hb1 : b1 = skipn (W / 2) (buffer ++ chunk))
      by (destruct (callback self) as [cb | ];
          [destruct (cb _ _) | ]; injection H1 as <- _; reflexivity).
    assert (Hev1 : windows ev1
                   = match callback self with
                     | Some _ => [firstn W (buffer ++ chunk)]
                     | None => []
                     end)
      by (destruct (callback self) as [cb | ];
          [destruct (cb _ _) | ]; injection H1 as _ <-; reflexivity).
    clear H1. subst b1. rewrite Hev1. clear Hev1.
    assert (Hw : List.length (firstn W (buffer ++ chunk)) = W)
      by (rewrite length_firstn; lia).
    assert (Hhalf : W / 2 <= W) by (apply Nat.Div0.div_le_upper_bound; lia).
    assert (Hkeep : skipn (W / 2) (buffer ++ chunk)
                    = skipn (W / 2) (firstn W (buffer ++ chunk))
                      ++ skipn W (buffer ++ chunk)).
    { rewrite <- (firstn_skipn W (buffer ++ chunk)) at 1.
      rewrite skipn_app, Hw.
      replace (W / 2 - W) with 0 by lia. reflexivity. }
    destruct (callback self) as [cb | ] eqn:Hcb.
    + cbn [app chained]. split; [exact Hw | ]. split.
      * rewrite firstn_firstn, Nat.min_l by exact Hseed.
        rewrite Hb, <- app_assoc, firstn_app, Nat.sub_diag, firstn_all.
        simpl. apply app_nil_r.
      * specialize (IH (skipn (W / 2) (buffer ++ chunk))
                       (skipn (W / 2) (firstn W (buffer ++ chunk)))
                       (skipn W (buffer ++ chunk)) Hkeep).
        rewrite H2 in IH. apply IH.
        rewrite length_skipn, Hw. lia.
    + pose proof (no_callback_no_window more Hcb
                    (skipn (W / 2) (buffer ++ chunk))) as Hnone.
      rewrite H2 in Hnone. simpl in Hnone. rewrite Hnone. exact I.
  - injection H1 as <- <-. simpl.
    specialize (IH (buffer ++ chunk) seed (rest ++ chunk)).
    rewrite H2 in IH. apply IH; [ | exact Hseed].
    rewrite Hb, app_assoc. reflexivity.
Qed.

Lemma chained_consecutive (ws1 : list (list Float.float32)) :
  forall seed w1 w2 ws2,
    chained W seed (ws1 ++ w1 :: w2 :: ws2) ->
    List.length w1 = W /\ List.length w2 = W
    /\ firstn (W - W / 2) w2 = skipn (W / 2) w1.
Proof.
  induction ws1 as [ | w ws IH]; intros seed w1 w2 ws2 Hc.
  - simpl in Hc. destruct Hc as (H1 & _ & H2 & Hov & _).
    rewrite length_skipn, H1 in Hov. auto.
  - simpl in Hc. destruct Hc as (_ & _ & Hc). exact (IH _ _ _ _ Hc).
Qed.

End Windower.

Section WindowerClaim.

Import Py Approach4.

(** C6. Whatever frames the queue delivers to [process_audio_queue],
    every window handed to the callback has [W = 2 * sample_rate]
    samples, and every window after the first begins with exactly the
    last [W / 2] samples (overlap 50%) of the window before it. *)
Theorem C6_windows_overlap_by_half
        (self : RealTimeLanguageSwitch) (got : list (option frame))
        (ws1 ws2 : list (list Float.float32)) (w1 w2 : list Float.float32) :
  windows (snd (process_audio_queue self got)) = ws1 ++ w1 :: w2 :: ws2 ->
  let W := buffer_size self in
  List.length w1 = W /\ List.length w2 = W
  /\ firstn (W / 2) w2 = skipn (W - W / 2) w1.
Proof.
  intros Hws W.
  pose proof (@process_items_chained self got [] [] [] eq_refl (Nat.le_0_l _))
    as Hc.
  unfold process_audio_queue in Hws. rewrite Hws in Hc.
  destruct (chained_consecutive self ws1 [] w1 w2 ws2 Hc) as (H1 & H2 & Hov).
  fold W in H1, H2, Hov.
  assert (Hhalf : W - W / 2 = W / 2).
  { unfold W, buffer_size. rewrite Nat.div_mul by lia. lia. }
  rewrite Hhalf in *. auto.
Qed.

Lemma C6_windows_overlap_witness :
  let self := {| sample_rate := 1; current_language := "en";
                 callback := Some (fun _ _ => Return tt) |} in
  let a := Float.f32_one in
  let b := Float.f32_minus_one in
  let c := Float.f32768 in
  windows (snd (process_audio_queue self [Some [a; b; c]; Some [a]]))
  = [[a; b]; [b; c]]
  /\ List.length [a; b] = 2 /\ List.length [b; c] = 2
  /\ firstn (2 / 2) [b; c] = skipn (2 - 2 / 2) [a; b].
Proof.
  intros self a b c. split; [reflexivity | ].
  apply (@C6_windows_overlap_by_half self [Some [a; b; c]; Some [a]]
           [] [] [a; b] [b; c]).
  reflexivity.
Defined.

(** [realtime_working.py] keeps nothing of a processed window: its
    buffer is reset, the overlap is empty. *)
Lemma realtime_working_window_keeps_nothing
      (self : RealtimeWorking.WorkingRealTimeSystem)
      (st : RealtimeWorking.locals) (audio_chunk : list byte) :
  (RealtimeWorking.buffer_size self
   <= Z.of_nat (List.length (RealtimeWorking.audio_buffer st ++ audio_chunk)))%Z ->
  RealtimeWorking.audio_buffer
    (fst (RealtimeWorking.process_item self st (Some audio_chunk))) = [].
Proof.
  intro Hfull. unfold RealtimeWorking.process_item.
  apply Z.leb_le in Hfull. rewrite Hfull.
  destruct (RealtimeWorking.vosk_recognizer self) as [r | ]; [ | reflexivity].
  destruct (RealtimeWorking.transcribe_window _ _) as [t ev1].
  destruct (RealtimeWorking.emit_transcription _ _ _) as [last ev2].
  reflexivity.
Qed.

End WindowerClaim.
(* ================================================================== *)
(** * [realtime_working.py]: the transcription of a window *)
(* ================================================================== *)

Section WindowTranscription.

Import Py RealtimeWorking.

Lemma chunk_size_pos : 0 < chunk_size.
Proof. unfold chunk_size. apply Nat.lt_0_succ. Qed.

Lemma firstn_chunk_nonempty (b : byte) (bs : list byte) :
  firstn chunk_size (b :: bs) <> [].
Proof.
  pose proof chunk_size_pos as Hpos.
  destruct chunk_size as [ | n]; [lia | simpl; discriminate].
Qed.

(** The sub-chunks are not empty and, put end to end, give the window
    back: the fuel of [chunks] is enough. *)
Lemma chunks_upto_spec (fuel : nat) :
  forall buf, List.length buf <= fuel ->
              List.concat (chunks_upto fuel buf) = buf
              /\ Forall (fun c => c <> []) (chunks_upto fuel buf).
Proof.
  induction fuel as [ | fuel IH]; intros buf Hlen.
  - destruct buf; [simpl; auto | simpl in Hlen; lia].
  - destruct buf as [ | b bs]; [simpl; auto | ].
    cbn [chunks_upto List.concat].
    destruct (IH (skipn chunk_size (b :: bs))) as [Hc Hne].
    { rewrite length_skipn. pose proof chunk_size_pos. simpl in *. lia. }
    split.
    + rewrite Hc. apply firstn_skipn.
    + constructor; [apply firstn_chunk_nonempty | exact Hne].
Qed.

Lemma chunks_spec (buf : list byte) :
  List.concat (chunks buf) = buf /\ Forall (fun c => c <> []) (chunks buf).
Proof. apply chunks_upto_spec. apply Nat.le_refl. Qed.

(** The loop over the sub-chunks folds [Window.keep] over the answers
    of the recogniser. *)
Lemma accept_chunks_fold (cs : list bytes) :
  Forall (fun c => c <> []) cs ->
  forall r t,
    let '(r', t', evs) := accept_chunks r t cs in
    Vosk.model r' = Vosk.model r
    /\ Vosk.history r' = Vosk.history r ++ map Vosk.Feed cs
    /\ t' = fold_left Window.keep
              (Window.answers_from (Vosk.model r) (Vosk.history r) cs) t
    /\ emissions evs = [].
Proof.
  induction 1 as [ | c rest Hc _ IH]; intros r t.
  - simpl. rewrite app_nil_r. auto.
  - cbn [accept_chunks Window.answers_from map fold_left].
    unfold accept_chunk.
    replace (0 <? Z.of_nat (List.length c))%Z with true
      by (symmetry; apply Z.ltb_lt; destruct c; [congruence | simpl; lia]).
    unfold Vosk.feed.
    set (r1 := {| Vosk.model := Vosk.model r;
                  Vosk.history := Vosk.history r ++ [Vosk.Feed c] |}).
    set (a := Vosk.accept_waveform (Vosk.model r)
                                   (Vosk.history r ++ [Vosk.Feed c])).
    assert (Hstep : forall t1 ev1,
               emissions ev1 = [] ->
               t1 = Window.keep t a ->
               let '(r', t', evs) :=
                 let '(r2, t2, ev2) := accept_chunks r1 t1 rest in
                 (r2, t2, ev1 ++ ev2) in
               Vosk.model r' = Vosk.model r
               /\ Vosk.history r' = Vosk.history r ++ Vosk.Feed c :: map Vosk.Feed rest
               /\ t' = fold_left Window.keep
                         (Window.answers_from (Vosk.model r)
                            (Vosk.history r ++ [Vosk.Feed c]) rest)
                         (Window.keep t a)
               /\ emissions evs = []).
    { intros t1 ev1 Hev1 Ht1. specialize (IH r1 t1).
      destruct (accept_chunks r1 t1 rest) as [[r2 t2] ev2].
      destruct IH as (Hm & Hh & Ht & He). subst t1. simpl in Hm, Hh, Ht.
      repeat split; auto.
      - rewrite Hh, <- app_assoc. reflexivity.
      - unfold emissions in *. rewrite filter_app, Hev1, He. reflexivity. }
    destruct a as [[text | partial] | e] eqn:Ha; cbv zeta;
      apply Hstep; reflexivity.
Qed.

Lemma transcribe_window_eq (m : Vosk.Model) (audio_buffer : bytes) :
  fst (transcribe_window m audio_buffer)
  = (let t := fold_left Window.keep (Window.answers m audio_buffer) [] in
     match Window.final_answer m audio_buffer with
     | Return f => if truthy (strip f) then strip f else t
     | Raise _ => t
     end)
  /\ emissions (snd (transcribe_window m audio_buffer)) = [].
Proof.
  unfold transcribe_window, Window.answers, Window.final_answer.
  pose proof (accept_chunks_fold (proj2 (chunks_spec audio_buffer))
                                 (Vosk.new m) []) as Hfold.
  destruct (accept_chunks (Vosk.new m) [] (chunks audio_buffer))
    as [[r t] ev1].
  destruct Hfold as (Hm & Hh & Ht & He). simpl in Hm, Hh, Ht.
  unfold final_result, Vosk.finalize. cbn [fst]. rewrite Hm, Hh.
  destruct (Vosk.final_result m _) as [f | e]; cbn [fst snd]; subst t.
  - split; [reflexivity | ].
    unfold emissions in *. rewrite filter_app, He. reflexivity.
  - split; [reflexivity | ].
    unfold emissions in *. rewrite filter_app, He. reflexivity.
Qed.

(** Without a committed result the fold keeps the first of the longest
    partial hypotheses. *)
Lemma keep_partials_only (l : list (outcome Vosk.answer)) :
  Window.has_commit l = false ->
  forall t, fold_left Window.keep l t
            = Spec.longest_from t (Window.partial_texts l).
Proof.
  induction l as [ | a rest IH]; intros Hc t; [reflexivity | ].
  destruct a as [[text | partial] | e]; cbn [fold_left Window.partial_texts
                                              Window.has_commit Spec.longest_from] in *.
  - apply orb_false_iff in Hc. destruct Hc as [Hempty Hrest].
    unfold Window.keep at 2. rewrite Hempty. apply IH, Hrest.
  - rewrite (IH Hc). f_equal. unfold Window.keep.
    destruct (len t <? len (strip partial))%Z eqn:Hlt;
      [ | rewrite andb_false_r; reflexivity].
    rewrite andb_true_r.
    destruct (strip partial); [ | reflexivity].
    apply Z.ltb_lt in Hlt. unfold len in Hlt. simpl in Hlt. lia.
  - apply IH, Hc.
Qed.

(** A committed, non-empty result replaces whatever was kept. *)
Lemma keep_after_commit (pre : list (outcome Vosk.answer)) :
  forall t0 text post,
    truthy (strip text) = true ->
    fold_left Window.keep (pre ++ Return (Vosk.Accepted text) :: post) t0
    = fold_left Window.keep post (strip text).
Proof.
  intros t0 text post Hne.
  rewrite fold_left_app. cbn [fold_left]. unfold Window.keep at 2.
  rewrite Hne. reflexivity.
Qed.

(** [Spec.longest_from] does return a longest text, the first of them. *)
Lemma longest_from_spec (texts : list str) :
  forall best,
    let r := Spec.longest_from best texts in
    (len best <= len r)%Z
    /\ Forall (fun p => (len p <= len r)%Z) texts
    /\ (r = best \/ In r texts).
Proof.
  induction texts as [ | p rest IH]; intro best; cbn [Spec.longest_from].
  - cbv zeta. repeat split; auto; lia.
  - cbv zeta.
    specialize (IH (if (len best <? len p)%Z then p else best)).
    cbv zeta in IH. destruct IH as (Hge & Hall & Hin).
    destruct (Z.ltb_spec (len best) (len p)) as [Hlt | Hle].
    + repeat split; [lia | constructor; [lia | exact Hall] | ].
      destruct Hin as [-> | Hin]; right; simpl; auto.
    + repeat split; [lia | constructor; [lia | exact Hall] | ].
      destruct Hin as [-> | Hin]; [left | right; simpl]; auto.
Qed.

End WindowTranscription.

Section WindowClaim.

Import Py RealtimeWorking.

(** C5 (amended). The transcription kept for a window is the non-empty
    result of the final call, when there is one. Otherwise, when no
    sub-chunk was committed with a non-empty result, it is the first of
    the longest non-empty partial hypotheses of the sub-chunks (empty if
    there is none); and when some sub-chunk was committed with a
    non-empty result, the last such result replaces what was kept before
    it, whatever the lengths, and only a strictly longer later partial
    replaces it. *)
Theorem C5_kept_transcription_of_a_window
        (m : Vosk.Model) (audio_buffer : bytes) :
  let answers := Window.answers m audio_buffer in
  let fin := Window.final_answer m audio_buffer in
  let kept := fst (transcribe_window m audio_buffer) in
  (forall f, fin = Return f -> truthy (strip f) = true -> kept = strip f)
  /\ (Window.final_is_empty fin = true ->
      Window.has_commit answers = false ->
      kept = Spec.longest_partial (Window.partial_texts answers)
      /\ Forall (fun p => (len p <= len kept)%Z) (Window.partial_texts answers)
      /\ (kept = [] \/ In kept (Window.partial_texts answers)))
  /\ (Window.final_is_empty fin = true ->
      forall pre text post,
        answers = pre ++ Return (Vosk.Accepted text) :: post ->
        truthy (strip text) = true ->
        Window.has_commit post = false ->
        kept = Spec.longest_from (strip text) (Window.partial_texts post)).
Proof.
  intros answers fin kept.
  destruct (transcribe_window_eq m audio_buffer) as [Hk _].
  fold kept fin answers in Hk. cbv zeta in Hk.
  assert (Hempty : Window.final_is_empty fin = true ->
                   kept = fold_left Window.keep answers []).
  { intro He. rewrite Hk. destruct fin as [f | e]; [ | reflexivity].
    simpl in He. apply negb_true_iff in He. rewrite He. reflexivity. }
  split; [ | split].
  - intros f Hf Hne. rewrite Hk, Hf, Hne. reflexivity.
  - intros He Hc. rewrite (Hempty He), (keep_partials_only _ Hc).
    pose proof (longest_from_spec (Window.partial_texts answers) []) as Hs.
    cbv zeta in Hs. destruct Hs as (_ & Hall & Hin). auto.
  - intros He pre text post Ha Hne Hc.
    rewrite (Hempty He), Ha, (keep_after_commit pre [] text post Hne).
    apply keep_partials_only, Hc.
Qed.

Lemma C5_kept_transcription_witness :
  fst (transcribe_window Examples.growing_model Examples.two_chunks)
  = lit "good morning all"
  /\ fst (transcribe_window Examples.partial_model Examples.two_chunks)
     = lit "good morning".
Proof.
  split.
  - apply (proj1 (C5_kept_transcription_of_a_window
                    Examples.growing_model Examples.two_chunks)
                 (lit " good morning all ")); vm_compute; reflexivity.
  - apply (proj1 (proj2 (C5_kept_transcription_of_a_window
                           Examples.partial_model Examples.two_chunks)));
      vm_compute; reflexivity.
Defined.

(** C5 as stated fails: the first sub-chunk gets the partial
    "hello world", the second is committed as "hello" and the final call
    gives nothing; "hello" is kept, not the longest partial. *)
Lemma C5_commit_replaces_longer_partial :
  let m := Examples.regressing_model in
  let window := Examples.two_chunks in
  Window.partial_texts (Window.answers m window) = [lit "hello world"]
  /\ Window.final_answer m window = Return []
  /\ Spec.kept (Window.partial_texts (Window.answers m window)) (strip [])
     = lit "hello world"
  /\ fst (transcribe_window m window) = lit "hello"
  /\ fst (transcribe_window m window)
     <> Spec.kept (Window.partial_texts (Window.answers m window)) (strip []).
Proof.
  intros m window.
  assert (H1 : Window.partial_texts (Window.answers m window)
               = [lit "hello world"]) by (vm_compute; reflexivity).
  assert (H2 : fst (transcribe_window m window) = lit "hello")
    by (vm_compute; reflexivity).
  rewrite H1, H2.
  repeat split; try (vm_compute; reflexivity).
  vm_compute. discriminate.
Qed.

End WindowClaim.
(* ================================================================== *)
(** * [realtime_working.py], [simple_working.py]: what is emitted *)
(* ================================================================== *)

Section Stabilizer.

Import Py.
Local Open Scope Z_scope.

Lemma str_eqb_eq (a b : str) : str_eqb a b = true <-> a = b.
Proof.
  unfold str_eqb. destruct (list_eq_dec N.eq_dec a b); intuition congruence.
Qed.

Lemma str_eqb_refl (a : str) : str_eqb a a = true.
Proof. now apply str_eqb_eq. Qed.

Lemma long_is_truthy (t : str) : 2 < len t -> truthy t = true.
Proof. destruct t; [unfold len; simpl; lia | reflexivity]. Qed.

Import RealtimeWorking.

(** [speak_text] produces at most the synthesis of its text. *)
Lemma speak_text_events (self : WorkingRealTimeSystem) (text : str) :
  filter is_transcript (speak_text self text) = []
  /\ (emissions (speak_text self text) = []
      \/ emissions (speak_text self text) = [Say text]).
Proof.
  unfold speak_text.
  destruct (tts_engine self) as [engine | ]; [ | simpl; auto].
  destruct (negb (truthy (strip text))); [simpl; auto | ].
  destruct (engine text); simpl; auto.
Qed.

(** The two branches of lines 226-235. *)
Lemma emit_transcription_emits (self : WorkingRealTimeSystem) (last t : str) :
  2 < len t -> t <> last ->
  emit_transcription self last t
  = (t, PrintTranscript (current_language self) t
        :: speak_text self (lit "I heard: " ++ t)).
Proof.
  intros Hlen Hneq. unfold emit_transcription.
  rewrite (@long_is_truthy t Hlen).
  replace (str_eqb t last) with false
    by (symmetry; apply not_true_is_false; rewrite str_eqb_eq; exact Hneq).
  replace (2 <? len t) with true by (symmetry; now apply Z.ltb_lt).
  reflexivity.
Qed.

Lemma emit_transcription_skips (self : WorkingRealTimeSystem) (last t : str) :
  len t <= 2 \/ t = last ->
  emit_transcription self last t = (last, [PrintNoSpeech]).
Proof.
  intros Hskip. unfold emit_transcription.
  destruct Hskip as [Hshort | ->].
  - replace (2 <? len t) with false by (symmetry; now apply Z.ltb_ge).
    rewrite andb_false_r. reflexivity.
  - rewrite str_eqb_refl. simpl. rewrite andb_false_r. reflexivity.
Qed.

(** Every emission of [_process_audio_queue] carries a transcription
    of more than two characters. *)
Lemma emit_transcription_long (self : WorkingRealTimeSystem) (last t : str)
      (e : event) :
  In e (emissions (snd (emit_transcription self last t))) ->
  2 < len t
  /\ (e = PrintTranscript (current_language self) t
      \/ e = Say (lit "I heard: " ++ t)).
Proof.
  destruct (Z_lt_le_dec 2 (len t)) as [Hlong | Hshort].
  - destruct (list_eq_dec N.eq_dec t last) as [Heq | Hneq].
    + rewrite (@emit_transcription_skips self last t (or_intror Heq)).
      simpl. tauto.
    + rewrite (@emit_transcription_emits self last t Hlong Hneq).
      cbn [snd emissions filter is_emission]. intros [<- | Hin]; [auto | ].
      split; [exact Hlong | right].
      destruct (speak_text_events self (lit "I heard: " ++ t))
        as [_ [Hnone | Hsay]]; unfold emissions in *.
      * rewrite Hnone in Hin. destruct Hin.
      * rewrite Hsay in Hin. destruct Hin as [<- | []]. reflexivity.
  - rewrite (@emit_transcription_skips self last t (or_introl Hshort)).
    simpl. tauto.
Qed.

End Stabilizer.

Section StabilizerClaims.

Import Py.
Local Open Scope Z_scope.

(** C8. A transcription of at most two characters is never emitted:
    [_process_audio_queue] of [realtime_working.py] neither prints nor
    speaks it and keeps its memory of the last transcription, and the
    loop of [simple_working.py] neither prints nor speaks it. *)
Theorem C8_short_transcription_is_never_emitted (t : str) :
  len t <= 2 ->
  (forall self last,
      RealtimeWorking.emit_transcription self last t
      = (last, [RealtimeWorking.PrintNoSpeech])
      /\ RealtimeWorking.emissions
           (snd (RealtimeWorking.emit_transcription self last t)) = [])
  /\ (forall self audio_data,
         fst (fst (SimpleWorking.process_audio_chunk self audio_data)) = t ->
         SimpleWorking.emissions
           (snd (SimpleWorking.run_step self audio_data)) = []).
Proof.
  intro Hshort. split.
  - intros self last.
    rewrite (@emit_transcription_skips self last t (or_introl Hshort)).
    split; reflexivity.
  - intros self audio_data Ht. unfold SimpleWorking.run_step.
    destruct (SimpleWorking.process_audio_chunk self audio_data)
      as [[t' self1] ev1] eqn:Hp.
    simpl in Ht. subst t'.
    replace (2 <? len t) with false by (symmetry; now apply Z.ltb_ge).
    rewrite andb_false_r. cbn [snd].
    unfold SimpleWorking.process_audio_chunk in Hp.
    destruct (SimpleWorking.vosk_recognizer self) as [r | ];
      [ | injection Hp as _ _ <-; reflexivity].
    destruct (Vosk.feed r audio_data) as [[[text | partial] | e] r'];
      injection Hp as _ _ <-; reflexivity.
Qed.

Lemma C8_short_transcription_witness :
  (forall self last,
      RealtimeWorking.emit_transcription self last (lit "ok")
      = (last, [RealtimeWorking.PrintNoSpeech])
      /\ RealtimeWorking.emissions
           (snd (RealtimeWorking.emit_transcription self last (lit "ok"))) = [])
  /\ (forall self audio_data,
         fst (fst (SimpleWorking.process_audio_chunk self audio_data)) = lit "ok" ->
         SimpleWorking.emissions
           (snd (SimpleWorking.run_step self audio_data)) = []).
Proof.
  apply (@C8_short_transcription_is_never_emitted (lit "ok")).
  vm_compute. discriminate.
Defined.

Import RealtimeWorking.

(** C4. Feeding [emit_transcription] the same transcription twice in a
    row yields exactly one emission: a transcription that the stabilizer
    lets through, of more than two characters and different from the one
    emitted last, is printed once, and the second time nothing is
    emitted and the memory is left as it is; whatever the transcription,
    at most one transcript is emitted; and the memory of the last
    transcription changes only together with an emission. *)
Theorem C4_same_transcription_twice
        (self : WorkingRealTimeSystem) (last t : str) :
  let first := emit_transcription self last t in
  let second := emit_transcription self (fst first) t in
  emissions (snd second) = []
  /\ fst second = fst first
  /\ (List.length (filter is_transcript (snd first ++ snd second)) <= 1)%nat
  /\ (2 < len t -> t <> last ->
      filter is_transcript (snd first ++ snd second)
      = [PrintTranscript (current_language self) t]
      /\ fst first = t)
  /\ (fst first <> last ->
      fst first = t
      /\ In (PrintTranscript (current_language self) t) (snd first)).
Proof.
  intros first second.
  destruct (Z_lt_le_dec 2 (len t)) as [Hlong | Hshort].
  - destruct (list_eq_dec N.eq_dec t last) as [Heq | Hneq].
    + assert (H1 : first = (last, [PrintNoSpeech]))
        by (apply emit_transcription_skips; auto).
      assert (H2 : second = (last, [PrintNoSpeech]))
        by (unfold second; rewrite H1; apply emit_transcription_skips; auto).
      rewrite H1, H2. simpl. repeat split; auto; try tauto; try lia.
    + assert (H1 : first = (t, PrintTranscript (current_language self) t
                             :: speak_text self (lit "I heard: " ++ t)))
        by (apply emit_transcription_emits; auto).
      assert (H2 : second = (t, [PrintNoSpeech]))
        by (unfold second; rewrite H1; apply emit_transcription_skips; auto).
      rewrite H1, H2.
      destruct (speak_text_events self (lit "I heard: " ++ t)) as [Hnt _].
      cbn [fst snd app filter is_transcript is_emission emissions].
      rewrite filter_app, Hnt. simpl.
      repeat split; auto.
  - assert (H1 : first = (last, [PrintNoSpeech]))
      by (apply emit_transcription_skips; auto).
    assert (H2 : second = (last, [PrintNoSpeech]))
      by (unfold second; rewrite H1; apply emit_transcription_skips; auto).
    rewrite H1, H2. simpl. repeat split; auto; try tauto; try lia.
Qed.

Lemma C4_same_transcription_twice_witness :
  let self := Examples.working Examples.hello_model 16000 in
  let first := emit_transcription self [] (lit "hello world") in
  let second := emit_transcription self (fst first) (lit "hello world") in
  filter is_transcript (snd first ++ snd second)
  = [PrintTranscript "en" (lit "hello world")]
  /\ fst first = lit "hello world".
Proof.
  intros self first second.
  apply (proj1 (proj2 (proj2 (proj2
           (C4_same_transcription_twice self [] (lit "hello world")))))).
  - vm_compute. reflexivity.
  - discriminate.
Defined.

End StabilizerClaims.
(* ================================================================== *)
(** * [realtime_working.py]: the whole processing loop *)
(* ================================================================== *)

Section ProcessingLoop.

Import Py RealtimeWorking.
Local Open Scope Z_scope.

Lemma emissions_app (e1 e2 : list event) :
  emissions (e1 ++ e2) = emissions e1 ++ emissions e2.
Proof. apply filter_app. Qed.

Lemma process_item_emissions (self : WorkingRealTimeSystem) (st : locals)
      (item : option bytes) (e : event) :
  In e (emissions (snd (process_item self st item))) ->
  exists t,
    2 < len t
    /\ (e = PrintTranscript (current_language self) t
        \/ e = Say (lit "I heard: " ++ t)).
Proof.
  unfold process_item.
  destruct item as [audio_chunk | ]; [ | simpl; tauto].
  destruct (buffer_size self <=? _); [ | simpl; tauto].
  destruct (vosk_recognizer self) as [r | ]; [ | simpl; tauto].
  pose proof (transcribe_window_eq (Vosk.model r)
                (audio_buffer st ++ audio_chunk)) as [_ Hnone].
  destruct (transcribe_window _ _) as [t ev1].
  pose proof (@emit_transcription_long self (last_transcription st) t e)
    as Hlong.
  destruct (emit_transcription _ _ _) as [last ev2].
  cbn [snd] in *.
  change (PrintProcessing (processing_count st + 1) :: ev1 ++ ev2)
    with ([PrintProcessing (processing_count st + 1)] ++ ev1 ++ ev2).
  rewrite !emissions_app, Hnone. simpl.
  intro Hin. exists t. auto.
Qed.

(** Whatever the queue delivers, every transcript printed or spoken by
    [_process_audio_queue] has more than two characters. *)
Lemma process_items_emissions (self : WorkingRealTimeSystem)
      (got : list (option bytes)) :
  forall st e,
    In e (emissions (snd (process_items self st got))) ->
    exists t,
      2 < len t
      /\ (e = PrintTranscript (current_language self) t
          \/ e = Say (lit "I heard: " ++ t)).
Proof.
  induction got as [ | item rest IH]; intros st e; [simpl; tauto | ].
  cbn [process_items].
  pose proof (@process_item_emissions self st item e) as H1.
  destruct (process_item self st item) as [st1 ev1].
  specialize (IH st1 e).
  destruct (process_items self st1 rest) as [st2 ev2].
  cbn [snd] in *. rewrite emissions_app, in_app_iff.
  intros [Hin | Hin]; auto.
Qed.

(** Two windows in a row with the same transcription: the second one
    emits nothing. *)
Lemma process_item_same_transcription_again
      (self : WorkingRealTimeSystem) (st : locals) (audio_chunk : bytes)
      (r : Vosk.KaldiRecognizer) :
  vosk_recognizer self = Some r ->
  buffer_size self <= Z.of_nat (List.length (audio_buffer st ++ audio_chunk)) ->
  fst (transcribe_window (Vosk.model r) (audio_buffer st ++ audio_chunk))
  = last_transcription st ->
  emissions (snd (process_item self st (Some audio_chunk))) = []
  /\ last_transcription (fst (process_item self st (Some audio_chunk)))
     = last_transcription st.
Proof.
  intros Hr Hfull Hsame. unfold process_item.
  apply Z.leb_le in Hfull. rewrite Hfull, Hr.
  pose proof (transcribe_window_eq (Vosk.model r)
                (audio_buffer st ++ audio_chunk)) as [_ Hnone].
  destruct (transcribe_window _ _) as [t ev1]. cbn [fst snd] in *.
  rewrite (@emit_transcription_skips self (last_transcription st) t
             (or_intror Hsame)).
  cbn [snd fst last_transcription].
  change (PrintProcessing (processing_count st + 1) :: ev1 ++ [PrintNoSpeech])
    with ([PrintProcessing (processing_count st + 1)] ++ ev1 ++ [PrintNoSpeech]).
  rewrite !emissions_app, Hnone. split; reflexivity.
Qed.

End ProcessingLoop.

(* ================================================================== *)
(** * [str.strip] *)
(* ================================================================== *)

Section Strip.

Import Py.

Lemma lstrip_fixed (s : str) : no_leading_space s -> lstrip s = s.
Proof. destruct s as [ | c t]; simpl; [auto | intros ->; reflexivity]. Qed.

Lemma lstrip_split (s : str) :
  exists ws, s = ws ++ lstrip s
             /\ Forall (fun c => isspace c = true) ws
             /\ no_leading_space (lstrip s).
Proof.
  induction s as [ | c t (ws & Heq & Hws & Hno)].
  - exists []. simpl. auto.
  - simpl. destruct (isspace c) eqn:Hc.
    + exists (c :: ws). simpl. rewrite <- Heq. auto.
    + exists []. simpl. auto.
Qed.

Lemma lstrip_spaces (ws : str) :
  Forall (fun c => isspace c = true) ws -> lstrip ws = [].
Proof. induction 1 as [ | c t Hc _ IH]; simpl; [ | rewrite Hc]; auto. Qed.

Lemma lstrip_app_spaces (ws s : str) :
  Forall (fun c => isspace c = true) ws -> lstrip (ws ++ s) = lstrip s.
Proof. induction 1 as [ | c t Hc _ IH]; simpl; [ | rewrite Hc]; auto. Qed.

(** [rstrip] keeps a prefix and leaves the start of the text alone. *)
Lemma rstrip_split (s : str) :
  exists ws, s = rstrip s ++ ws
             /\ Forall (fun c => isspace c = true) ws
             /\ no_leading_space (rev (rstrip s)).
Proof.
  unfold rstrip. destruct (lstrip_split (rev s)) as (ws & Heq & Hws & Hno).
  exists (rev ws). rewrite rev_involutive. repeat split; auto.
  - rewrite <- rev_app_distr, <- Heq, rev_involutive. reflexivity.
  - apply Forall_rev. exact Hws.
Qed.

Lemma rstrip_keeps_start (s : str) :
  no_leading_space s -> no_leading_space (rstrip s).
Proof.
  intro Hs. destruct (rstrip_split s) as (ws & Heq & Hws & _).
  destruct (rstrip s) as [ | c t] eqn:Hr; [exact I | ].
  rewrite Heq in Hs. exact Hs.
Qed.

Lemma rstrip_fixed (s : str) :
  no_leading_space (rev s) -> rstrip s = s.
Proof.
  intro Hs. unfold rstrip. rewrite (lstrip_fixed _ Hs). apply rev_involutive.
Qed.

(** A stripped text neither starts nor ends with white space. *)
Lemma strip_ends (s : str) :
  no_leading_space (strip s) /\ no_leading_space (rev (strip s)).
Proof.
  unfold strip. destruct (lstrip_split s) as (_ & _ & _ & Hno).
  split.
  - apply rstrip_keeps_start, Hno.
  - destruct (rstrip_split (lstrip s)) as (_ & _ & _ & Hr). exact Hr.
Qed.

Lemma strip_fixed (s : str) :
  no_leading_space s -> no_leading_space (rev s) -> strip s = s.
Proof.
  intros H1 H2. unfold strip. rewrite (lstrip_fixed _ H1).
  apply rstrip_fixed, H2.
Qed.

Lemma strip_idempotent (s : str) : strip (strip s) = strip s.
Proof. destruct (strip_ends s) as [H1 H2]. apply strip_fixed; assumption. Qed.

(** A text that starts with a character which is not white space is not
    blank, whatever follows. *)
Lemma strip_nonblank (c : char) (s : str) :
  isspace c = false -> truthy (strip (c :: s)) = true.
Proof.
  intro Hc. unfold strip.
  rewrite (@lstrip_fixed (c :: s) Hc).
  destruct (rstrip_split (c :: s)) as (ws & Heq & Hws & _).
  destruct (rstrip (c :: s)) as [ | c' t]; [ | reflexivity].
  simpl in Heq. subst ws. inversion Hws; congruence.
Qed.

End Strip.

(* ================================================================== *)
(** * [audio_handler.py], [speech_recognizer.py]: more on the leaves *)
(* ================================================================== *)

Section Leaves.

Import Py.

(** [np.frombuffer] succeeds exactly on the buffers of even length, with
    one sample for two bytes. *)
Lemma frombuffer_int16_spec (audio_bytes : list byte) :
  if Nat.even (List.length audio_bytes)
  then exists a, AudioHandler.frombuffer_int16 audio_bytes = Return a
                 /\ List.length audio_bytes = 2 * List.length a
  else exists e, AudioHandler.frombuffer_int16 audio_bytes = Raise e.
Proof.
  induction audio_bytes as [ | b | lo hi rest IH] using bytes_pair_ind.
  - simpl. exists []. auto.
  - simpl. eauto.
  - cbn [List.length]. change (Nat.even (S (S (List.length rest))))
      with (Nat.even (List.length rest)).
    cbn [AudioHandler.frombuffer_int16].
    destruct (Nat.even (List.length rest)).
    + destruct IH as (a & -> & Hlen). simpl. eexists. split; [reflexivity | ].
      simpl. lia.
    + destruct IH as (e & ->). simpl. eauto.
Qed.

(** X3. [bytes_to_tensor] gives one sample for every two bytes of a
    buffer of even length, and the empty tensor for a buffer of odd
    length. *)
Theorem bytes_to_tensor_length (audio_bytes : list byte) :
  exists t,
    AudioHandler.bytes_to_tensor audio_bytes = Return t
    /\ List.length t = if Nat.even (List.length audio_bytes)
                       then List.length audio_bytes / 2 else 0.
Proof.
  unfold AudioHandler.bytes_to_tensor.
  pose proof (frombuffer_int16_spec audio_bytes) as H.
  destruct (Nat.even (List.length audio_bytes)).
  - destruct H as (a & -> & Hlen). cbn [bind try_except].
    eexists. split; [reflexivity | ].
    rewrite length_map, Hlen.
    replace (2 * List.length a) with (List.length a * 2) by lia.
    rewrite Nat.div_mul by lia. reflexivity.
  - destruct H as (e & ->). simpl. eauto.
Qed.

Lemma byte_of_Z_val (b : byte) (z : Z) :
  (z mod 256 = AudioHandler.byte_val b)%Z -> AudioHandler.byte_of_Z z = b.
Proof.
  intro Hz. unfold AudioHandler.byte_of_Z. rewrite Hz.
  unfold AudioHandler.byte_val. rewrite N2Z.id, Byte.of_to_N. reflexivity.
Qed.

Lemma bytes_of_int16_of_bytes (lo hi : byte) :
  AudioHandler.byte_of_Z (AudioHandler.int16_of_bytes lo hi) = lo
  /\ AudioHandler.byte_of_Z (AudioHandler.int16_of_bytes lo hi / 256) = hi.
Proof.
  pose proof (byte_val_bounds lo) as Hlo.
  pose proof (byte_val_bounds hi) as Hhi.
  unfold AudioHandler.int16_of_bytes. cbv zeta.
  split; apply byte_of_Z_val;
    destruct (AudioHandler.byte_val lo + 256 * AudioHandler.byte_val hi <? 32768)%Z;
    Z.div_mod_to_equations; lia.
Qed.

Lemma tobytes_frombuffer (audio_bytes : list byte) :
  forall a, AudioHandler.frombuffer_int16 audio_bytes = Return a ->
            AudioHandler.tobytes_int16 a = audio_bytes.
Proof.
  induction audio_bytes as [ | b | lo hi rest IH] using bytes_pair_ind;
    intros a Ha.
  - inversion Ha. reflexivity.
  - discriminate Ha.
  - simpl in Ha.
    destruct (AudioHandler.frombuffer_int16 rest) as [a' | e];
      simpl in Ha; [ | discriminate].
    inversion Ha; subst a. cbn [AudioHandler.tobytes_int16].
    destruct (bytes_of_int16_of_bytes lo hi) as [-> ->].
    rewrite (IH a' eq_refl). reflexivity.
Qed.

(** X4. A buffer of even length survives the way through the tensor:
    [bytes_to_tensor], then the multiplication by 32768 with the cast to
    int16, then [tobytes()], give the buffer back, byte for byte. *)
Theorem bytes_tensor_bytes_round_trip (audio_bytes : list byte) :
  Nat.even (List.length audio_bytes) = true ->
  exists t samples,
    AudioHandler.bytes_to_tensor audio_bytes = Return t
    /\ AudioHandler.denormalize t = Some samples
    /\ AudioHandler.tobytes_int16 samples = audio_bytes.
Proof.
  intro Heven. unfold AudioHandler.bytes_to_tensor.
  pose proof (frombuffer_int16_spec audio_bytes) as H.
  rewrite Heven in H. destruct H as (a & Ha & _). rewrite Ha. simpl.
  exists (map AudioHandler.normalize a), a.
  split; [reflexivity | ]. split.
  - apply denormalize_normalize. apply (frombuffer_int16_range _ Ha).
  - apply tobytes_frombuffer, Ha.
Qed.

Lemma bytes_tensor_bytes_round_trip_witness :
  exists t samples,
    AudioHandler.bytes_to_tensor [x00; x80; xff; x7f; x39; x30] = Return t
    /\ AudioHandler.denormalize t = Some samples
    /\ AudioHandler.tobytes_int16 samples = [x00; x80; xff; x7f; x39; x30].
Proof.
  apply bytes_tensor_bytes_round_trip. reflexivity.
Defined.

(** X5. Every text that comes out of a recogniser wrapper is stripped:
    it neither starts nor ends with white space; and it is empty when the
    recogniser is missing or when the call raises. This holds for
    [SpeechRecognizer.transcribe_audio] and [finalize_transcription], for
    [WorkingRealTimeSystem.process_audio_data] and for
    [SimpleWorkingSystem.process_audio_chunk]. *)
Theorem recogniser_texts_are_stripped :
  (forall sr audio language,
      exists text,
        fst (SpeechRecognizer.transcribe_audio sr audio language) = Return text
        /\ strip text = text
        /\ (SpeechRecognizer.recognizer sr = None -> text = [])
        /\ (forall r, SpeechRecognizer.recognizer sr = Some r ->
                      raises (fst (Vosk.feed r audio)) = true -> text = []))
  /\ (forall sr,
         exists text,
           fst (SpeechRecognizer.finalize_transcription sr) = Return text
           /\ strip text = text
           /\ (SpeechRecognizer.recognizer sr = None -> text = [])
           /\ (forall r, SpeechRecognizer.recognizer sr = Some r ->
                         raises (fst (Vosk.finalize r)) = true -> text = []))
  /\ (forall self audio,
         let text := fst (RealtimeWorking.process_audio_data self audio) in
         strip text = text
         /\ (RealtimeWorking.vosk_recognizer self = None -> text = [])
         /\ (forall r, RealtimeWorking.vosk_recognizer self = Some r ->
                       raises (fst (Vosk.feed r audio)) = true -> text = []))
  /\ (forall self audio,
         let text := fst (fst (SimpleWorking.process_audio_chunk self audio)) in
         strip text = text
         /\ (SimpleWorking.vosk_recognizer self = None -> text = [])
         /\ (forall r, SimpleWorking.vosk_recognizer self = Some r ->
                       raises (fst (Vosk.feed r audio)) = true -> text = [])).
Proof.
  split; [ | split; [ | split]].
  - intros sr audio language. unfold SpeechRecognizer.transcribe_audio.
    destruct (SpeechRecognizer.recognizer sr) as [r | ].
    + unfold Vosk.feed. cbv zeta. cbn [fst].
      destruct (Vosk.accept_waveform (Vosk.model r) _) as [[t | p] | e] eqn:Ha;
        simpl; eexists; (split; [reflexivity | ]);
        (split; [try apply strip_idempotent; reflexivity | ]);
        (split; [discriminate | ]);
        intros r' Hr Hraise; inversion Hr; subst r';
        rewrite Ha in Hraise; (discriminate Hraise || reflexivity).
    + simpl. exists []. repeat split; auto; discriminate.
  - intros sr. unfold SpeechRecognizer.finalize_transcription.
    destruct (SpeechRecognizer.recognizer sr) as [r | ].
    + unfold Vosk.finalize. cbv zeta. cbn [fst].
      destruct (Vosk.final_result (Vosk.model r) _) as [t | e] eqn:Ha;
        simpl; eexists; (split; [reflexivity | ]);
        (split; [try apply strip_idempotent; reflexivity | ]);
        (split; [discriminate | ]);
        intros r' Hr Hraise; inversion Hr; subst r';
        rewrite Ha in Hraise; (discriminate Hraise || reflexivity).
    + simpl. exists []. repeat split; auto; discriminate.
  - intros self audio. cbv zeta. unfold RealtimeWorking.process_audio_data.
    destruct (RealtimeWorking.vosk_recognizer self) as [r | ].
    + unfold Vosk.feed. cbv zeta. cbn [fst].
      destruct (Vosk.accept_waveform (Vosk.model r) _) as [[t | p] | e] eqn:Ha;
        cbn [fst];
        (split; [try apply strip_idempotent; reflexivity | ]);
        (split; [discriminate | ]);
        intros r' Hr Hraise; inversion Hr; subst r';
        rewrite Ha in Hraise; (discriminate Hraise || reflexivity).
    + simpl. repeat split; auto; discriminate.
  - intros self audio. cbv zeta. unfold SimpleWorking.process_audio_chunk.
    destruct (SimpleWorking.vosk_recognizer self) as [r | ].
    + unfold Vosk.feed. cbv zeta. cbn [fst].
      destruct (Vosk.accept_waveform (Vosk.model r) _) as [[t | p] | e] eqn:Ha;
        cbn [fst];
        (split; [try apply strip_idempotent; reflexivity | ]);
        (split; [discriminate | ]);
        intros r' Hr Hraise; inversion Hr; subst r';
        rewrite Ha in Hraise; (discriminate Hraise || reflexivity).
    + simpl. repeat split; auto; discriminate.
Qed.

End Leaves.

(* ================================================================== *)
(** * [main.py]: [process_audio_chunk], [run_realtime], [process_file] *)
(* ================================================================== *)

Section MainLoop.

Import Py Main.

Lemma transcribe_audio_stripped (sr : SpeechRecognizer.t) audio language :
  exists text sr',
    SpeechRecognizer.transcribe_audio sr audio language = (Return text, sr')
    /\ strip text = text.
Proof.
  destruct (proj1 recogniser_texts_are_stripped sr audio language)
    as (text & Hfst & Hstrip & _).
  destruct (SpeechRecognizer.transcribe_audio sr audio language) as [res sr'].
  simpl in Hfst. subst res. eauto.
Qed.

(** X1. [process_audio_chunk] never raises, whatever its collaborators
    do, and never touches the detector. When it returns [None] it has
    left the system as it was and done nothing; when it returns a text,
    the text is stripped and the window was transcribed exactly once,
    under the language that is the current one after the call. *)
Theorem process_audio_chunk_returns
        (self : LanguageSwitchSystem) (audio_bytes : bytes) :
  exists r self' evs,
    process_audio_chunk self audio_bytes = Return (r, self', evs)
    /\ language_detector self' = language_detector self
    /\ match r with
       | None => self' = self /\ evs = []
       | Some text =>
           strip text = text
           /\ filter (fun e => negb (is_switch e)) evs
              = [Transcribe audio_bytes (current_language self')]
       end.
Proof.
  destruct (bytes_to_tensor_returns audio_bytes) as [t Ht].
  destruct (detect_language_returns (language_detector self) t)
    as (l & c & Hd).
  destruct t as [ | x t'].
  - exists None, self, []. unfold process_audio_chunk. rewrite Ht. simpl. auto.
  - destruct (LanguageDetector.is_confidence_high (language_detector self) c)
      eqn:Hc.
    + unfold process_audio_chunk. rewrite Ht. cbn [bind numel List.length].
      replace (Z.of_nat (S (List.length t')) =? 0)%Z with false
        by (symmetry; apply Z.eqb_neq; lia).
      rewrite Hd. cbn [bind]. rewrite Hc.
      destruct (String.eqb l (current_language self)) eqn:He; cbn [negb].
      * destruct (transcribe_audio_stripped (speech_recognizer self)
                    audio_bytes l) as (text & sr & Htx & Hs).
        rewrite Htx. cbn [bind]. do 3 eexists. split; [reflexivity | ].
        apply String.eqb_eq in He. subst l. simpl. auto.
      * destruct (transcribe_audio_stripped
                    (speech_recognizer (set_current_language self l))
                    audio_bytes l) as (text & sr & Htx & Hs).
        rewrite Htx. cbn [bind]. do 3 eexists. split; [reflexivity | ].
        simpl. auto.
    + exists None, self, [].
      rewrite (process_audio_chunk_low self audio_bytes Ht Hd Hc). auto.
Qed.

(** X2. An empty buffer and a buffer of odd length are dropped before
    the detector is asked: [process_audio_chunk] returns [None] and
    leaves the system as it was, whatever the detector would have said. *)
Theorem process_audio_chunk_drops_malformed_buffer
        (self : LanguageSwitchSystem) (audio_bytes : bytes) :
  audio_bytes = [] \/ Nat.even (List.length audio_bytes) = false ->
  process_audio_chunk self audio_bytes = Return (None, self, []).
Proof.
  intro Hbad.
  destruct (bytes_to_tensor_length audio_bytes) as (t & Ht & Hlen).
  assert (Hnil : t = []).
  { destruct Hbad as [-> | Hodd].
    - simpl in Hlen. destruct t; [reflexivity | discriminate].
    - rewrite Hodd in Hlen. destruct t; [reflexivity | discriminate]. }
  subst t. unfold process_audio_chunk. rewrite Ht. reflexivity.
Qed.

Lemma process_audio_chunk_drops_malformed_buffer_witness :
  let self := Examples.system Float.f0_8
                (Some (Examples.const_classifier "es" Float.f0_9)) "en" in
  process_audio_chunk self [x00; x01; x02] = Return (None, self, []).
Proof.
  intro self.
  apply (@process_audio_chunk_drops_malformed_buffer self [x00; x01; x02]).
  right. reflexivity.
Defined.

Local Open Scope Z_scope.

Lemma realtime_turns_spec (chunk_size : Z) (read : list (option bytes)) :
  forall self audio_buffer,
    exists self' buffer evs,
      realtime_turns chunk_size self audio_buffer read
      = Return (self', buffer, evs)
      /\ language_detector self' = language_detector self
      /\ List.concat (processed evs) ++ buffer
         = audio_buffer ++ List.concat (chunks_read read)
      /\ Forall (fun w => chunk_size * 4 <= Z.of_nat (List.length w))
                (processed evs)
      /\ (Z.of_nat (List.length audio_buffer) < chunk_size * 4 ->
          Z.of_nat (List.length buffer) < chunk_size * 4)
      /\ (List.length (processed evs) <= List.length (chunks_read read))%nat.
Proof.
  induction read as [ | chunk rest IH]; intros self audio_buffer.
  - exists self, audio_buffer, []. simpl. rewrite app_nil_r.
    repeat split; auto.
  - cbn [realtime_turns]. unfold realtime_turn.
    destruct chunk as [chunk | ].
    + destruct (Z.leb_spec (chunk_size * 4)
                  (Z.of_nat (List.length (audio_buffer ++ chunk))))
        as [Hfull | Hnot].
      * destruct (process_audio_chunk_returns self (audio_buffer ++ chunk))
          as (r & self1 & ev & Hp & Hdet & _).
        rewrite Hp. cbn [bind].
        destruct (IH self1 []) as (self2 & b2 & ev2 & Hrun & Hd2 & Hcat & Hall
                                   & Hlt & Hcount).
        rewrite Hrun. cbn [bind].
        do 3 eexists. split; [reflexivity | ].
        assert (Hp0 : forall printed : list loop_event,
                   (printed = [] \/ exists la t, printed = [PrintTranscription la t]) ->
                   processed ((ProcessAudioChunk (audio_buffer ++ chunk) ev
                               :: printed) ++ ev2)
                   = (audio_buffer ++ chunk) :: processed ev2).
        { intros printed [-> | (la & t & ->)]; reflexivity. }
        rewrite Hp0.
        2:{ destruct r as [t | ]; [ | auto].
            destruct (truthy t && truthy (strip t))%bool; eauto. }
        cbn [List.concat chunks_read List.length].
        repeat split.
        -- congruence.
        -- rewrite <- !app_assoc. rewrite Hcat. reflexivity.
        -- constructor; assumption.
        -- intros Hin. apply Hlt. simpl. lia.
        -- lia.
      * cbn [bind].
        destruct (IH self (audio_buffer ++ chunk))
          as (self2 & b2 & ev2 & Hrun & Hd2 & Hcat & Hall & Hlt & Hcount).
        rewrite Hrun. cbn [bind app chunks_read List.concat List.length].
        do 3 eexists. split; [reflexivity | ].
        repeat split; auto.
        rewrite Hcat, <- app_assoc. reflexivity.
    + cbn [bind].
      destruct (IH self audio_buffer)
        as (self2 & b2 & ev2 & Hrun & Hd2 & Hcat & Hall & Hlt & Hcount).
      rewrite Hrun. cbn [bind app chunks_read].
      do 3 eexists. split; [reflexivity | ]. repeat split; auto.
Qed.

(** X6. The loop of [run_realtime] never raises and loses no audio: the
    buffers handed to [process_audio_chunk], put end to end and followed
    by the buffer still pending, are exactly the chunks read, in order;
    every buffer handed over holds at least [4 * chunk_size] bytes, at
    most one is handed over per chunk read, and with a positive
    [chunk_size] fewer than [4 * chunk_size] bytes stay pending. *)
Theorem run_realtime_loses_no_audio
        (chunk_size : Z) (self : LanguageSwitchSystem)
        (read : list (option bytes)) :
  exists self' buffer evs,
    run_realtime chunk_size self read = Return (self', buffer, evs)
    /\ List.concat (processed evs) ++ buffer = List.concat (chunks_read read)
    /\ Forall (fun w => chunk_size * 4 <= Z.of_nat (List.length w))
              (processed evs)
    /\ (List.length (processed evs) <= List.length (chunks_read read))%nat
    /\ (0 < chunk_size -> Z.of_nat (List.length buffer) < chunk_size * 4).
Proof.
  destruct (realtime_turns_spec chunk_size read self [])
    as (self' & buffer & evs & Hrun & _ & Hcat & Hall & Hlt & Hcount).
  exists self', buffer, evs. repeat split; auto.
  intro Hpos. apply Hlt. simpl. lia.
Qed.

End MainLoop.

(* ================================================================== *)
(** * [realtime_working.py]: the sub-chunks and the loop as a whole *)
(* ================================================================== *)

Section SubChunks.

Import Py RealtimeWorking.

Lemma chunks_upto_sizes (fuel : nat) :
  forall buf,
    List.length buf <= fuel ->
    Forall (fun c => 0 < List.length c <= chunk_size) (chunks_upto fuel buf)
    /\ Forall (fun c => List.length c = chunk_size)
              (removelast (chunks_upto fuel buf))
    /\ List.length (chunks_upto fuel buf)
       = (List.length buf + chunk_size - 1) / chunk_size.
Proof.
  pose proof chunk_size_pos as Hpos.
  induction fuel as [ | fuel IH]; intros buf Hlen.
  - destruct buf; [ | simpl in Hlen; lia]. simpl.
    repeat split; try constructor;
      try (symmetry; apply Nat.div_small; lia).
  - destruct buf as [ | b bs].
    + simpl. repeat split; try constructor;
        try (symmetry; apply Nat.div_small; lia).
    + cbn [chunks_upto].
      destruct (IH (skipn chunk_size (b :: bs))) as (Hall & Hfull & Hcount).
      { rewrite length_skipn. cbn [List.length] in *. lia. }
      assert (Hfirst : List.length (firstn chunk_size (b :: bs))
                       = Nat.min chunk_size (List.length (b :: bs)))
        by apply length_firstn.
      split; [ | split].
      * constructor; [ | exact Hall]. rewrite Hfirst. cbn [List.length]. lia.
      * destruct (chunks_upto fuel (skipn chunk_size (b :: bs)))
          as [ | c cs] eqn:Hrest.
        -- simpl. constructor.
        -- change (removelast (firstn chunk_size (b :: bs) :: c :: cs))
             with (firstn chunk_size (b :: bs) :: removelast (c :: cs)).
           constructor; [ | exact Hfull].
           rewrite Hfirst. apply Nat.min_l.
           destruct (Nat.le_gt_cases chunk_size (List.length (b :: bs)))
             as [Hle | Hgt]; [exact Hle | ].
           rewrite skipn_all2 in Hrest by lia.
           destruct fuel; discriminate Hrest.
      * rewrite length_skipn in Hcount.
        remember (List.length (b :: bs)) as n eqn:Hn.
        assert (Hn1 : 1 <= n) by (subst n; simpl; lia).
        cbn [List.length]. rewrite Hcount.
        destruct (Nat.le_gt_cases n chunk_size) as [Hle | Hgt].
        -- replace (n - chunk_size + chunk_size - 1) with (chunk_size - 1) by lia.
           rewrite (Nat.div_small (chunk_size - 1)) by lia.
           replace (n + chunk_size - 1) with ((n - 1) + 1 * chunk_size) by lia.
           rewrite Nat.div_add by lia.
           rewrite (Nat.div_small (n - 1)) by lia. reflexivity.
        -- replace (n + chunk_size - 1)
             with ((n - chunk_size + chunk_size - 1) + 1 * chunk_size) by lia.
           rewrite Nat.div_add by lia. lia.
Qed.

(** X7. The sub-chunks fed to the recogniser cut the window without
    loss: put end to end they are the window; none is empty, all but the
    last hold exactly 4000 bytes and the last at most 4000; a window of
    [n] bytes gives [ceil(n / 4000)] of them. *)
Theorem chunks_cut_the_window (audio_buffer : bytes) :
  List.concat (chunks audio_buffer) = audio_buffer
  /\ Forall (fun c => 0 < List.length c <= 4000) (chunks audio_buffer)
  /\ Forall (fun c => List.length c = 4000) (removelast (chunks audio_buffer))
  /\ List.length (chunks audio_buffer)
     = (List.length audio_buffer + 3999) / 4000.
Proof.
  destruct (chunks_spec audio_buffer) as [Hcat _].
  destruct (@chunks_upto_sizes (List.length audio_buffer) audio_buffer
              (Nat.le_refl _)) as (Hall & Hfull & Hcount).
  fold (chunks audio_buffer) in Hall, Hfull, Hcount.
  change chunk_size with 4000 in Hall, Hfull, Hcount.
  repeat split; auto.
  rewrite Hcount. f_equal. lia.
Qed.

End SubChunks.

Section WholeLoop.

Import Py RealtimeWorking.
Local Open Scope Z_scope.

Lemma transcripts_app (e1 e2 : list event) :
  transcripts (e1 ++ e2) = transcripts e1 ++ transcripts e2.
Proof.
  induction e1 as [ | e rest IH]; [reflexivity | ].
  destruct e; simpl; rewrite ?IH; reflexivity.
Qed.

Lemma said_app (e1 e2 : list event) :
  said (e1 ++ e2) = said e1 ++ said e2.
Proof.
  induction e1 as [ | e rest IH]; [reflexivity | ].
  destruct e; simpl; rewrite ?IH; reflexivity.
Qed.

Lemma processing_numbers_app (e1 e2 : list event) :
  processing_numbers (e1 ++ e2)
  = processing_numbers e1 ++ processing_numbers e2.
Proof.
  induction e1 as [ | e rest IH]; [reflexivity | ].
  destruct e; simpl; rewrite ?IH; reflexivity.
Qed.

Lemma no_emission_no_transcript (evs : list event) :
  emissions evs = [] -> transcripts evs = [] /\ said evs = [].
Proof.
  induction evs as [ | e rest IH]; [auto | ].
  destruct e; simpl; intro H; try discriminate; auto.
Qed.

(** What the recognition of a window adds to the trace: error messages
    only. *)
Lemma transcribe_window_quiet (m : Vosk.Model) (buf : bytes) :
  transcripts (snd (transcribe_window m buf)) = []
  /\ said (snd (transcribe_window m buf)) = []
  /\ processing_numbers (snd (transcribe_window m buf)) = [].
Proof.
  destruct (transcribe_window_eq m buf) as [_ Hnone].
  destruct (no_emission_no_transcript _ Hnone) as [Ht Hs].
  repeat split; auto.
  unfold transcribe_window.
  pose proof (accept_chunks_fold (proj2 (chunks_spec buf)) (Vosk.new m) [])
    as Hfold.
  clear Hnone Ht Hs.
  assert (Hgen : forall cs r t,
             processing_numbers (snd (accept_chunks r t cs)) = []).
  { induction cs as [ | c rest IH]; intros r t; [reflexivity | ].
    cbn [accept_chunks]. unfold accept_chunk.
    destruct (0 <? Z.of_nat (List.length c)).
    - destruct (Vosk.feed r c) as [[[x | p] | e] r'];
        specialize (IH r');
        match goal with
        | |- context [accept_chunks r' ?t' rest] =>
            specialize (IH t'); destruct (accept_chunks r' t' rest) as [[a b] ev]
        end; simpl in *; exact IH.
    - specialize (IH r t). destruct (accept_chunks r t rest) as [[a b] ev].
      simpl in *. exact IH. }
  specialize (Hgen (chunks buf) (Vosk.new m) []).
  destruct (accept_chunks (Vosk.new m) [] (chunks buf)) as [[r t] ev1].
  unfold final_result.
  destruct (fst (Vosk.finalize r)); cbn [snd] in *;
    rewrite processing_numbers_app, Hgen; reflexivity.
Qed.

Lemma speak_text_said (self : WorkingRealTimeSystem) (t : str) :
  transcripts (speak_text self (lit "I heard: " ++ t)) = []
  /\ processing_numbers (speak_text self (lit "I heard: " ++ t)) = []
  /\ said (speak_text self (lit "I heard: " ++ t))
     = match tts_engine self with
       | Some _ => [lit "I heard: " ++ t]
       | None => []
       end.
Proof.
  unfold speak_text.
  destruct (tts_engine self) as [engine | ]; [ | simpl; auto].
  assert (Hnb : truthy (strip (lit "I heard: " ++ t)) = true)
    by exact (@strip_nonblank 73%N (lit " heard: " ++ t) eq_refl).
  rewrite Hnb.
  cbn [negb].
  destruct (engine _); simpl; auto.
Qed.

(** One turn of the loop, seen through its trace. *)
Lemma process_item_trace (self : WorkingRealTimeSystem) (st : locals)
      (item : option bytes) :
  let '(st', evs) := process_item self st item in
  (transcripts evs = [] /\ last_transcription st' = last_transcription st
   \/ exists t, transcripts evs = [t]
                /\ t <> last_transcription st
                /\ 2 < len t
                /\ last_transcription st' = t
                /\ vosk_recognizer self <> None)
  /\ said evs = match tts_engine self with
                | Some _ => map (fun t => lit "I heard: " ++ t) (transcripts evs)
                | None => []
                end
  /\ (processing_numbers evs = [] /\ processing_count st' = processing_count st
      /\ audio_buffer st' = audio_buffer st ++ match item with
                                               | Some c => c
                                               | None => []
                                               end
      /\ (item = None
          \/ Z.of_nat (List.length (audio_buffer st')) < buffer_size self)
      \/ processing_numbers evs = [processing_count st + 1]
         /\ processing_count st' = processing_count st + 1
         /\ audio_buffer st' = []
         /\ item <> None).
Proof.
  unfold process_item.
  destruct item as [audio_chunk | ].
  2:{ rewrite app_nil_r. destruct (tts_engine self); simpl; auto 10. }
  destruct (Z.leb_spec (buffer_size self)
              (Z.of_nat (List.length (audio_buffer st ++ audio_chunk))))
    as [Hfull | Hnot].
  2:{ destruct (tts_engine self); simpl; auto 10. }
  destruct (vosk_recognizer self) as [r | ] eqn:Hr.
  2:{ destruct (tts_engine self); simpl; split; auto; split; auto;
        right; repeat split; auto; discriminate. }
  destruct (transcribe_window_quiet (Vosk.model r) (audio_buffer st ++ audio_chunk))
    as (Hq1 & Hq2 & Hq3).
  destruct (transcribe_window (Vosk.model r) (audio_buffer st ++ audio_chunk))
    as [t ev1]. cbn [snd] in Hq1, Hq2, Hq3.
  destruct (Z_lt_le_dec 2 (len t)) as [Hlong | Hshort].
  - destruct (list_eq_dec N.eq_dec t (last_transcription st)) as [Heq | Hneq].
    + rewrite (@emit_transcription_skips self (last_transcription st) t
                 (or_intror Heq)).
      cbn [transcripts said processing_numbers last_transcription
           processing_count audio_buffer].
      rewrite transcripts_app, said_app, processing_numbers_app, Hq1, Hq2, Hq3.
      destruct (tts_engine self); simpl; split; auto; split; auto;
        right; repeat split; auto; discriminate.
    + rewrite (@emit_transcription_emits self (last_transcription st) t
                 Hlong Hneq).
      destruct (speak_text_said self t) as (Hs1 & Hs2 & Hs3).
      cbn [transcripts said processing_numbers last_transcription
           processing_count audio_buffer].
      rewrite transcripts_app, said_app, processing_numbers_app, Hq1, Hq2, Hq3.
      cbn [app transcripts said processing_numbers].
      rewrite Hs1, Hs2, Hs3.
      split; [right; exists t; repeat split; auto; discriminate | ].
      split; [destruct (tts_engine self); reflexivity | ].
      right; repeat split; auto; discriminate.
  - rewrite (@emit_transcription_skips self (last_transcription st) t
               (or_introl Hshort)).
    cbn [transcripts said processing_numbers last_transcription
         processing_count audio_buffer].
    rewrite transcripts_app, said_app, processing_numbers_app, Hq1, Hq2, Hq3.
    destruct (tts_engine self); simpl; split; auto; split; auto;
      right; repeat split; auto; discriminate.
Qed.

End WholeLoop.

Section WholeLoopClaims.

Import Py RealtimeWorking.
Local Open Scope Z_scope.

Lemma quiet_trace (evs : list event) :
  transcripts evs = [] -> said evs = [] -> emissions evs = [].
Proof.
  induction evs as [ | e rest IH]; [reflexivity | ].
  destruct e; simpl; intros Ht Hs; try discriminate; auto.
Qed.

Lemma last_cons_default (A : Type) (l : list A) :
  forall a d d', last (a :: l) d = last (a :: l) d'.
Proof.
  induction l as [ | b l IH]; intros a d d'; [reflexivity | ].
  change (last (b :: l) d = last (b :: l) d'). apply IH.
Qed.

Lemma process_items_trace (self : WorkingRealTimeSystem)
      (got : list (option bytes)) :
  forall st,
    let '(st', evs) := process_items self st got in
    no_repeat (last_transcription st :: transcripts evs)
    /\ last_transcription st' = last (transcripts evs) (last_transcription st)
    /\ Forall (fun t => 2 < len t) (transcripts evs)
    /\ said evs = match tts_engine self with
                  | Some _ => map (fun t => lit "I heard: " ++ t) (transcripts evs)
                  | None => []
                  end
    /\ (exists n : nat,
           processing_numbers evs
           = map (fun i => processing_count st + Z.of_nat i) (seq 1 n)
           /\ processing_count st' = processing_count st + Z.of_nat n
           /\ (n <= List.length got)%nat)
    /\ (Z.of_nat (List.length (audio_buffer st)) < buffer_size self ->
        Z.of_nat (List.length (audio_buffer st')) < buffer_size self)
    /\ (vosk_recognizer self = None -> transcripts evs = []).
Proof.
  induction got as [ | item rest IH]; intro st.
  - simpl. repeat split; auto.
    + destruct (tts_engine self); reflexivity.
    + exists O. simpl. repeat split; auto. lia.
  - cbn [process_items].
    pose proof (process_item_trace self st item) as H1.
    destruct (process_item self st item) as [st1 ev1].
    specialize (IH st1).
    destruct (process_items self st1 rest) as [st2 ev2].
    destruct H1 as (Ht1 & Hs1 & Hn1).
    destruct IH as (Hnr & Hlast & Hlong & Hs2 & (n2 & Hnum2 & Hc2 & Hle2)
                    & Hbuf & Hnone).
    rewrite transcripts_app, said_app, processing_numbers_app.
    split; [ | split; [ | split; [ | split; [ | split; [ | split]]]]].
    + destruct Ht1 as [[-> Hl1] | (t & -> & Hneq & _ & Hl1 & _)].
      * rewrite Hl1 in Hnr. exact Hnr.
      * rewrite Hl1 in Hnr. cbn [app no_repeat]. split; [congruence | exact Hnr].
    + destruct Ht1 as [[-> Hl1] | (t & -> & Hneq & _ & Hl1 & _)].
      * rewrite Hlast, Hl1. reflexivity.
      * rewrite Hlast, Hl1. cbn [app].
        destruct (transcripts ev2) as [ | t2 ts2]; [reflexivity | ].
        change (last (t2 :: ts2) t = last (t2 :: ts2) (last_transcription st)).
        apply last_cons_default.
    + destruct Ht1 as [[-> Hl1] | (t & -> & Hneq & Hlen & Hl1 & _)].
      * exact Hlong.
      * constructor; assumption.
    + rewrite Hs1, Hs2. destruct (tts_engine self); [ | reflexivity].
      rewrite map_app. reflexivity.
    + destruct Hn1 as [(-> & Hc1 & _) | (-> & Hc1 & _)].
      * exists n2. rewrite Hnum2, Hc2, Hc1. cbn [app List.length].
        repeat split; auto.
      * exists (S n2). rewrite Hnum2, Hc2, Hc1. cbn [app List.length].
        repeat split; [ | lia | lia].
        change (seq 1 (S n2)) with (1%nat :: seq 2 n2).
        rewrite <- (seq_shift n2 1). cbn [map]. rewrite map_map.
        apply f_equal2; [lia | apply map_ext; intro i; lia].
    + intro Hin. apply Hbuf.
      destruct Hn1 as [(_ & _ & Hb1 & Hlt) | (_ & _ & Hb1 & _)].
      * destruct Hlt as [-> | Hlt]; [ | exact Hlt].
        rewrite Hb1, app_nil_r. exact Hin.
      * rewrite Hb1. simpl. lia.
    + intro Hno. rewrite (Hnone Hno), app_nil_r.
      destruct Ht1 as [[-> _] | (t & _ & _ & _ & _ & Hsome)];
        [reflexivity | contradiction].
Qed.

(** X8. [_process_audio_queue] numbers the windows it processes 1, 2,
    3, ... without a gap, [processing_count] ends as their number, at
    most one window is processed per item taken from the queue, and with
    a positive sample rate fewer than [3 * sample_rate] bytes stay in
    the buffer. *)
Theorem windows_are_numbered_in_order
        (self : WorkingRealTimeSystem) (got : list (option bytes)) :
  exists n : nat,
    processing_numbers (snd (_process_audio_queue self got))
    = map Z.of_nat (seq 1 n)
    /\ processing_count (fst (_process_audio_queue self got)) = Z.of_nat n
    /\ (n <= List.length got)%nat
    /\ (0 < sample_rate self ->
        Z.of_nat (List.length
                    (audio_buffer (fst (_process_audio_queue self got))))
        < 3 * sample_rate self).
Proof.
  unfold _process_audio_queue.
  pose proof (process_items_trace self got initial) as H.
  destruct (process_items self initial got) as [st' evs].
  destruct H as (_ & _ & _ & _ & (n & Hnum & Hc & Hle) & Hbuf & _).
  exists n. cbn [fst snd].
  split; [rewrite Hnum; apply map_ext; intro i; reflexivity | ].
  split; [rewrite Hc; reflexivity | ].
  split; [exact Hle | ].
  intro Hpos. unfold buffer_size in Hbuf.
  rewrite (Z.mul_comm 3). apply Hbuf. simpl. lia.
Qed.

(** X9. [_process_audio_queue] never prints the same transcript twice
    in a row: among the transcripts printed over a whole run, no two
    neighbours are equal; each has more than two characters; and
    [last_transcription] ends as the last one printed (empty if none
    was). *)
Theorem no_transcript_is_printed_twice_in_a_row
        (self : WorkingRealTimeSystem) (got : list (option bytes)) :
  let printed := transcripts (snd (_process_audio_queue self got)) in
  no_repeat printed
  /\ Forall (fun t => 2 < len t) printed
  /\ last_transcription (fst (_process_audio_queue self got)) = last printed [].
Proof.
  unfold _process_audio_queue.
  pose proof (process_items_trace self got initial) as H.
  destruct (process_items self initial got) as [st' evs].
  destruct H as (Hnr & Hlast & Hlong & _).
  cbn [fst snd]. cbv zeta. repeat split; auto.
  simpl in Hnr. destruct (transcripts evs) as [ | t ts]; [exact I | ].
  exact (proj2 Hnr).
Qed.

(** X10. With a text-to-speech engine, [_process_audio_queue] speaks
    "I heard: " followed by the transcript for every transcript it
    prints, in the same order and nothing else, whether or not the engine
    raises; without an engine it never speaks. *)
Theorem every_printed_transcript_is_spoken
        (self : WorkingRealTimeSystem) (got : list (option bytes)) :
  said (snd (_process_audio_queue self got))
  = match tts_engine self with
    | Some _ =>
        map (fun t => lit "I heard: " ++ t)
            (transcripts (snd (_process_audio_queue self got)))
    | None => []
    end.
Proof.
  unfold _process_audio_queue.
  pose proof (process_items_trace self got initial) as H.
  destruct (process_items self initial got) as [st' evs].
  destruct H as (_ & _ & _ & Hs & _). exact Hs.
Qed.

(** Without a recogniser each full window costs two lines, its number
    and "No Vosk recognizer", and nothing else is printed. *)
Lemma no_recogniser_trace (self : WorkingRealTimeSystem)
      (got : list (option bytes)) :
  vosk_recognizer self = None ->
  forall st,
  exists n : nat,
    snd (process_items self st got)
    = flat_map (fun i => [PrintProcessing (processing_count st + Z.of_nat i);
                          PrintNoRecognizer])
               (seq 1 n)
    /\ processing_count (fst (process_items self st got))
       = processing_count st + Z.of_nat n.
Proof.
  intro Hno. induction got as [ | item rest IH]; intro st.
  - exists O. simpl. split; [reflexivity | lia].
  - cbn [process_items].
    destruct (process_item self st item) as [st1 ev1] eqn:H1.
    destruct (IH st1) as (n & Hev & Hcount).
    destruct (process_items self st1 rest) as [st2 ev2].
    cbn [fst snd] in *. unfold process_item in H1.
    destruct item as [audio_chunk | ].
    2:{ injection H1 as <- <-. exists n. auto. }
    rewrite Hno in H1.
    destruct (buffer_size self
              <=? Z.of_nat (List.length (audio_buffer st ++ audio_chunk))).
    + injection H1 as <- <-. cbn [processing_count] in *.
      exists (S n). split; [ | lia].
      change (seq 1 (S n)) with (1%nat :: seq 2 n).
      rewrite <- (seq_shift n 1). cbn [flat_map app].
      rewrite flat_map_concat_map, map_map, <- flat_map_concat_map, Hev.
      change (Z.of_nat 1) with 1. do 2 f_equal.
      apply flat_map_ext. intro i.
      replace (processing_count st + 1 + Z.of_nat i)
        with (processing_count st + Z.of_nat (S i)) by lia.
      reflexivity.
    + injection H1 as <- <-. cbn [processing_count] in *.
      exists n. auto.
Qed.

(** X11. Without a Vosk recogniser every full window is thrown away:
    over a whole run of [_process_audio_queue] nothing is printed as a
    transcript, nothing is spoken and [last_transcription] stays empty;
    all that is printed, for the windows 1 to [n] that filled the
    buffer, is the number of each followed by "No Vosk recognizer". *)
Theorem no_recogniser_no_emission
        (self : WorkingRealTimeSystem) (got : list (option bytes)) :
  vosk_recognizer self = None ->
  emissions (snd (_process_audio_queue self got)) = []
  /\ last_transcription (fst (_process_audio_queue self got)) = []
  /\ exists n : nat,
       snd (_process_audio_queue self got)
       = flat_map (fun i => [PrintProcessing (Z.of_nat i); PrintNoRecognizer])
                  (seq 1 n)
       /\ processing_count (fst (_process_audio_queue self got)) = Z.of_nat n.
Proof.
  intro Hno. unfold _process_audio_queue.
  destruct (no_recogniser_trace self got Hno initial) as (n & Hev & Hcount).
  pose proof (process_items_trace self got initial) as H.
  destruct (process_items self initial got) as [st' evs].
  destruct H as (_ & Hlast & _ & Hs & _ & _ & Hnone).
  specialize (Hnone Hno). cbn [fst snd] in *. split; [ | split].
  - apply quiet_trace; [exact Hnone | ].
    rewrite Hs, Hnone. destruct (tts_engine self); reflexivity.
  - rewrite Hlast, Hnone. reflexivity.
  - exists n. split; [exact Hev | exact Hcount].
Qed.

(** Thirteen blocks of 4000 bytes at 16000 Hz: the twelfth fills the
    window of 48000 bytes, which is counted and thrown away; the
    thirteenth waits in the buffer. *)
Lemma no_recogniser_no_emission_witness :
  let self := RealtimeWorking.set_is_recording
                (RealtimeWorking.init None (Some (fun _ => Return tt))) true in
  let got := repeat (Some (repeat x00 4000)) 13 in
  (emissions (snd (_process_audio_queue self got)) = []
   /\ last_transcription (fst (_process_audio_queue self got)) = []
   /\ exists n : nat,
        snd (_process_audio_queue self got)
        = flat_map (fun i => [PrintProcessing (Z.of_nat i); PrintNoRecognizer])
                   (seq 1 n)
        /\ processing_count (fst (_process_audio_queue self got)) = Z.of_nat n)
  /\ snd (_process_audio_queue self got)
     = [PrintProcessing 1; PrintNoRecognizer]
  /\ List.length (audio_buffer (fst (_process_audio_queue self got))) = 4000%nat.
Proof.
  intros self got. split.
  - apply (@no_recogniser_no_emission self got). reflexivity.
  - split; vm_compute; reflexivity.
Defined.

End WholeLoopClaims.

(* ================================================================== *)
(** * [approach_4_realtime_fixed.py]: the windows as slices *)
(* ================================================================== *)

Section Slices.

Import Py Approach4.

Variable self : RealTimeLanguageSwitch.

Let W := buffer_size self.
Let h := buffer_size self / 2.

Lemma half_le : h <= W.
Proof. unfold h, W. apply Nat.Div0.div_le_upper_bound. lia. Qed.

Lemma process_items_slices (got : list (option frame)) :
  forall buffer,
    exists n,
      fst (process_items self buffer got)
      = skipn (n * h) (buffer ++ stream got)
      /\ windows (snd (process_items self buffer got))
         = match callback self with
           | Some _ => map (fun i => firstn W (skipn (i * h) (buffer ++ stream got)))
                           (seq 0 n)
           | None => []
           end
      /\ n <= List.length got.
Proof.
  pose proof half_le as Hh.
  induction got as [ | item rest IH]; intro buffer.
  - exists 0. simpl. rewrite app_nil_r.
    destruct (callback self); repeat split; auto.
  - cbn [process_items stream].
    destruct (process_item self buffer item) as [b1 ev1] eqn:H1.
    destruct (IH b1) as (n & Hb & Hw & Hn).
    destruct (process_items self b1 rest) as [b2 ev2].
    cbn [fst snd] in *. rewrite windows_app.
    unfold process_item in H1.
    destruct item as [chunk | ].
    2:{ injection H1 as <- <-. exists n. simpl.
        repeat split; auto. }
    fold W in H1. fold h in H1.
    destruct (Nat.leb_spec W (List.length (buffer ++ chunk))) as [Hfull | Hnot].
    + assert (Hb1 : b1 = skipn h (buffer ++ chunk))
        by (destruct (callback self) as [cb | ];
            [destruct (cb _ _) | ]; injection H1 as <- _; reflexivity).
      assert (Hev1 : windows ev1
                     = match callback self with
                       | Some _ => [firstn W (buffer ++ chunk)]
                       | None => []
                       end)
        by (destruct (callback self) as [cb | ];
            [destruct (cb _ _) | ]; injection H1 as _ <-; reflexivity).
      clear H1.
      assert (Hskip : b1 ++ stream rest
                      = skipn h (buffer ++ chunk ++ stream rest)).
      { rewrite Hb1, app_assoc, (skipn_app h (buffer ++ chunk)).
        replace (h - List.length (buffer ++ chunk)) with 0 by lia.
        reflexivity. }
      assert (Hfirst : firstn W (buffer ++ chunk)
                       = firstn W (skipn (0 * h) (buffer ++ chunk ++ stream rest))).
      { cbn [Nat.mul skipn]. rewrite app_assoc, (firstn_app W (buffer ++ chunk)).
        replace (W - List.length (buffer ++ chunk)) with 0 by lia.
        cbn [firstn]. rewrite app_nil_r. reflexivity. }
      exists (S n). rewrite Hb, Hw, Hev1, Hskip. repeat split.
      * rewrite skipn_skipn. f_equal. lia.
      * destruct (callback self); [ | reflexivity].
        cbn [app]. change (seq 0 (S n)) with (0 :: seq 1 n).
        rewrite <- (seq_shift n 0). cbn [map]. rewrite map_map, <- Hfirst.
        f_equal. apply map_ext. intro i.
        rewrite skipn_skipn. do 2 f_equal. lia.
      * simpl. lia.
    + injection H1 as <- <-. exists n. rewrite Hb, Hw.
      rewrite <- !app_assoc. cbn [windows app List.length].
      repeat split; auto.
Qed.

End Slices.

Section SlicesClaim.

Import Py Approach4.

(** X12. The windows that [process_audio_queue] hands to its callback
    are slices of the stream of samples delivered by the queue: window
    number [i] (from 0) holds the [2 * sample_rate] samples that start at
    sample [i * sample_rate]; the samples kept in the buffer are the
    stream from sample [n * sample_rate] on, [n] the number of windows;
    at most one window is cut per item taken from the queue, and without
    a callback none is handed over. *)
Theorem windows_are_slices_of_the_stream
        (self : RealTimeLanguageSwitch) (got : list (option frame)) :
  exists n,
    windows (snd (process_audio_queue self got))
    = match callback self with
      | Some _ =>
          map (fun i => firstn (2 * sample_rate self)
                               (skipn (i * sample_rate self) (stream got)))
              (seq 0 n)
      | None => []
      end
    /\ fst (process_audio_queue self got)
       = skipn (n * sample_rate self) (stream got)
    /\ n <= List.length got.
Proof.
  destruct (process_items_slices self got []) as (n & Hb & Hw & Hn).
  assert (Hh : buffer_size self / 2 = sample_rate self)
    by (unfold buffer_size; apply Nat.div_mul; lia).
  assert (HW : buffer_size self = 2 * sample_rate self)
    by (unfold buffer_size; lia).
  rewrite Hh, HW in *. simpl app in *.
  exists n. unfold process_audio_queue. auto.
Qed.

End SlicesClaim.

(* ================================================================== *)
(** * [language_detector_simple.py] *)
(* ================================================================== *)

Section SimpleDetector.

Import Py SimpleLanguageDetector.

Lemma set_languages_spec (languages : list string) :
  forall self,
    current_language (set_languages self languages)
    = last (filter is_supported languages) (current_language self)
    /\ confidence_threshold (set_languages self languages)
       = confidence_threshold self.
Proof.
  induction languages as [ | l rest IH]; intro self; [auto | ].
  cbn [set_languages filter]. unfold set_language.
  destruct (is_supported l) eqn:Hl; cbn [fst].
  - destruct (IH {| confidence_threshold := confidence_threshold self;
                    current_language := l |}) as [Hc Ht].
    rewrite Hc, Ht. split; [ | reflexivity]. cbn [current_language].
    destruct (filter is_supported rest) as [ | a r]; [reflexivity | ].
    change (last (a :: r) l = last (a :: r) (current_language self)).
    apply last_cons_default.
  - apply IH.
Qed.

(** X13. [set_language] ignores the codes that are not keys of
    [supported_languages]: after any sequence of calls on a new detector
    the current language is the last supported code that was asked for,
    or "en" if there was none; it is always a supported language, the
    threshold is untouched, and detection without a text hint answers
    that language with confidence 0.7. *)
Theorem detector_language_is_last_supported_request
        (threshold : Float.float) (languages : list string)
        (lower : str -> str) :
  let d := set_languages (init threshold) languages in
  current_language d = last (filter is_supported languages) "en"%string
  /\ is_supported (current_language d) = true
  /\ confidence_threshold d = threshold
  /\ detect_language_simple lower d None = (current_language d, f0_7).
Proof.
  intro d. destruct (set_languages_spec languages (init threshold)) as [Hc Ht].
  fold d in Hc, Ht. simpl in Hc, Ht.
  repeat split; auto.
  rewrite Hc.
  assert (Hall : Forall (fun l => is_supported l = true)
                        (filter is_supported languages)).
  { apply Forall_forall. intros l Hin. apply filter_In in Hin. tauto. }
  clear Hc.
  induction Hall as [ | a r Ha _ IH]; [reflexivity | ].
  destruct r as [ | b r']; [exact Ha | exact IH].
Qed.

End SimpleDetector.

Section DetectFromText.

Import Py SimpleLanguageDetector TextScores.
Local Open Scope Z_scope.

Lemma order_checked : order_ok = true.
Proof. vm_compute. reflexivity. Qed.

Lemma confidence_checked : confidence_ok = true.
Proof. vm_compute. reflexivity. Qed.

Lemma patterns_checked : patterns_ok = true.
Proof. vm_compute. reflexivity. Qed.

Lemma valid_in_fractions (kn : Z * Z) : valid kn -> In kn fractions.
Proof.
  destruct kn as [k n]. unfold valid. cbn [fst snd]. intros [Hk Hn].
  unfold fractions. apply in_or_app.
  destruct Hn as [-> | ->]; [left | right];
    apply in_map_iff; exists k; (split; [reflexivity | ]); simpl;
    assert (H : k = 1 \/ k = 2 \/ k = 3 \/ k = 4 \/ k = 5 \/ k = 6 \/ k = 7
                \/ k = 8 \/ k = 9 \/ k = 10) by lia;
    intuition lia.
Qed.

Lemma lt_ratio (a b : Z * Z) :
  valid a -> valid b -> Float.lt (ratio a) (ratio b) = less a b.
Proof.
  intros Ha Hb. pose proof order_checked as H. unfold order_ok in H.
  rewrite forallb_forall in H. specialize (H a (valid_in_fractions Ha)).
  rewrite forallb_forall in H. specialize (H b (valid_in_fractions Hb)).
  apply Bool.eqb_prop in H. exact H.
Qed.

Lemma confidence_of_ratio (a : Z * Z) :
  valid a ->
  Float.ge (confidence_of (ratio a)) f0_2 = true
  /\ Float.ge f1_0 (confidence_of (ratio a)) = true
  /\ Float.ge (confidence_of (ratio a)) Float.f0_8 = (4 <=? fst a).
Proof.
  intro Ha. pose proof confidence_checked as H. unfold confidence_ok in H.
  rewrite forallb_forall in H. specialize (H a (valid_in_fractions Ha)).
  cbv zeta in H. apply andb_true_iff in H. destruct H as [H H3].
  apply andb_true_iff in H. destruct H as [H1 H2].
  apply Bool.eqb_prop in H3. auto.
Qed.

Lemma score_bounds (patterns_list : list str) (text_lower : str) :
  0 <= score patterns_list text_lower
       <= Z.of_nat (List.length patterns_list).
Proof.
  unfold score. split; [lia | ].
  apply inj_le, filter_length_le.
Qed.

(** The table of scores, read as fractions. *)
Lemma counts_of_spec (pats : list (string * list str)) (text_lower : str) :
  forallb (fun kv =>
             let n := Z.of_nat (List.length (snd kv)) in
             ((n =? 9) || (n =? 10))
             && existsb (String.eqb (fst kv)) languages) pats = true ->
  scores_of pats text_lower
  = map (fun e => (fst e, ratio (snd e))) (counts_of pats text_lower)
  /\ Forall (fun e => valid (snd e) /\ In (fst e) languages)
            (counts_of pats text_lower)
  /\ (forall k, (exists l n, In (l, (k, n)) (counts_of pats text_lower))
                <-> (0 < k /\ exists l pl, In (l, pl) pats
                                           /\ score pl text_lower = k)).
Proof.
  induction pats as [ | [lang pl] rest IH]; intro Hok.
  - simpl. split; [reflexivity | ]. split; [constructor | ].
    intro k. split; [intros (l & n & []) | intros (_ & l & pl & [] & _)].
  - cbn [forallb] in Hok. apply andb_true_iff in Hok.
    destruct Hok as [Hhead Hrest]. cbv zeta in Hhead. cbn [fst snd] in Hhead.
    apply andb_true_iff in Hhead. destruct Hhead as [Hn Hl].
    destruct (IH Hrest) as (Heq & Hall & Hex).
    assert (Hlang : In lang languages).
    { apply existsb_exists in Hl. destruct Hl as (x & Hin & Hx).
      apply String.eqb_eq in Hx. subst x. exact Hin. }
    assert (Hlen : Z.of_nat (List.length pl) = 9
                   \/ Z.of_nat (List.length pl) = 10).
    { apply orb_true_iff in Hn. destruct Hn as [H | H];
        apply Z.eqb_eq in H; auto. }
    pose proof (score_bounds pl text_lower) as Hsc.
    cbn [scores_of counts_of]. cbv zeta.
    destruct (Z.ltb_spec 0 (score pl text_lower)) as [Hpos | Hzero].
    + cbn [map fst snd]. rewrite Heq. split; [reflexivity | ]. split.
      * constructor; [ | exact Hall]. cbn [fst snd]. split; [ | exact Hlang].
        unfold valid. cbn [fst snd]. lia.
      * intro k. split.
        -- intros (l & n & [Hin | Hin]).
           ++ injection Hin as Hl' Hk' Hn'. subst l k n. split; [lia | ].
              exists lang, pl. split; [left; reflexivity | reflexivity].
           ++ destruct (proj1 (Hex k)) as (Hk & l' & pl' & Hin' & Hs');
                [eauto | ].
              split; [exact Hk | ]. exists l', pl'. split; [right | ]; auto.
        -- intros (Hk & l & pl' & [Hin | Hin] & Hs).
           ++ injection Hin as Hl' Hp'. subst l pl'.
              exists lang, (Z.of_nat (List.length pl)).
              left. rewrite Hs. reflexivity.
           ++ destruct (proj2 (Hex k)) as (l' & n' & Hin');
                [split; [exact Hk | eauto] | ].
              exists l', n'. right. exact Hin'.
    + split; [exact Heq | ]. split; [exact Hall | ].
      intro k. split.
      * intros Hin. destruct (proj1 (Hex k) Hin) as (Hk & l' & pl' & Hin' & Hs').
        split; [exact Hk | ]. exists l', pl'. split; [right | ]; auto.
      * intros (Hk & l & pl' & [Hin | Hin] & Hs).
        -- injection Hin as Hl' Hp'. subst l pl'. lia.
        -- apply (proj2 (Hex k)). split; [exact Hk | eauto].
Qed.

Lemma less_trans_le (a b c : Z * Z) :
  valid a -> valid b -> valid c ->
  less b a = false -> less a c = false -> less b c = false.
Proof.
  unfold valid, less. destruct a as [ka na], b as [kb nb], c as [kc nc].
  cbn [fst snd]. intros [Ha Hna] [Hb Hnb] [Hc Hnc] H1 H2.
  apply Z.ltb_ge in H1, H2. apply Z.ltb_ge.
  destruct Hna as [-> | ->], Hnb as [-> | ->], Hnc as [-> | ->]; lia.
Qed.

(** The float maximum is the maximum of the fractions. *)
Lemma max_by_value_fraction (rest : list (string * (Z * Z))) :
  forall best,
    valid (snd best) -> Forall (fun e => valid (snd e)) rest ->
    max_by_value (fst best, ratio (snd best))
                 (map (fun e => (fst e, ratio (snd e))) rest)
    = (fst (max_fraction best rest), ratio (snd (max_fraction best rest)))
    /\ valid (snd (max_fraction best rest))
    /\ In (max_fraction best rest) (best :: rest)
    /\ Forall (fun e => less (snd (max_fraction best rest)) (snd e) = false)
              (best :: rest).
Proof.
  induction rest as [ | item rest' IH]; intros best Hb Hall.
  - simpl. split; [reflexivity | ]. split; [exact Hb | ].
    split; [left; reflexivity | ]. constructor; [ | constructor].
    unfold less. apply Z.ltb_irrefl.
  - inversion Hall as [ | x l Hi Hr]; subst.
    cbn [map max_by_value max_fraction snd fst].
    rewrite (lt_ratio Hb Hi).
    destruct (less (snd best) (snd item)) eqn:Hless.
    + destruct (IH item Hi Hr) as (Heq & Hv & Hin & Hmax).
      rewrite Heq. split; [reflexivity | ]. split; [exact Hv | ]. split.
      * destruct Hin as [<- | Hin]; [right; left | right; right]; auto.
      * inversion Hmax as [ | x l Hm1 Hm2]; subst.
        constructor; [ | constructor; assumption].
        apply (@less_trans_le (snd item)); auto.
        unfold less in *. apply Z.ltb_ge. apply Z.ltb_lt in Hless. lia.
    + destruct (IH best Hb Hr) as (Heq & Hv & Hin & Hmax).
      rewrite Heq. split; [reflexivity | ]. split; [exact Hv | ]. split.
      * destruct Hin as [<- | Hin]; [left | right; right]; auto.
      * inversion Hmax as [ | x l Hm1 Hm2]; subst.
        constructor; [exact Hm1 | ]. constructor; [ | exact Hm2].
        apply (@less_trans_le (snd best)); auto.
Qed.

End DetectFromText.

Section DetectFromTextClaim.

Import Py SimpleLanguageDetector TextScores.
Local Open Scope Z_scope.

(** X14. Whatever the text, [_detect_from_text] answers one of the
    eight languages that have patterns, with a confidence between 0.2 and
    1.0; when no pattern occurs in the lowered text it answers "en" with
    0.5; and the confidence reaches 0.8, the default threshold, exactly
    when at least four patterns of some language occur in the text. *)
Theorem detect_from_text_confidence (lower : str -> str) (text : str) :
  let r := _detect_from_text lower text in
  In (fst r) languages
  /\ Float.ge (snd r) f0_2 = true
  /\ Float.ge f1_0 (snd r) = true
  /\ ((forall l pl, In (l, pl) patterns -> score pl (lower text) = 0) ->
      r = ("en"%string, Float.f0_5))
  /\ (Float.ge (snd r) Float.f0_8 = true
      <-> exists l pl, In (l, pl) patterns /\ 4 <= score pl (lower text)).
Proof.
  intro r. subst r. unfold _detect_from_text. cbv zeta.
  destruct (counts_of_spec patterns (lower text) patterns_checked)
    as (Heq & Hall & Hex).
  rewrite Heq.
  destruct (counts_of patterns (lower text)) as [ | first rest] eqn:Hc.
  - cbn [map fst snd].
    split; [left; reflexivity | ]. split; [reflexivity | ].
    split; [reflexivity | ]. split; [reflexivity | ].
    split; [discriminate | ].
    intros (l & pl & Hin & Hs).
    destruct (proj2 (Hex (score pl (lower text)))) as (l' & n' & []).
    split; [lia | eauto].
  - cbn [map].
    inversion Hall as [ | x l0 [Hv Hl] Hrest]; subst.
    assert (Hrest' : Forall (fun e => valid (snd e)) rest)
      by (eapply Forall_impl; [ | exact Hrest]; simpl; tauto).
    destruct (@max_by_value_fraction rest first Hv Hrest')
      as (Hmax & Hvb & Hin & Hbest).
    rewrite Hmax. cbn [fst snd].
    fold (confidence_of (ratio (snd (max_fraction first rest)))).
    destruct (confidence_of_ratio Hvb) as (Hlo & Hhi & Hthr).
    set (best := max_fraction first rest) in *.
    assert (Hbl : In (fst best) languages).
    { rewrite Forall_forall in Hall. apply (Hall best Hin). }
    split; [exact Hbl | ]. split; [exact Hlo | ]. split; [exact Hhi | ].
    split.
    + intro Hzero. exfalso.
      destruct first as [l1 [k1 n1]].
      destruct (proj1 (Hex k1)) as (Hk & l' & pl' & Hin' & Hs');
        [exists l1, n1; left; reflexivity | ].
      rewrite (Hzero _ _ Hin') in Hs'. lia.
    + rewrite Hthr. rewrite Z.leb_le. split.
      * intro H4. destruct best as [lb [kb nb]] eqn:Hb. cbn [fst snd] in *.
        destruct (proj1 (Hex kb)) as (_ & l' & pl' & Hin' & Hs');
          [exists lb, nb; exact Hin | ].
        exists l', pl'. split; [exact Hin' | lia].
      * intros (l & pl & Hinp & H4).
        destruct (proj2 (Hex (score pl (lower text)))) as (l' & n' & Hin');
          [split; [lia | eauto] | ].
        rewrite Forall_forall in Hbest. specialize (Hbest _ Hin').
        rewrite Forall_forall in Hall.
        destruct (Hall _ Hin') as [[Hk' Hn'] _].
        destruct Hvb as [Hkb Hnb].
        unfold less in Hbest. cbn [fst snd] in *. apply Z.ltb_ge in Hbest.
        destruct Hn' as [Hn' | Hn'], Hnb as [Hnb | Hnb];
          rewrite Hn', Hnb in *; lia.
Qed.

End DetectFromTextClaim.

Section DetectFromTextExample.

Import Py SimpleLanguageDetector.

(** Three of the nine English patterns occur ("the", "and", "are"): the
    answer is English, below the threshold of 0.8. *)
Example three_english_patterns :
  let r := _detect_from_text (fun s => s) (lit "the dog and the cat are here") in
  fst r = "en"%string
  /\ Float.ge (snd r) Float.f0_8 = false
  /\ Float.lt f0_6 (snd r) = true.
Proof. vm_compute. repeat split. Qed.

End DetectFromTextExample.

(* ================================================================== *)
(** * The cast to int16 on every float *)
(* ================================================================== *)

Section WrappingCast.

Import Py Float.
Local Open Scope Z_scope.

Lemma wrap_int16_range (z : Z) : AudioHandler.is_int16 (wrap_int16 z).
Proof.
  unfold AudioHandler.is_int16, wrap_int16.
  pose proof (Z.mod_pos_bound (z + 32768) 65536). lia.
Qed.

Lemma wrap_int16_id (z : Z) : AudioHandler.is_int16 z -> wrap_int16 z = z.
Proof.
  unfold AudioHandler.is_int16, wrap_int16. intro H.
  rewrite Z.mod_small by lia. lia.
Qed.

(** Where numpy specifies the cast, the machine computes that value. *)
Lemma astype_int16_wrap_agrees (x : float32) (z : Z) :
  astype_int16 x = Some z -> astype_int16_wrap x = z.
Proof.
  unfold astype_int16, astype_int16_wrap, to_int32.
  destruct (trunc x) as [y | ]; [ | discriminate].
  destruct ((-32768 <=? y) && (y <=? 32767)) eqn:Hr; [ | discriminate].
  intro H. injection H as <-.
  apply andb_true_iff in Hr. destruct Hr as [Hlo Hhi].
  apply Z.leb_le in Hlo, Hhi.
  replace ((-2147483648 <=? y) && (y <=? 2147483647)) with true
    by (symmetry; apply andb_true_iff; split; apply Z.leb_le; lia).
  apply wrap_int16_id. unfold AudioHandler.is_int16. lia.
Qed.

Lemma to_int16_denormalize (t : AudioHandler.tensor) :
  forall samples,
    AudioHandler.denormalize t = Some samples ->
    AudioHandler.to_int16 t = samples.
Proof.
  induction t as [ | x rest IH]; intros samples H.
  - injection H as <-. reflexivity.
  - cbn [AudioHandler.denormalize] in H.
    destruct (AudioHandler.denormalize1 x) as [z | ] eqn:Hx; [ | discriminate].
    destruct (AudioHandler.denormalize rest) as [zs | ]; [ | discriminate].
    injection H as <-. cbn [AudioHandler.to_int16 map].
    f_equal; [exact (astype_int16_wrap_agrees _ Hx) | exact (IH zs eq_refl)].
Qed.

(** Samples that come from int16 values are cast back to them. *)
Lemma to_int16_normalize (samples : list Z) :
  Forall AudioHandler.is_int16 samples ->
  AudioHandler.to_int16 (map AudioHandler.normalize samples) = samples.
Proof.
  intro H. apply to_int16_denormalize, denormalize_normalize, H.
Qed.

Lemma to_int16_range (t : AudioHandler.tensor) :
  Forall AudioHandler.is_int16 (AudioHandler.to_int16 t).
Proof.
  unfold AudioHandler.to_int16. apply Forall_map, Forall_forall.
  intros x _. apply wrap_int16_range.
Qed.

(** Full scale, [1.0], leaves the int16 range and comes back as
    [-32768]; [70000.0] keeps its low 16 bits; NaN becomes [0]. *)
Example astype_int16_wrap_out_of_range :
  AudioHandler.to_int16 [f32_one] = [-32768]
  /\ astype_int16 (f32_mul f32_one f32768) = None
  /\ astype_int16_wrap (f32_of_int 70000) = 4464
  /\ astype_int16_wrap (f32_of_int (-32769)) = 32767
  /\ astype_int16_wrap S754_nan = 0
  /\ astype_int16_wrap (S754_infinity false) = 0
  /\ astype_int16_wrap (f32_of_int 10000000000) = 0.
Proof. vm_compute. repeat split; reflexivity. Qed.

End WrappingCast.

(* ================================================================== *)
(** * [approach_4_realtime_fixed.py]: [SimpleRealTimeProcessor] *)
(* ================================================================== *)

Section ProcessorFacts.

Import Py Processor.

(** [torch] is not a name of the module, so [process_audio] leaves its
    [try] block before the detector is called. *)
Lemma process_audio_raises_name_error (lower : str -> str)
      (self : SimpleRealTimeProcessor) (audio_data : list Float.float32)
      (language : string) :
  process_audio lower self audio_data language
  = (self, [PrintProcessingError "name 'torch' is not defined"]).
Proof. reflexivity. Qed.

Lemma tobytes_app (a b : list Z) :
  AudioHandler.tobytes_int16 (a ++ b)
  = AudioHandler.tobytes_int16 a ++ AudioHandler.tobytes_int16 b.
Proof. induction a as [ | z a IH]; simpl; [ | rewrite IH]; reflexivity. Qed.

Lemma tobytes_length (a : list Z) :
  List.length (AudioHandler.tobytes_int16 a) = 2 * List.length a.
Proof. induction a as [ | z a IH]; simpl; [ | rewrite IH]; lia. Qed.

Lemma transcribed_errors (e : string) (n : nat) :
  transcribed (repeat (PrintProcessingError e) n) = [].
Proof. induction n as [ | n IH]; [reflexivity | exact IH]. Qed.

End ProcessorFacts.

Section ProcessorLoop.

Import Py Processor.

Variable lower : str -> str.
Variable self : SimpleRealTimeProcessor.

Let W := sample_rate self * 2.

(** The loop with [process_audio] as callback: the windows are cut as
    before, and each of them costs one line. *)
Lemma processor_items_fail (got : list (option Approach4.frame)) :
  forall buffer,
  exists n,
    process_items lower self buffer got
    = (self,
       skipn (n * sample_rate self) (buffer ++ Approach4.stream got),
       repeat (PrintProcessingError "name 'torch' is not defined") n)
    /\ n <= List.length got
    /\ (List.length buffer < W ->
        W <= List.length (buffer ++ Approach4.stream got) -> 1 <= n).
Proof.
  induction got as [ | item rest IH]; intro buffer.
  - exists 0. cbn [process_items Approach4.stream Nat.mul skipn repeat].
    rewrite app_nil_r. split; [reflexivity | ]. split; [lia | ].
    cbn [List.length]. lia.
  - cbn [process_items Approach4.stream]. unfold process_item.
    destruct item as [audio_chunk | ].
    2:{ destruct (IH buffer) as (n & Hrun & Hn & Hfull).
        rewrite Hrun. exists n. split; [reflexivity | ].
        split; [cbn [List.length]; lia | exact Hfull]. }
    cbv zeta. rewrite (Nat.div_mul (sample_rate self) 2) by lia.
    rewrite process_audio_raises_name_error.
    set (sr := sample_rate self) in *.
    destruct (Nat.leb_spec (sr * 2) (List.length (buffer ++ audio_chunk)))
      as [Hfull | Hnot].
    + destruct (IH (skipn sr (buffer ++ audio_chunk))) as (n & Hrun & Hn & _).
      assert (Hskip : skipn sr (buffer ++ audio_chunk) ++ Approach4.stream rest
                      = skipn sr (buffer ++ audio_chunk ++ Approach4.stream rest)).
      { rewrite app_assoc, (skipn_app sr (buffer ++ audio_chunk)).
        replace (sr - List.length (buffer ++ audio_chunk)) with 0 by lia.
        reflexivity. }
      rewrite Hrun, Hskip, skipn_skipn. exists (S n).
      split; [ | split; [cbn [List.length]; lia | lia]].
      cbn [repeat app]. do 2 f_equal. f_equal. cbn [Nat.mul]. lia.
    + destruct (IH (buffer ++ audio_chunk)) as (n & Hrun & Hn & Hone).
      rewrite Hrun. exists n. rewrite <- !app_assoc in *.
      split; [reflexivity | ]. split; [cbn [List.length]; lia | ].
      intros _ Hlong. apply Hone; [exact Hnot | exact Hlong].
Qed.

End ProcessorLoop.

Section ProcessorFrames.

Import Py Processor.

(** The frames made of raw blocks of even length: two bytes a sample. *)
Lemma frames_of_even_blocks (blocks : list (list byte)) :
  Forall (fun b => Nat.even (List.length b) = true) blocks ->
  exists got,
    frames_of blocks = Some got
    /\ List.length got = List.length blocks
    /\ List.length (List.concat blocks)
       = 2 * List.length (Approach4.stream got).
Proof.
  induction 1 as [ | b rest Hb _ (got & Hf & Hlen & Hcat)].
  - exists []. simpl. repeat split; auto.
  - pose proof (frombuffer_int16_spec b) as Hspec. rewrite Hb in Hspec.
    destruct Hspec as (zs & Hzs & Hb2).
    exists (Some (map AudioHandler.normalize zs) :: got).
    cbn [frames_of]. unfold Approach4.audio_frame.
    rewrite Hzs, Hf. cbn [bind List.concat List.length Approach4.stream].
    split; [reflexivity | ]. split; [lia | ].
    rewrite !length_app, length_map, Hcat, Hb2. lia.
Qed.

End ProcessorFrames.

Section ProcessorClaims.

Import Py Processor.

(** X15. In [SimpleRealTimeProcessor] no captured byte ever reaches the
    recogniser. [torch] is imported inside [main] only, so it is not a
    name of the module, and [process_audio] leaves its [try] block with
    a [NameError] before the detector is called. For raw blocks of even
    length, [_audio_callback] makes the frames and [process_audio_queue]
    cuts its windows as usual, at least one once [4 * sample_rate] bytes
    have come; each window costs one "Processing error" line and
    nothing else: nothing is transcribed, and the processor, its
    language included, is left as it was. *)
Theorem processor_never_reaches_the_recogniser
        (lower : str -> str) (self : SimpleRealTimeProcessor)
        (blocks : list (list byte)) :
  Forall (fun b => Nat.even (List.length b) = true) blocks ->
  exists got n,
    frames_of blocks = Some got
    /\ process_items lower self [] got
       = (self,
          skipn (n * sample_rate self) (Approach4.stream got),
          repeat (PrintProcessingError "name 'torch' is not defined") n)
    /\ transcribed (snd (process_items lower self [] got)) = []
    /\ n <= List.length blocks
    /\ (0 < sample_rate self ->
        4 * sample_rate self <= List.length (List.concat blocks) ->
        1 <= n).
Proof.
  intro Heven.
  destruct (frames_of_even_blocks Heven) as (got & Hf & Hlen & Hcat).
  destruct (processor_items_fail lower self got [])
    as (n & Hrun & Hn & Hone).
  cbn [app List.length] in Hrun, Hone.
  exists got, n. split; [exact Hf | ]. split; [exact Hrun | ].
  split; [rewrite Hrun; apply transcribed_errors | ].
  split; [lia | ].
  intros Hsr Hlong. apply Hone; lia.
Qed.

(** Two blocks at a sample rate of 1: each of them completes a window
    of two samples, and each window ends in the error line. *)
Lemma processor_never_reaches_the_recogniser_witness :
  let self := {| sample_rate := 1;
                 current_language := "es";
                 language_detector := SimpleLanguageDetector.init Float.f0_8;
                 speech_recognizer :=
                   {| SimpleSpeechRecognizer.recognizer :=
                        Some (Vosk.new Examples.hello_model) |};
                 text_to_speech :=
                   {| SimpleTextToSpeech.tts_engine := None |} |} in
  let blocks := [[x01; x00; x02; x00]; [x03; x00]] in
  (exists got n,
      frames_of blocks = Some got
      /\ process_items (fun s => s) self [] got
         = (self,
            skipn (n * 1) (Approach4.stream got),
            repeat (PrintProcessingError "name 'torch' is not defined") n)
      /\ transcribed (snd (process_items (fun s => s) self [] got)) = []
      /\ n <= 2
      /\ (0 < 1 -> 4 * 1 <= 6 -> 1 <= n))
  /\ option_map (fun got => snd (process_items (fun s => s) self [] got))
                (frames_of blocks)
     = Some [PrintProcessingError "name 'torch' is not defined";
             PrintProcessingError "name 'torch' is not defined"].
Proof.
  intros self blocks. split.
  - apply (@processor_never_reaches_the_recogniser (fun s => s) self blocks).
    repeat constructor.
  - vm_compute. reflexivity.
Defined.

(** X16. [process_audio] never announces anything, the placeholder of
    [SimpleSpeechRecognizer] included: whatever the processor, with or
    without Vosk, and whatever the window, it returns with the
    processor unchanged after the single line "Processing error: name
    'torch' is not defined", so that it neither switches the language
    nor transcribes, prints or speaks. Yet without a recogniser
    [transcribe_audio] does answer the placeholder for any audio, a
    text of more than 3 characters that the length test of
    [process_audio] would let through. *)
Theorem processor_never_announces_the_placeholder
        (lower : str -> str) (self : SimpleRealTimeProcessor)
        (audio_data : list Float.float32) (language : string) :
  process_audio lower self audio_data language
  = (self, [PrintProcessingError "name 'torch' is not defined"])
  /\ (forall e, In e (snd (process_audio lower self audio_data language)) ->
                match e with
                | PrintProcessingError _ => True
                | _ => False
                end)
  /\ (SimpleSpeechRecognizer.recognizer (speech_recognizer self) = None ->
      forall audio_bytes l,
        SimpleSpeechRecognizer.transcribe_audio (speech_recognizer self)
                                                audio_bytes l
        = (SimpleSpeechRecognizer.placeholder, speech_recognizer self))
  /\ (truthy SimpleSpeechRecognizer.placeholder
      && (3 <? len (strip SimpleSpeechRecognizer.placeholder))%Z) = true.
Proof.
  split; [reflexivity | ]. split; [ | split].
  - rewrite process_audio_raises_name_error. cbn [snd].
    intros e [<- | []]. exact I.
  - intros Hno audio_bytes l.
    unfold SimpleSpeechRecognizer.transcribe_audio. rewrite Hno. reflexivity.
  - vm_compute. reflexivity.
Qed.

End ProcessorClaims.

(* ================================================================== *)
(** * [text_to_speech_simple.py] *)
(* ================================================================== *)

Section SimpleCollaborators.

Import Py.

Import SimpleTextToSpeech.

Lemma returns_tt (o : outcome unit) : raises o = false <-> o = Return tt.
Proof. destruct o as [[] | e]; simpl; split; congruence. Qed.

(** X17. [SimpleTextToSpeech] never raises and a blank text never
    reaches the engine. [speak_text] succeeds exactly when the text is
    not blank, the engine has [say] and the call does not raise: an
    engine without [say] (Coqui) is never used to speak.
    [synthesize_speech] succeeds exactly when the text is not blank and
    [tts_to_file], or failing that [save_to_file], is there and does not
    raise: [tts_to_file] is preferred, and [save_to_file] is not tried
    when it fails. *)
Theorem simple_tts_succeeds_exactly_when
        (self : t) (text : str) (language output_path : string) :
  (fst (speak_text self text language) = true
   <-> truthy (strip text) = true
       /\ exists e f, tts_engine self = Some e /\ say e = Some f
                      /\ f text = Return tt)
  /\ (fst (synthesize_speech self text language output_path) = true
      <-> truthy (strip text) = true
          /\ exists e, tts_engine self = Some e
                       /\ ((exists f, tts_to_file e = Some f
                                      /\ f text output_path language = Return tt)
                           \/ (tts_to_file e = None
                               /\ exists f, save_to_file e = Some f
                                            /\ f text output_path = Return tt)))
  /\ (truthy (strip text) = false ->
      speak_text self text language = (false, [])
      /\ synthesize_speech self text language output_path = (false, []))
  /\ (forall e, tts_engine self = Some e -> say e = None ->
                speak_text self text language
                = (false, if truthy (strip text)
                          then [PrintWouldSpeak text language] else [])).
Proof.
  unfold speak_text, synthesize_speech.
  destruct (truthy (strip text)) eqn:Hb; cbn [negb].
  - split; [ | split; [ | split]].
    + destruct (tts_engine self) as [e | ]; cbn [fst].
      * destruct (say e) as [f | ] eqn:Hs.
        -- destruct (f text) as [[] | err] eqn:Hf; cbn [fst]; split.
           ++ intros _. split; [reflexivity | ]. exists e, f. auto.
           ++ reflexivity.
           ++ discriminate.
           ++ intros (_ & e' & f' & He & Hs' & Hf').
              inversion He; subst e'. rewrite Hs in Hs'. inversion Hs'; subst f'.
              congruence.
        -- cbn [fst]. split; [discriminate | ].
           intros (_ & e' & f' & He & Hs' & _).
           inversion He; subst e'. congruence.
      * split; [discriminate | ]. intros (_ & e & f & He & _). discriminate.
    + destruct (tts_engine self) as [e | ]; cbn [fst].
      * destruct (tts_to_file e) as [f | ] eqn:Ht.
        -- destruct (f text output_path language) as [[] | err] eqn:Hf;
             cbn [fst]; split.
           ++ intros _. split; [reflexivity | ]. exists e. split; [reflexivity | ].
              left. exists f. auto.
           ++ reflexivity.
           ++ discriminate.
           ++ intros (_ & e' & He & [(f' & Ht' & Hf') | (Ht' & _)]);
                inversion He; subst e'; rewrite Ht in Ht'.
              ** inversion Ht'; subst f'. congruence.
              ** discriminate.
        -- destruct (save_to_file e) as [f | ] eqn:Hs.
           ++ destruct (f text output_path) as [[] | err] eqn:Hf;
                cbn [fst]; split.
              ** intros _. split; [reflexivity | ]. exists e.
                 split; [reflexivity | ]. right. split; [exact Ht | ].
                 exists f. auto.
              ** reflexivity.
              ** discriminate.
              ** intros (_ & e' & He & [(f' & Ht' & _) | (_ & f' & Hs' & Hf')]);
                   inversion He; subst e'.
                 --- rewrite Ht in Ht'. discriminate.
                 --- rewrite Hs in Hs'. inversion Hs'; subst f'. congruence.
           ++ cbn [fst]. split; [discriminate | ].
              intros (_ & e' & He & [(f' & Ht' & _) | (_ & f' & Hs' & _)]);
                inversion He; subst e'; congruence.
      * split; [discriminate | ]. intros (_ & e & He & _). discriminate.
    + discriminate.
    + intros e He Hs. rewrite He, Hs. reflexivity.
  - split; [ | split; [ | split]].
    + cbn [fst]. split; [discriminate | intros [H _]; discriminate].
    + cbn [fst]. split; [discriminate | intros [H _]; discriminate].
    + auto.
    + intros e He Hs. reflexivity.
Qed.

End SimpleCollaborators.

(* ================================================================== *)
(** * [main.py]: [process_file] *)
(* ================================================================== *)

Section ProcessFile.

Import Py Main.

Lemma synthesize_speech_saved (tts : TextToSpeech.t) (text : str)
      (language output_path : string) :
  fst (TextToSpeech.synthesize_speech tts text language output_path) = true ->
  truthy (strip text) = true
  /\ exists m, TextToSpeech.model tts = Some m
               /\ m text output_path language = Return tt.
Proof.
  unfold TextToSpeech.synthesize_speech.
  destruct (TextToSpeech.model tts) as [m | ]; [ | discriminate].
  destruct (truthy (strip text)); cbn [negb]; [ | discriminate].
  destruct (m text output_path language) as [[] | e] eqn:Hm;
    [ | discriminate].
  intros _. split; [reflexivity | ]. exists m. auto.
Qed.

(** X18. [process_file] never raises and never switches the active
    language, whatever language it detects; the detector is untouched.
    It feeds the recogniser exactly when the file was read and the
    detection is confident, and then with the samples of the file cast
    to int16 as the machine casts them, under the detected language; it
    synthesises only after that and only when an output file was given;
    and it reports the output as saved only when the transcription is
    not blank and the model wrote the file. *)
Theorem process_file_keeps_the_language
        (self : LanguageSwitchSystem) (tts : TextToSpeech.t)
        (loaded : outcome AudioHandler.tensor) (output_file : option string) :
  let self' := fst (process_file self tts loaded output_file) in
  let evs := snd (process_file self tts loaded output_file) in
  current_language self' = current_language self
  /\ language_detector self' = language_detector self
  /\ (forall a l,
         In (FileTranscribe a l) evs <->
         exists t c,
           loaded = Return t
           /\ LanguageDetector.detect_language (language_detector self) t
              = Return (l, c)
           /\ LanguageDetector.is_confidence_high (language_detector self) c
              = true
           /\ a = AudioHandler.tobytes_int16 (AudioHandler.to_int16 t))
  /\ (forall tev,
         In (Synthesis tev) evs ->
         output_given output_file <> None
         /\ exists a l, In (FileTranscribe a l) evs)
  /\ (forall f,
         In (PrintSaved f) evs ->
         output_given output_file = Some f
         /\ exists text, In (PrintFileTranscription text) evs
                         /\ truthy (strip text) = true
                         /\ TextToSpeech.model tts <> None).
Proof.
  cbv zeta. unfold process_file.
  destruct loaded as [t | e].
  2:{ cbn [fst snd]. split; [reflexivity | ]. split; [reflexivity | ].
      split; [ | split].
      - intros a l. split.
        + intros [H | []]; discriminate.
        + intros (t & c & H & _). discriminate.
      - intros tev [H | []]; discriminate.
      - intros f [H | []]; discriminate. }
  destruct (LanguageDetector.detect_language (language_detector self) t)
    as [[l c] | e] eqn:Hd.
  2:{ cbn [fst snd]. split; [reflexivity | ]. split; [reflexivity | ].
      split; [ | split].
      - intros a l. split.
        + intros [H | []]; discriminate.
        + intros (t0 & c & H & Hd0 & _). injection H as <-. congruence.
      - intros tev [H | []]; discriminate.
      - intros f [H | []]; discriminate. }
  destruct (LanguageDetector.is_confidence_high (language_detector self) c)
    eqn:Hc; cbn [negb].
  2:{ cbn [fst snd]. split; [reflexivity | ]. split; [reflexivity | ].
      split; [ | split].
      - intros a l'. split.
        + intros [H | [H | []]]; discriminate.
        + intros (t0 & c0 & H & Hd0 & Hc0 & _). injection H as <-.
          rewrite Hd in Hd0. injection Hd0 as <- <-. congruence.
      - intros tev [H | [H | []]]; discriminate.
      - intros f [H | [H | []]]; discriminate. }
  set (audio_bytes := AudioHandler.tobytes_int16 (AudioHandler.to_int16 t)).
  destruct (SpeechRecognizer.transcribe_audio _ _ _) as [res sr].
  assert (Hft : forall a l',
             FileTranscribe audio_bytes l = FileTranscribe a l' ->
             exists t0 c0,
               Return t = Return t0
               /\ LanguageDetector.detect_language (language_detector self) t0
                  = Return (l', c0)
               /\ LanguageDetector.is_confidence_high (language_detector self) c0
                  = true
               /\ a = AudioHandler.tobytes_int16 (AudioHandler.to_int16 t0)).
  { intros a l' H. injection H as <- <-. exists t, c. auto. }
  assert (Hback : forall a l',
             (exists t0 c0,
                 Return t = Return t0
                 /\ LanguageDetector.detect_language (language_detector self) t0
                    = Return (l', c0)
                 /\ LanguageDetector.is_confidence_high
                      (language_detector self) c0 = true
                 /\ a = AudioHandler.tobytes_int16 (AudioHandler.to_int16 t0)) ->
             FileTranscribe a l' = FileTranscribe audio_bytes l).
  { intros a l' (t0 & c0 & H & Hd0 & _ & ->). injection H as <-.
    rewrite Hd in Hd0. injection Hd0 as <- <-. reflexivity. }
  destruct res as [text | e].
  2:{ cbn [fst snd]. split; [reflexivity | ]. split; [reflexivity | ].
      split; [ | split].
      - intros a l'. split.
        + intros [H | [H | [H | []]]]; try discriminate. exact (Hft _ _ H).
        + intro H. rewrite (Hback _ _ H). right. left. reflexivity.
      - intros tev [H | [H | [H | []]]]; discriminate.
      - intros f [H | [H | [H | []]]]; discriminate. }
  destruct (output_given output_file) as [f | ] eqn:Hout.
  - destruct (TextToSpeech.synthesize_speech tts text l f) as [ok tev] eqn:Hs.
    cbn [fst snd]. split; [reflexivity | ].
    split; [reflexivity | ]. split; [ | split].
    + intros a l'. split.
      * intro Hin.
        destruct Hin as [H | [H | [H | [H | [H | []]]]]];
          try discriminate; try exact (Hft _ _ H).
        destruct ok; discriminate.
      * intro H. rewrite (Hback _ _ H). right. left. reflexivity.
    + intros tev' _. split; [discriminate | ].
      exists audio_bytes, l. right. left. reflexivity.
    + intros f' Hin.
      destruct Hin as [H | [H | [H | [H | [H | []]]]]];
        try discriminate.
      destruct ok; [ | discriminate]. injection H as <-.
      split; [reflexivity | ].
      pose proof (@synthesize_speech_saved tts text l f) as Hsaved.
      rewrite Hs in Hsaved. destruct (Hsaved eq_refl) as (Hnb & m & Hm & _).
      exists text. split; [ | split; [exact Hnb | congruence]].
      right. right. left. reflexivity.
  - cbn [fst snd]. split; [reflexivity | ].
    split; [reflexivity | ]. split; [ | split].
    + intros a l'. split.
      * intros [H | [H | [H | []]]]; try discriminate. exact (Hft _ _ H).
      * intro H. rewrite (Hback _ _ H). right. left. reflexivity.
    + intros tev [H | [H | [H | []]]]; discriminate.
    + intros f [H | [H | [H | []]]]; discriminate.
Qed.

(** A file whose first sample is at full scale, [1.0], as a 24-bit or
    a float file can hold: the sample leaves the int16 range, is sent to
    the recogniser as [-32768] (bytes [00 80]), and the file is
    transcribed and synthesised like any other. *)
Example process_file_sends_full_scale_wrapped :
  let self := Examples.system Float.f0_8
                (Some (Examples.const_classifier "es" Float.f0_9)) "en" in
  let tts := {| TextToSpeech.model := Some (fun _ _ _ => Return tt) |} in
  let r := process_file self tts
             (Return [Float.f32_one; AudioHandler.normalize 256])
             (Some "out.wav"%string) in
  AudioHandler.denormalize [Float.f32_one; AudioHandler.normalize 256] = None
  /\ current_language (fst r) = "en"%string
  /\ In (FileTranscribe [x00; x80; x00; x01] "es") (snd r)
  /\ In (PrintSaved "out.wav") (snd r).
Proof.
  vm_compute. split; [reflexivity | ]. split; [reflexivity | ].
  split; [right; left; reflexivity | ].
  right. right. right. right. left. reflexivity.
Qed.

(** X19. For a file of 16-bit PCM samples, which [sf.read] returns
    divided by 32768, [process_file] hands the recogniser, when the
    detection is confident, exactly the little-endian bytes of the
    samples, under the detected language. *)
Theorem process_file_feeds_the_pcm_bytes
        (self : LanguageSwitchSystem) (tts : TextToSpeech.t)
        (samples : list Z) (output_file : option string)
        (l : string) (c : Float.float) :
  Forall AudioHandler.is_int16 samples ->
  LanguageDetector.detect_language (language_detector self)
    (map AudioHandler.normalize samples) = Return (l, c) ->
  LanguageDetector.is_confidence_high (language_detector self) c = true ->
  exists self' evs,
    process_file self tts (Return (map AudioHandler.normalize samples))
                 output_file
    = (self', evs)
    /\ In (FileTranscribe (AudioHandler.tobytes_int16 samples) l) evs
    /\ current_language self' = current_language self.
Proof.
  intros Hs Hd Hc. unfold process_file.
  rewrite Hd, Hc. cbn [negb]. rewrite (to_int16_normalize Hs).
  destruct (transcribe_audio_stripped (speech_recognizer self)
              (AudioHandler.tobytes_int16 samples) l)
    as (text & sr & Htx & _).
  rewrite Htx.
  destruct (output_given output_file) as [f | ].
  - destruct (TextToSpeech.synthesize_speech tts text l f) as [ok tev].
    do 2 eexists. split; [reflexivity | ].
    split; [right; left; reflexivity | reflexivity].
  - do 2 eexists. split; [reflexivity | ].
    split; [right; left; reflexivity | reflexivity].
Qed.

Lemma process_file_feeds_the_pcm_bytes_witness :
  let self := Examples.system Float.f0_8
                (Some (Examples.const_classifier "es" Float.f0_9)) "en" in
  let tts := {| TextToSpeech.model := None |} in
  exists self' evs,
    process_file self tts
      (Return (map AudioHandler.normalize [0; 256; -1]%Z)) None
    = (self', evs)
    /\ In (FileTranscribe (AudioHandler.tobytes_int16 [0; 256; -1]%Z) "es") evs
    /\ current_language self' = "en"%string.
Proof.
  intros self tts.
  apply (@process_file_feeds_the_pcm_bytes self tts [0; 256; -1]%Z None
           "es"%string Float.f0_9).
  - repeat constructor; unfold AudioHandler.is_int16; lia.
  - reflexivity.
  - reflexivity.
Defined.

End ProcessFile.

(* ================================================================== *)
(** * The capture callback of approach 4 and the loop of
      [simple_working.py] *)
(* ================================================================== *)

Section CaptureAndSimpleLoop.

Import Py.

(** X20. The capture callback of [approach_4_realtime_fixed.py] on the
    queue made by [queue.Queue()]: while not recording it leaves the
    queue alone; while recording it appends, without ever blocking, one
    frame of [len / 2] samples, all in [-1, 1], for a block of even
    length; and a block of odd length makes it raise, [np.frombuffer]
    being unguarded there. *)
Theorem approach4_callback_frames
        (audio_queue : PyQueue.Queue Approach4.frame) (in_data : list byte) :
  PyQueue.maxsize audio_queue = 0%Z ->
  Approach4._audio_callback false audio_queue in_data
  = Return (PyQueue.Put audio_queue)
  /\ if Nat.even (List.length in_data)
     then exists f,
         Approach4._audio_callback true audio_queue in_data
         = Return (PyQueue.Put
                     {| PyQueue.maxsize := 0;
                        PyQueue.items := PyQueue.items audio_queue ++ [f] |})
         /\ List.length f = List.length in_data / 2
         /\ Forall (fun x => Int16.in_unit_interval x = true) f
     else raises (Approach4._audio_callback true audio_queue in_data) = true.
Proof.
  intro Hmax. split; [reflexivity | ].
  unfold Approach4._audio_callback, Approach4.audio_frame.
  pose proof (frombuffer_int16_spec in_data) as Hspec.
  destruct (Nat.even (List.length in_data)).
  - destruct Hspec as (a & Ha & Hlen). rewrite Ha. cbn [bind].
    exists (map AudioHandler.normalize a).
    unfold PyQueue.put, PyQueue.full. rewrite Hmax. cbn [Z.ltb andb].
    split; [reflexivity | ]. split.
    + rewrite length_map, Hlen.
      replace (2 * List.length a) with (List.length a * 2) by lia.
      rewrite Nat.div_mul by lia. reflexivity.
    + apply normalize_in_unit_interval.
      apply (frombuffer_int16_range _ Ha).
  - destruct Hspec as (e & ->). reflexivity.
Qed.

Lemma approach4_callback_frames_witness :
  Approach4._audio_callback false (PyQueue.create Approach4.frame)
                            [x00; x80; xff]
  = Return (PyQueue.Put (PyQueue.create Approach4.frame))
  /\ raises (Approach4._audio_callback true (PyQueue.create Approach4.frame)
                                      [x00; x80; xff]) = true.
Proof.
  apply (@approach4_callback_frames (PyQueue.create Approach4.frame)
           [x00; x80; xff]).
  reflexivity.
Defined.

Import SimpleWorking.
Local Open Scope Z_scope.

(** X21. One turn of the loop of [SimpleWorkingSystem.run]: a
    transcription of more than two characters is always announced,
    printed and, with an engine, spoken behind "I heard: ", whether or
    not it repeats the previous one, since this loop keeps no memory of
    it; the recogniser is then replaced by a new one on the same model.
    A shorter transcription is dropped and the recogniser goes on with
    what it has heard. *)
Theorem simple_loop_announces_every_long_transcription
        (self : SimpleWorkingSystem) (audio_data : bytes) :
  let t := fst (fst (process_audio_chunk self audio_data)) in
  let self1 := snd (fst (process_audio_chunk self audio_data)) in
  if 2 <? len t
  then emissions (snd (run_step self audio_data))
       = PrintSpeechDetected t
         :: match tts_engine self with
            | Some _ => [Say (lit "I heard: " ++ t)]
            | None => []
            end
       /\ vosk_recognizer (fst (run_step self audio_data))
          = option_map (fun r => Vosk.new (Vosk.model r))
                       (vosk_recognizer self)
  else emissions (snd (run_step self audio_data)) = []
       /\ fst (run_step self audio_data) = self1.
Proof.
  cbv zeta. unfold run_step.
  assert (Hev : emissions (snd (process_audio_chunk self audio_data)) = []
                /\ tts_engine (snd (fst (process_audio_chunk self audio_data)))
                   = tts_engine self
                /\ option_map Vosk.model
                     (vosk_recognizer
                        (snd (fst (process_audio_chunk self audio_data))))
                   = option_map Vosk.model (vosk_recognizer self)).
  { unfold process_audio_chunk.
    destruct self as [[r | ] engine]; cbn [vosk_recognizer tts_engine];
      [ | split; [reflexivity | split; reflexivity]].
    unfold Vosk.feed. cbv zeta.
    destruct (Vosk.accept_waveform _ _) as [[x | p] | e]; cbn;
      (split; [reflexivity | split; reflexivity]). }
  destruct (process_audio_chunk self audio_data) as [[t self1] ev1].
  cbn [fst snd] in *. destruct Hev as (Hev & Htts & Hmodel).
  destruct (Z.ltb_spec 2 (len t)) as [Hlong | Hshort].
  - rewrite (@long_is_truthy t Hlong). cbn [andb fst snd].
    unfold emissions in *. rewrite filter_app, Hev. cbn [app filter is_emission].
    split.
    + f_equal. unfold speak. rewrite Htts.
      destruct (tts_engine self) as [engine | ]; [ | reflexivity].
      change (lit "I heard: " ++ t) with (73%N :: (lit " heard: " ++ t)).
      cbn [truthy]. destruct (engine _); reflexivity.
    + destruct (vosk_recognizer self1) as [r1 | ],
               (vosk_recognizer self) as [r | ];
        simpl in *; congruence.
  - rewrite andb_false_r. cbn [fst snd]. auto.
Qed.

End CaptureAndSimpleLoop.
